(** * Certificate-Generator: a shallow embedding of the certificate pipeline

    The Python sources embedded here are [generate.py] (course certificates),
    [src/generate_bitcoin_pdf_certificate.py],
    [src/generate_bitcoin_txt_certificate.py] and
    [src/generate_course_txt_certificate.py].

    Conventions of the embedding:
    - a Python [str] (and a [bytes] object) is a [string]: a list of 8-bit
      characters, read as code points below 256;
    - Python integers are [Z] (or [nat] where the code only counts);
    - a function that can raise returns a [res]; a function with effects on
      the file system or calling an external program runs in the monad [M],
      which threads a [World];
    - external programs (ots, curl, gpg, lualatex) and library calls whose
      code is not part of the repository are fields of an [Env]. *)

From Stdlib Require Import ZArith Lia Bool Ascii String List.
From stdpp Require Import base option list gmap strings sorting.
From Equations Require Import Equations.

Local Open Scope nat_scope.
Set Warnings "-register-all".

(** * Part I: the embedding *)

(** ** Python [str] primitives *)

Module Str.

Fixpoint take (n : nat) (s : string) : string :=
  match n, s with
  | S n', String c s' => String c (take n' s')
  | _, _ => EmptyString
  end.

Fixpoint drop (n : nat) (s : string) : string :=
  match n, s with
  | S n', String _ s' => drop n' s'
  | _, _ => s
  end.

(** [s[i:j]] for [0 <= i] and [0 <= j]: indices past the end are clipped. *)
Definition slice (i j : nat) (s : string) : string := take (j - i) (drop i s).

(** [s[i:j]] for arbitrary integers: a negative index counts from the end. *)
Definition norm_index (len : nat) (i : Z) : nat :=
  if (i <? 0)%Z then Z.to_nat (Z.max 0 (Z.of_nat len + i))
  else Nat.min len (Z.to_nat i).

Definition pyslice (i j : Z) (s : string) : string :=
  let n := String.length s in
  slice (norm_index n i) (norm_index n j) s.

(** [sep.join(l)] *)
Fixpoint join (sep : string) (l : list string) : string :=
  match l with
  | [] => EmptyString
  | [x] => x
  | x :: rest => x +:+ sep +:+ join sep rest
  end.

(** [s.startswith(p)] *)
Fixpoint prefix (p s : string) : bool :=
  match p, s with
  | EmptyString, _ => true
  | String a p', String b s' => if Ascii.eqb a b then prefix p' s' else false
  | String _ _, EmptyString => false
  end.

Definition startswith (s p : string) : bool := prefix p s.

Definition endswith (s p : string) : bool :=
  String.eqb (drop (String.length s - String.length p) s) p
  && (String.length p <=? String.length s).

(** [s.removesuffix(p)] *)
Definition removesuffix (s p : string) : string :=
  if endswith s p && negb (String.eqb p EmptyString)
  then take (String.length s - String.length p) s else s.

Fixpoint chars (s : string) : list ascii :=
  match s with
  | EmptyString => []
  | String c s' => c :: chars s'
  end.

(** Code point of a character. *)
Definition code (c : ascii) : nat := nat_of_ascii c.

(** [c.isspace()], which is also the class [\s] of a [str] pattern, on
    code points below 256. *)
Definition is_space (c : ascii) : bool :=
  let n := code c in
  ((9 <=? n) && (n <=? 13)) || ((28 <=? n) && (n <=? 32))
  || (n =? 133) || (n =? 160).

(** The class [\d] of a [str] pattern on code points below 256. *)
Definition is_digit (c : ascii) : bool :=
  let n := code c in (48 <=? n) && (n <=? 57).

(** [c.lower()] on code points below 256: the ASCII capitals and the
    Latin-1 capitals 0xC0-0xDE except the multiplication sign 0xD7. *)
Definition lower_char (c : ascii) : ascii :=
  let n := code c in
  if ((65 <=? n) && (n <=? 90))
     || ((192 <=? n) && (n <=? 222) && negb (n =? 215))
  then ascii_of_nat (n + 32) else c.

(** [c.upper()] on the ASCII letters ([str.upper] of a course id). *)
Definition upper_char (c : ascii) : ascii :=
  let n := code c in
  if (97 <=? n) && (n <=? 122) then ascii_of_nat (n - 32) else c.

Fixpoint upper (s : string) : string :=
  match s with
  | EmptyString => EmptyString
  | String c s' => String (upper_char c) (upper s')
  end.

Fixpoint lstrip (s : string) : string :=
  match s with
  | String c s' => if is_space c then lstrip s' else s
  | EmptyString => EmptyString
  end.

Fixpoint rstrip (s : string) : string :=
  match s with
  | EmptyString => EmptyString
  | String c s' =>
      match rstrip s' with
      | EmptyString => if is_space c then EmptyString else String c EmptyString
      | r => String c r
      end
  end.

(** [s.strip()] *)
Definition strip (s : string) : string := rstrip (lstrip s).

(** The longest prefix of characters satisfying [p]. *)
Fixpoint take_while (p : ascii -> bool) (s : string) : string :=
  match s with
  | String c s' => if p c then String c (take_while p s') else EmptyString
  | EmptyString => EmptyString
  end.

(** [s.replace(old, new)] for a non-empty [old]: the occurrences are found
    left to right and do not overlap. The recursion is on the text; after
    a match the [skip] counter walks over the rest of the matched
    occurrence. *)
Fixpoint replace_go (old new : string) (skip : nat) (s : string) : string :=
  match s with
  | EmptyString => EmptyString
  | String c s' =>
      match skip with
      | S k => replace_go old new k s'
      | O =>
          if prefix old s
          then new +:+ replace_go old new (String.length old - 1) s'
          else String c (replace_go old new 0 s')
      end
  end.

(** With an empty [old], Python inserts [new] before every character and
    at the end. *)
Fixpoint intersperse_all (new s : string) : string :=
  match s with
  | EmptyString => new
  | String c s' => new +:+ String c (intersperse_all new s')
  end.

Definition replace (s old new : string) : string :=
  match old with
  | EmptyString => intersperse_all new s
  | _ => replace_go old new 0 s
  end.

(** [s.find(sub, start)] for [0 <= start]: the lowest index at or after
    [start] where [sub] occurs, or [-1]. *)
Fixpoint find_go (sub s : string) (i : nat) : Z :=
  if prefix sub s then Z.of_nat i
  else match s with
       | EmptyString => (-1)%Z
       | String _ s' => find_go sub s' (S i)
       end.

Definition find (s sub : string) (start : nat) : Z :=
  if String.length s <? start then (-1)%Z
  else find_go sub (drop start s) start.

(** The index after the last occurrence of a character ([s.rfind(c) + 1]):
    0 when there is none. *)
Fixpoint after_last (c : ascii) (s : string) (i : nat) (acc : nat) : nat :=
  match s with
  | EmptyString => acc
  | String d s' => after_last c s' (S i) (if Ascii.eqb c d then S i else acc)
  end.

(** [s.split()]: the maximal runs of non-whitespace characters. *)
Fixpoint split_go (cur : option string) (s : string) : list string :=
  match s with
  | EmptyString => match cur with Some w => [w] | None => [] end
  | String c s' =>
      if is_space c
      then match cur with Some w => w :: split_go None s' | None => split_go None s' end
      else split_go (Some (match cur with Some w => w +:+ String c EmptyString | None => String c EmptyString end)) s'
  end.

Definition split (s : string) : list string := split_go None s.

End Str.

(** [str(n)] for a natural number. *)
Definition digit_char (n : nat) : ascii := ascii_of_nat (48 + n).

Fixpoint nat_to_str_go (fuel n : nat) (acc : string) : string :=
  match fuel with
  | O => acc
  | S f =>
      let acc' := String (digit_char (n mod 10)) acc in
      if n / 10 =? 0 then acc' else nat_to_str_go f (n / 10) acc'
  end.

Definition nat_to_str (n : nat) : string := nat_to_str_go (S n) n EmptyString.

Definition Z_to_str (z : Z) : string :=
  if (z <? 0)%Z then "-" +:+ nat_to_str (Z.to_nat (- z)) else nat_to_str (Z.to_nat z).

(** [range(start, stop, step)] for a positive [step]: the
    [ceil((stop - start) / step)] values [start + k * step]. *)
Definition py_range (start stop step : nat) : list nat :=
  map (fun k => start + k * step) (seq 0 ((stop - start + step - 1) / step)).

(** ** Exceptions and results *)

(** What [subprocess.run] is asked to run: a shell command line
    ([shell=True]) or an argument vector with a working directory. *)
Inductive command :=
| Shell (cmd : string)
| Exec (args : list string) (cwd : string).

Inductive exn :=
| CalledProcessError (cmd : command) (returncode : Z)
| AttributeError
| TypeError
| ValueError
| KeyError (key : string)
| IndexError
| FileNotFoundError (path : string)
| FileExistsError (path : string)
| OSError (path : string)
| LibraryError (what : string).

Inductive res (A : Type) :=
| Ok (a : A)
| Raise (e : exn).
Arguments Ok {A} a.
Arguments Raise {A} e.

(** [str(v)] of an [Optional[str]]. *)
Definition py_str (v : option string) : string :=
  match v with Some s => s | None => "None" end.

(** ** Hash and display formatter ([generate.py] lines 103-115; the same
    text is in [generate_bitcoin_pdf_certificate.py] lines 109-121) *)

Definition format_hash (hash_value : string) : string :=
  let chunks :=
    map (fun i => Str.slice i (i + 4) hash_value)
        (py_range 0 (String.length hash_value) 4) in
  let formatted_hash := Str.join " " chunks in
  formatted_hash.

Definition split_and_format_hash (hash : string) : string * string :=
  let midpoint := String.length hash / 2 in
  let first_half := Str.take midpoint hash in
  let second_half := Str.drop midpoint hash in
  (format_hash first_half, format_hash second_half).

(** De-formatting: in a formatted string every fifth character (index
    4, 9, 14, ...) is a separator that [format_hash] inserted; dropping
    exactly those characters undoes the formatting. *)
Fixpoint remove_inserted_spaces (s : string) : string :=
  match s with
  | String a (String b (String c (String d (String _ rest)))) =>
      String a (String b (String c (String d (remove_inserted_spaces rest))))
  | _ => s
  end.

(** Removing every space character: what a reader of a hexadecimal digest
    does to de-format it. *)
Fixpoint remove_spaces (s : string) : string :=
  match s with
  | EmptyString => EmptyString
  | String c s' =>
      if Ascii.eqb c " " then remove_spaces s' else String c (remove_spaces s')
  end.

(** [split_and_format_coursename] ([generate.py] lines 199-217) *)
Definition split_and_format_coursename (coursename : string) : string * string :=
  let words := Str.split coursename in
  let mid := length words / 2 in
  let first_half := Str.join " " (firstn mid words) in
  let second_half := Str.join " " (skipn mid words) in
  (first_half, second_half).

(** ** Regular expressions of the code

    [re.search] tries the start positions 0, 1, ..., [len(s)] in turn and
    returns the first match. A pattern is embedded as the function that
    matches it at the start of a text and returns its group 1. *)

Fixpoint re_search {A : Type} (m : string -> option A) (s : string) : option A :=
  match m s with
  | Some g => Some g
  | None =>
      match s with
      | EmptyString => None
      | String _ s' => re_search m s'
      end
  end.

(** [r"Bitcoin block (\d+)"]: the literal text, then the longest run of
    digits, which must not be empty. *)
Definition match_block_height (s : string) : option string :=
  if Str.prefix "Bitcoin block " s then
    match Str.take_while Str.is_digit (Str.drop 14 s) with
    | EmptyString => None
    | digits => Some digits
    end
  else None.

(** A literal matched under [re.IGNORECASE]. *)
Fixpoint prefix_ci (p s : string) : bool :=
  match p, s with
  | EmptyString, _ => true
  | String a p', String b s' =>
      if Ascii.eqb (Str.lower_char a) (Str.lower_char b) then prefix_ci p' s' else false
  | String _ _, EmptyString => false
  end.

(** [(.+)] at the end of a pattern: the longest run of characters other
    than the newline, which must not be empty. *)
Definition not_newline (c : ascii) : bool := negb (Ascii.eqb c "010").

Definition match_rest_of_line (s : string) : option string :=
  match Str.take_while not_newline s with
  | EmptyString => None
  | v => Some v
  end.

(** [\s*(.+)]: the greedy [\s*] first takes [k] whitespace characters and
    gives them back one at a time until [(.+)] matches. *)
Fixpoint match_ws_value_go (k : nat) (r : string) : option string :=
  match match_rest_of_line (Str.drop k r) with
  | Some v => Some v
  | None =>
      match k with
      | O => None
      | S k' => match_ws_value_go k' r
      end
  end.

Definition match_ws_value (r : string) : option string :=
  match_ws_value_go (String.length (Str.take_while Str.is_space r)) r.

(** [rf"{re.escape(property_name)}:?\s*(.+)"] with [re.IGNORECASE]: the
    name, then the greedy [:?] (first with the colon, then without). *)
Definition match_property (property_name : string) (s : string) : option string :=
  if prefix_ci property_name s then
    let r := Str.drop (String.length property_name) s in
    let with_colon :=
      match r with
      | String c r' => if Ascii.eqb c ":" then match_ws_value r' else None
      | EmptyString => None
      end in
    match with_colon with
    | Some v => Some v
    | None => match_ws_value r
    end
  else None.

(** ** SHA-256 ([hashlib.sha256]) *)

Module Sha256.

Local Open Scope Z_scope.

Definition w32 (x : Z) : Z := x mod 4294967296.
Definition add32 (x y : Z) : Z := w32 (x + y).
Definition rotr (n x : Z) : Z := Z.lor (Z.shiftr x n) (w32 (Z.shiftl x (32 - n))).
Definition Ch (x y z : Z) : Z :=
  Z.lxor (Z.land x y) (Z.land (Z.lxor x 4294967295) z).
Definition Maj (x y z : Z) : Z :=
  Z.lxor (Z.lxor (Z.land x y) (Z.land x z)) (Z.land y z).
Definition Sigma0 (x : Z) : Z := Z.lxor (Z.lxor (rotr 2 x) (rotr 13 x)) (rotr 22 x).
Definition Sigma1 (x : Z) : Z := Z.lxor (Z.lxor (rotr 6 x) (rotr 11 x)) (rotr 25 x).
Definition sigma0 (x : Z) : Z := Z.lxor (Z.lxor (rotr 7 x) (rotr 18 x)) (Z.shiftr x 3).
Definition sigma1 (x : Z) : Z := Z.lxor (Z.lxor (rotr 17 x) (rotr 19 x)) (Z.shiftr x 10).

(** The constants of the standard are fractional parts of roots of the
    first primes: of the cube roots of the first 64 primes for the round
    constants, of the square roots of the first 8 for the initial value. *)
Definition is_prime (n : nat) : bool :=
  forallb (fun d => negb (Nat.eqb (n mod d) 0)) (seq 2 (n - 2)).

Definition primes : list Z :=
  map Z.of_nat (List.filter is_prime (seq 2 310)).

(** The integer cube root, by bisection on the bits. *)
Definition cube_root (n : Z) : Z :=
  fold_left
    (fun r b => let r' := r + Z.shiftl 1 (Z.of_nat b) in
                if r' * r' * r' <=? n then r' else r)
    (rev (seq 0 36)) 0.

Definition K : list Z :=
  Eval vm_compute in map (fun p => w32 (cube_root (Z.shiftl p 96))) primes.

Definition H0 : list Z :=
  Eval vm_compute in map (fun p => w32 (Z.sqrt (Z.shiftl p 64))) (firstn 8 primes).

Definition byte_val (c : ascii) : Z := Z.of_nat (nat_of_ascii c).

(** The big-endian 32-bit words of a block. *)
Fixpoint words (s : string) : list Z :=
  match s with
  | String a (String b (String c (String d rest))) =>
      (byte_val a * 16777216 + byte_val b * 65536 + byte_val c * 256 + byte_val d)
        :: words rest
  | _ => []
  end.

(** The message schedule, kept most recent word first. *)
Fixpoint schedule (n : nat) (rev_w : list Z) : list Z :=
  match n with
  | O => rev_w
  | S n' =>
      let w :=
        add32 (add32 (sigma1 (nth 1 rev_w 0)) (nth 6 rev_w 0))
              (add32 (sigma0 (nth 14 rev_w 0)) (nth 15 rev_w 0)) in
      schedule n' (w :: rev_w)
  end.

Definition round (st : list Z) (kw : Z * Z) : list Z :=
  match st with
  | [a; b; c; d; e; f; g; h] =>
      let t1 := add32 (add32 (add32 h (Sigma1 e)) (add32 (Ch e f g) (fst kw))) (snd kw) in
      let t2 := add32 (Sigma0 a) (Maj a b c) in
      [add32 t1 t2; a; b; c; add32 d t1; e; f; g]
  | _ => st
  end.

Definition compress (hs : list Z) (block : string) : list Z :=
  let w := rev (schedule 48 (rev (words block))) in
  let out := fold_left round (combine K w) hs in
  map (fun p => add32 (fst p) (snd p)) (combine hs out).

(** The hash object: the chaining value, the bytes of the block being
    filled, and the number of bytes fed so far. *)
Record state := { chain : list Z; pending : string; fed : nat }.

(** [hashlib.sha256()] *)
Definition new : state := {| chain := H0; pending := EmptyString; fed := 0 |}.

Definition feed (st : state) (c : ascii) : state :=
  let block := (pending st +:+ String c EmptyString)%string in
  if (String.length block =? 64)%nat
  then {| chain := compress (chain st) block; pending := EmptyString; fed := S (fed st) |}
  else {| chain := chain st; pending := block; fed := S (fed st) |}.

(** [h.update(data)] *)
Fixpoint update (st : state) (data : string) : state :=
  match data with
  | EmptyString => st
  | String c data' => update (feed st c) data'
  end.

Definition byte_char (z : Z) : ascii := ascii_of_nat (Z.to_nat (z mod 256)).

Fixpoint zeros (n : nat) : string :=
  match n with
  | O => EmptyString
  | S n' => String (byte_char 0) (zeros n')
  end.

(** The 64-bit big-endian bit length. *)
Definition length_bytes (bits : Z) : string :=
  fold_right (fun k acc => String (byte_char (Z.shiftr bits (8 * k))) acc) EmptyString
             [7; 6; 5; 4; 3; 2; 1; 0].

(** The padding: a 1 bit, zeros up to 56 modulo 64 bytes, the length. *)
Definition padding (st : state) : string :=
  let used := S (String.length (pending st)) in
  let fill := ((64 + 56 - used mod 64) mod 64)%nat in
  (String (byte_char 128) (zeros fill) +:+ length_bytes (8 * Z.of_nat (fed st)))%string.

Definition hex_digit (z : Z) : ascii :=
  if z <? 10 then ascii_of_nat (Z.to_nat (48 + z)) else ascii_of_nat (Z.to_nat (87 + z)).

Definition hex_word (w : Z) : string :=
  fold_right (fun k acc => String (hex_digit (Z.shiftr w (4 * k) mod 16)) acc) EmptyString
             [7; 6; 5; 4; 3; 2; 1; 0].

(** [h.hexdigest()] *)
Definition hexdigest (st : state) : string :=
  let final := update {| chain := chain st; pending := pending st; fed := fed st |} (padding st) in
  fold_right (fun w acc => (hex_word w +:+ acc)%string) EmptyString (chain final).

(** SHA-256 of a whole byte string in one pass. *)
Definition sha256_hex (data : string) : string := hexdigest (update new data).

End Sha256.

(** ** Dates ([datetime.strptime] with ["%Y-%m-%d"], [strftime] with
    ["%B, %Y"]) *)

Record date := { year : Z; month : Z; day : Z }.

Definition is_leap (y : Z) : bool :=
  ((y mod 4 =? 0) && (negb (y mod 100 =? 0) || (y mod 400 =? 0)))%Z.

Definition days_in_month (y m : Z) : Z :=
  (if m =? 2 then (if is_leap y then 29 else 28)
   else if (m =? 4) || (m =? 6) || (m =? 9) || (m =? 11) then 30
   else 31)%Z.

(** The check of the [date] constructor. *)
Definition valid_date (y m d : Z) : bool :=
  ((1 <=? y) && (y <=? 9999) && (1 <=? m) && (m <=? 12)
   && (1 <=? d) && (d <=? days_in_month y m))%Z.

Definition digit_val (c : ascii) : Z := Z.of_nat (Str.code c - 48).

Definition in_range (lo hi : ascii) (c : ascii) : bool :=
  (Str.code lo <=? Str.code c) && (Str.code c <=? Str.code hi).

(** The directives as [strptime] compiles them to a regular expression;
    each parser lists its matches at the start of the text in the order
    in which the alternatives of the expression are tried. *)

(** [%Y] is [\d\d\d\d]. *)
Definition parse_Y (s : string) : list (Z * string) :=
  match s with
  | String a (String b (String c (String d r)))  =>
      if Str.is_digit a && Str.is_digit b && Str.is_digit c && Str.is_digit d
      then [(1000 * digit_val a + 100 * digit_val b + 10 * digit_val c + digit_val d, r)%Z]
      else []
  | _ => []
  end.

(** Two characters of given classes read as a two-digit number (a space
    counts as zero). *)
Definition two (p q : ascii -> bool) (s : string) : list (Z * string) :=
  match s with
  | String a (String b r) =>
      if p a && q b
      then [(10 * (if Ascii.eqb a " " then 0 else digit_val a) + digit_val b, r)%Z]
      else []
  | _ => []
  end.

Definition one (p : ascii -> bool) (s : string) : list (Z * string) :=
  match s with
  | String a r => if p a then [(digit_val a, r)] else []
  | _ => []
  end.

(** [%m] is [1[0-2]|0[1-9]|[1-9]]. *)
Definition parse_m (s : string) : list (Z * string) :=
  two (in_range "1" "1") (in_range "0" "2") s
  ++ two (in_range "0" "0") (in_range "1" "9") s
  ++ one (in_range "1" "9") s.

(** [%d] is [3[0-1]|[1-2]\d|0[1-9]|[1-9]| [1-9]]. *)
Definition parse_d (s : string) : list (Z * string) :=
  two (in_range "3" "3") (in_range "0" "1") s
  ++ two (in_range "1" "2") Str.is_digit s
  ++ two (in_range "0" "0") (in_range "1" "9") s
  ++ one (in_range "1" "9") s
  ++ two (in_range " " " ") (in_range "1" "9") s.

Definition literal (c : ascii) (s : string) : list string :=
  match s with
  | String a r => if Ascii.eqb a c then [r] else []
  | _ => []
  end.

(** The matches of the whole format, best first. *)
Definition parse_Ymd (s : string) : list (Z * Z * Z * string) :=
  flat_map (fun '(y, r1) =>
    flat_map (fun r2 =>
      flat_map (fun '(m, r3) =>
        flat_map (fun r4 =>
          map (fun '(d, r5) => (y, m, d, r5)) (parse_d r4))
        (literal "-" r3))
      (parse_m r2))
    (literal "-" r1))
  (parse_Y s).

(** [datetime.strptime(date_string, "%Y-%m-%d")]: [ValueError] when the
    text does not match the format, when text remains after the match,
    and when the numbers are not a date. *)
Definition strptime (date_string : string) : res date :=
  match parse_Ymd date_string with
  | [] => Raise ValueError
  | (y, m, d, rest) :: _ =>
      match rest with
      | EmptyString =>
          if valid_date y m d then Ok {| year := y; month := m; day := d |}
          else Raise ValueError
      | _ => Raise ValueError
      end
  end.

Definition month_names : list string :=
  ["January"; "February"; "March"; "April"; "May"; "June"; "July";
   "August"; "September"; "October"; "November"; "December"].

(** [%B]: the full month name (in the C locale). *)
Definition month_name (m : Z) : string := nth (Z.to_nat (m - 1)) month_names EmptyString.

(** [%Y]: the year as a decimal number. The C library decides the width
    for a year below 1000; glibc does not pad. *)
Definition year_str (y : Z) : string := Z_to_str y.

(** [l[i]] for a list and an integer index. *)
Definition py_index {A : Type} (l : list A) (i : Z) : res A :=
  let n := Z.of_nat (length l) in
  let j := if (i <? 0)%Z then (n + i)%Z else i in
  if (j <? 0)%Z then Raise IndexError
  else match nth_error l (Z.to_nat j) with
       | Some x => Ok x
       | None => Raise IndexError
       end.

(** [format_date] ([generate.py] lines 181-197; the same text is in
    [generate_bitcoin_pdf_certificate.py] lines 153-169) *)
Definition format_date (date_string : string) : res string :=
  match strptime date_string with
  | Raise e => Raise e
  | Ok date_obj =>
      let day := day date_obj in
      let suffix :=
        if (((4 <=? day) && (day <=? 20)) || ((24 <=? day) && (day <=? 30)))%Z
        then Ok "th"
        else py_index ["st"; "nd"; "rd"] (day mod 10 - 1)%Z in
      match suffix with
      | Raise e => Raise e
      | Ok suffix =>
          Ok (Z_to_str day +:+ suffix +:+ " "
              +:+ (month_name (month date_obj) +:+ ", " +:+ year_str (year date_obj)))
      end
  end.

(** ** Structured data ([yaml.safe_load], [response.json()])

    Floats and dates of YAML are not modelled. *)

Inductive yaml :=
| YNull
| YBool (b : bool)
| YInt (z : Z)
| YStr (s : string)
| YList (l : list yaml)
| YMap (l : list (string * yaml)).

Fixpoint assoc {A : Type} (k : string) (l : list (string * A)) : option A :=
  match l with
  | [] => None
  | (k', v) :: rest => if String.eqb k k' then Some v else assoc k rest
  end.

(** [d.get(key, default)] *)
Definition yaml_get (d : yaml) (key : string) (default : yaml) : res yaml :=
  match d with
  | YMap l => Ok (match assoc key l with Some v => v | None => default end)
  | _ => Raise AttributeError
  end.

(** [d[key]] for a string key *)
Definition yaml_item (d : yaml) (key : string) : res yaml :=
  match d with
  | YMap l => match assoc key l with Some v => Ok v | None => Raise (KeyError key) end
  | _ => Raise TypeError
  end.

(** [l[0]] *)
Definition yaml_first (l : yaml) : res yaml :=
  match l with
  | YList (x :: _) => Ok x
  | YList [] => Raise IndexError
  | YStr (String c _) => Ok (YStr (String c EmptyString))
  | YStr EmptyString => Raise IndexError
  | YMap m => Raise (KeyError "0")
  | _ => Raise TypeError
  end.

(** ** The world: files, directories, console output, processes run *)

Record CompletedProcess :=
  { returncode : Z; stdout : string; stderr : string }.

(** What [print] was given. *)
Inductive printed :=
| PStr (s : string)
| PCompleted (c : CompletedProcess)
| PDict (d : list (string * option string)).

(** Regular files are a map from path to content; directories are a set of
    paths. Paths are compared as texts (no normalisation of [..] or of
    doubled slashes). *)
Record World := {
  files : gmap string string;
  dirs : gset string;
  console : list printed;
  history : list command
}.

Definition set_files (f : gmap string string -> gmap string string) (w : World) : World :=
  {| files := f (files w); dirs := dirs w; console := console w; history := history w |}.

(** What lies outside the repository: the programs it runs and the library
    calls whose result the file system of the model does not determine. *)
Record Env := {
  (** the process started by [subprocess.run]: its result and its effect
      on the files, given the processes run before and the files *)
  run_process : command -> list command -> gmap string string ->
                CompletedProcess * gmap string string;
  (** [str(e)] of an exception *)
  str_exn : exn -> string;
  (** the error, if any, with which [shutil.move(src, dst)] fails *)
  move_error : string -> string -> option exn;
  (** [os.getenv('RPC_USER')], [os.getenv('RPC_PASSWORD')] *)
  rpc_user : option string;
  rpc_password : option string;
  (** [yaml.safe_load] *)
  yaml_safe_load : string -> res yaml;
  (** [template.format] with keyword arguments *)
  str_format : string -> list (string * yaml) -> res string;
  (** [requests.get(url).text] and [requests.get(url).json()] *)
  http_get : string -> res string;
  json_decode : string -> res yaml;
  (** [date.today().strftime("%Y-%m-%d")] *)
  today : string
}.

(** Computations with effects on the world that may raise. The world at the
    moment of the exception is kept: effects are not undone. *)
Definition M (A : Type) : Type := World -> res A * World.

Definition ret {A : Type} (a : A) : M A := fun w => (Ok a, w).

Definition bind {A B : Type} (m : M A) (k : A -> M B) : M B :=
  fun w =>
    match m w with
    | (Ok a, w') => k a w'
    | (Raise e, w') => (Raise e, w')
    end.

Definition raise {A : Type} (e : exn) : M A := fun w => (Raise e, w).

Definition lift {A : Type} (r : res A) : M A := fun w => (r, w).

(** [try: m except ...: h e]; [h] returns [None] for the exceptions that
    the handlers do not catch. *)
Definition try_except {A : Type} (m : M A) (h : exn -> option (M A)) : M A :=
  fun w =>
    match m w with
    | (Ok a, w') => (Ok a, w')
    | (Raise e, w') =>
        match h e with
        | Some k => k w'
        | None => (Raise e, w')
        end
    end.

Notation "'let*' x ':=' m 'in' k" := (bind m (fun x => k))
  (at level 10, x name, m at level 100, k at level 200).
Notation "'let*' ' p ':=' m 'in' k" := (bind m (fun p => k))
  (at level 10, p strict pattern, m at level 100, k at level 200).
Notation "'do' m 'then' k" := (bind m (fun _ => k))
  (at level 10, m at level 100, k at level 200).

(** [for x in l: body x] *)
Fixpoint for_each {A : Type} (l : list A) (body : A -> M unit) : M unit :=
  match l with
  | [] => ret tt
  | x :: rest => do body x then for_each rest body
  end.

Definition print (p : printed) : M unit :=
  fun w => (Ok tt, {| files := files w; dirs := dirs w;
                      console := console w ++ [p]; history := history w |}).

(** [subprocess.run(cmd, check=True, text=True, capture_output=True)] *)
Definition subprocess_run (env : Env) (cmd : command) : M CompletedProcess :=
  fun w =>
    let '(result, files') := run_process env cmd (history w) (files w) in
    let w' := {| files := files'; dirs := dirs w; console := console w;
                 history := history w ++ [cmd] |} in
    if (returncode result =? 0)%Z then (Ok result, w')
    else (Raise (CalledProcessError cmd (returncode result)), w').

(** *** [os.path] *)

Definition slash : ascii := "/".

(** [os.path.join(a, b)] *)
Definition path_join (a b : string) : string :=
  if Str.startswith b "/" then b
  else if String.eqb a EmptyString || Str.endswith a "/" then a +:+ b
  else a +:+ "/" +:+ b.

Definition all_slashes (s : string) : bool :=
  forallb (Ascii.eqb slash) (Str.chars s).

Fixpoint rstrip_slash (s : string) : string :=
  match s with
  | EmptyString => EmptyString
  | String c s' =>
      match rstrip_slash s' with
      | EmptyString => if Ascii.eqb c slash then EmptyString else String c EmptyString
      | r => String c r
      end
  end.

(** [os.path.dirname(p)] *)
Definition dirname (p : string) : string :=
  let i := Str.after_last slash p 0 0 in
  let head := Str.take i p in
  if negb (String.eqb head EmptyString) && negb (all_slashes head)
  then rstrip_slash head else head.

(** [os.path.basename(p)] *)
Definition basename (p : string) : string :=
  Str.drop (Str.after_last slash p 0 0) p.

(** [os.path.splitext(p)[0]]: the extension starts at the last dot of the
    last component, unless only dots precede it there. *)
Definition splitext_root (p : string) : string :=
  let sep := Str.after_last slash p 0 0 in
  let dot := Str.after_last "." p 0 0 in
  if (sep <? dot)
     && negb (forallb (Ascii.eqb ".") (Str.chars (Str.slice sep (dot - 1) p)))
  then Str.take (dot - 1) p else p.

(** *** Files and directories *)

Definition is_file (w : World) (p : string) : bool :=
  bool_decide (is_Some (files w !! p)).

Definition is_dir (w : World) (p : string) : bool :=
  bool_decide (p ∈ dirs w) || bool_decide (rstrip_slash p ∈ dirs w).

Definition exists_on_disk (w : World) (p : string) : bool :=
  is_file w p || is_dir w p.

(** [os.path.exists(p)] *)
Definition path_exists (p : string) : M bool :=
  fun w => (Ok (exists_on_disk w p), w).

(** [os.path.isdir(p)] *)
Definition path_isdir (p : string) : M bool :=
  fun w => (Ok (is_dir w p), w).

(** The name of [p] inside the directory [d], when [p] lies directly in it. *)
Definition child_name (d p : string) : option string :=
  let d' := if Str.endswith d "/" then d else d +:+ "/" in
  if Str.prefix d' p then
    let name := Str.drop (String.length d') p in
    if String.eqb name EmptyString || existsb (Ascii.eqb slash) (Str.chars name)
    then None else Some name
  else None.

(** [sorted(l)] for a list of strings: by code points. *)
Definition py_sorted (l : list string) : list string := merge_sort String.le l.

(** [os.listdir(d)]. The order in which the system lists the entries is
    arbitrary; the model lists them sorted. *)
Definition dir_entries (w : World) (d : string) : list string :=
  merge_sort String.le
    (remove_dups (omap (child_name d)
                    (map fst (map_to_list (files w)) ++ elements (dirs w)))).

Definition os_listdir (d : string) : M (list string) :=
  fun w =>
    if is_dir w d then (Ok (dir_entries w d), w)
    else (Raise (FileNotFoundError d), w).

(** [with open(p, "r") as f: f.read()] (and ["rb"]). The result is the
    content of the file as it is: the decoding and the translation of
    [\r\n] and [\r] into [\n] that text mode adds are not modelled, so
    that for ["r"] the model is exact on texts of ASCII characters without
    carriage return. *)
Definition read_file (p : string) : M string :=
  fun w =>
    match files w !! p with
    | Some content => (Ok content, w)
    | None => (Raise (FileNotFoundError p), w)
    end.

(** [with open(p, "w") as f: f.write(content)]. The directory of [p] is
    not looked at: the model writes where [open] raises
    [FileNotFoundError] because that directory is missing, and is exact
    when it exists. *)
Definition write_file (p content : string) : M unit :=
  fun w =>
    if is_dir w p then (Raise (OSError p), w)
    else (Ok tt, set_files (insert p content) w).

(** [os.remove(p)]. A regular file is always removed: failures for lack
    of permission or on a file system mounted read-only are not modelled,
    the only failures are a missing path and a directory. *)
Definition os_remove (p : string) : M unit :=
  fun w =>
    match files w !! p with
    | Some _ => (Ok tt, set_files (delete p) w)
    | None => (Raise (if is_dir w p then OSError p else FileNotFoundError p), w)
    end.

(** [os.makedirs(d, exist_ok=True)] *)
Definition makedirs (d : string) : M unit :=
  fun w =>
    if is_file w d then (Raise (FileExistsError d), w)
    else (Ok tt, {| files := files w; dirs := dirs w ∪ {[d]};
                    console := console w; history := history w |}).

(** Renaming a directory: every path below [src] moves below [dst]. *)
Definition rekey (src dst p : string) : string :=
  if String.eqb p src then dst
  else if Str.prefix (src +:+ "/") p then dst +:+ Str.drop (String.length src) p
  else p.

Definition rename_tree (src dst : string) (w : World) : World :=
  {| files := list_to_map (map (fun kv => (rekey src dst (fst kv), snd kv))
                               (map_to_list (files w)));
     dirs := list_to_set (map (rekey src dst) (elements (dirs w)));
     console := console w; history := history w |}.

(** [shutil.move(src, dst)]: into [dst] when [dst] is a directory; a
    regular file at the destination is replaced. The failures that the
    model's file system does not explain come from [move_error]; among
    them is the missing directory of [dst], which the model does not look
    at. *)
Definition shutil_move (env : Env) (src dst : string) : M unit :=
  fun w =>
    match move_error env src dst with
    | Some e => (Raise e, w)
    | None =>
        let real_dst := if is_dir w dst then path_join dst (basename src) else dst in
        if is_dir w dst && (is_file w real_dst || is_dir w real_dst)
        then (Raise (OSError real_dst), w)
        else
          match files w !! src with
          | Some content =>
              (Ok tt, set_files (fun fs => <[real_dst := content]> (delete src fs)) w)
          | None =>
              if is_dir w src then (Ok tt, rename_tree src real_dst w)
              else (Raise (FileNotFoundError src), w)
          end
    end.

(** * [generate.py]

    [compute_sha256], [extract_property], [modify_and_save_tex],
    [format_hash], [split_and_format_hash] and [format_date] have the same
    text in [generate_bitcoin_pdf_certificate.py], which uses the
    definitions given here. *)

Definition bitcoin_node_command (credentials verb ots_file_path : string) : string :=
  "ots --bitcoin-node http://" +:+ credentials +:+ "@127.0.0.1:8332/ "
  +:+ verb +:+ " " +:+ ots_file_path.

Definition header_command (block_height : string) : string :=
  "curl -sSL 'https://mempool.space/api/block-height/" +:+ block_height +:+ "'".

(** [except subprocess.CalledProcessError as e: ...] *)
Definition on_CalledProcessError {A : Type} (h : exn -> M A) (e : exn) : option (M A) :=
  match e with
  | CalledProcessError _ _ => Some (h e)
  | _ => None
  end.

(** A value together with the fact that it is the value of the
    expression matched on. *)
Definition inspect {A : Type} (x : A) : {y : A | x = y} := exist _ x eq_refl.

(** The loop [for chunk in iter(lambda: file.read(4096), b''):
    hash_sha256.update(chunk)] over the unread part of the file: it ends
    at the first empty read. *)
Equations? read_chunks (file : string) (hash_sha256 : Sha256.state)
  : Sha256.state by wf (String.length file) lt :=
read_chunks file hash_sha256 with inspect (Str.take 4096 file) := {
  | exist _ EmptyString _ => hash_sha256
  | exist _ (String c chunk) Heq =>
      read_chunks (Str.drop 4096 file) (Sha256.update hash_sha256 (String c chunk)) }.
Proof.
  destruct file as [|c' file]; [discriminate|].
  clear. change (String.length (Str.drop 4095 file) < S (String.length file)).
  generalize 4095. intros n. revert file.
  induction n as [|n IH]; intros [|d file]; simpl; try lia.
  specialize (IH file). lia.
Qed.

Module generate.

Definition credentials : string := "asi0:asi0".

(** lines 10-26 *)
Definition is_ots_done (env : Env) (ots_file_path : string) : M bool :=
  try_except
    (let upgrade_command := bitcoin_node_command credentials "upgrade" ots_file_path in
     do subprocess_run env (Shell upgrade_command) then
     let verify_command := bitcoin_node_command credentials "verify" ots_file_path in
     let* verify_result := subprocess_run env (Shell verify_command) in
     do print (PCompleted verify_result) then
     let block_height := re_search match_block_height (stderr verify_result) in
     ret (match block_height with Some _ => true | None => false end))
    (on_CalledProcessError (fun e =>
       do print (PStr ("Failed to process: " +:+ str_exn env e)) then
       ret false)).

(** lines 28-52; [.group(1)] of [None] raises [AttributeError] *)
Definition get_ots_blockhash (env : Env) (ots_file_path : string) : M string :=
  try_except
    (let upgrade_command := bitcoin_node_command credentials "upgrade" ots_file_path in
     do subprocess_run env (Shell upgrade_command) then
     let verify_command := bitcoin_node_command credentials "verify" ots_file_path in
     let* verify_result := subprocess_run env (Shell verify_command) in
     do print (PCompleted verify_result) then
     let* block_height :=
       match re_search match_block_height (stderr verify_result) with
       | Some group1 => ret group1
       | None => raise AttributeError
       end in
     do print (PStr block_height) then
     let* header_result := subprocess_run env (Shell (header_command block_height)) in
     ret (Str.strip (stdout header_result)))
    (fun e =>
       match e with
       | CalledProcessError _ _ => Some (ret ("Failed to process: " +:+ str_exn env e))
       | AttributeError => Some (ret "Block height not found in OTS verification output")
       | _ => None
       end).

(** lines 55-61 *)
Definition compute_sha256 (file_path : string) : M string :=
  let hash_sha256 := Sha256.new in
  let* file := read_file file_path in
  let hash_sha256 := read_chunks file hash_sha256 in
  ret (Sha256.hexdigest hash_sha256).

(** lines 77-80, on the content read *)
Definition search_property (content property_name : string) : option string :=
  match re_search (match_property property_name) content with
  | Some group1 => Some (Str.strip group1)
  | None => None
  end.

(** lines 63-80 *)
Definition extract_property (txt_file property_name : string) : M (option string) :=
  let* content := read_file txt_file in
  ret (search_property content property_name).

(** lines 96-98: the fields in the order of the dictionary *)
Definition replace_placeholders (content : string)
    (certificate_data : list (string * option string)) : string :=
  fold_left
    (fun content '(key, value) =>
       let placeholder := "{" +:+ key +:+ "}" in
       Str.replace content placeholder (py_str value))
    certificate_data content.

(** lines 82-101 *)
Definition modify_and_save_tex (template_path new_tex_path : string)
    (certificate_data : list (string * option string)) : M unit :=
  let* content := read_file template_path in
  let content := replace_placeholders content certificate_data in
  write_file new_tex_path content.

Definition lualatex (tex_filepath folder_path : string) : command :=
  Exec ["lualatex"; "-interaction=nonstopmode"; tex_filepath] folder_path.

(** lines 117-149 *)
Definition compile_tex_to_pdf (env : Env) (tex_filepath : string) : M bool :=
  let folder_path := dirname tex_filepath in
  let file_name := splitext_root (basename tex_filepath) in
  try_except
    (do for_each [0; 1] (fun _ =>
          let* result := subprocess_run env (lualatex tex_filepath folder_path) in
          ret tt) then
     let pdf_path := path_join folder_path (file_name +:+ ".pdf") in
     let* found := path_exists pdf_path in
     if found then
       do for_each [".log"; ".aux"; ".out"; ".tex"] (fun ext =>
            let aux_file := path_join folder_path (file_name +:+ ext) in
            let* present := path_exists aux_file in
            if present then os_remove aux_file else ret tt) then
       ret true
     else
       do print (PStr "PDF not produced after two passes.") then
       ret false)
    (on_CalledProcessError (fun e =>
       do print (PStr ("Error running lualatex: " +:+ str_exn env e)) then
       ret false)).

(** lines 151-179; [except Exception] catches every exception *)
Definition move_files_to_final (env : Env) (pathfile signed_txt_path pdf_path : string)
  : M bool :=
  let current_dir := dirname pathfile in
  let final_dir := path_join (dirname current_dir) "final" in
  do makedirs final_dir then
  let files_to_move := [pathfile; signed_txt_path; pdf_path] in
  try_except
    (do for_each files_to_move (fun file_path =>
          let* found := path_exists file_path in
          if found
          then shutil_move env file_path (path_join final_dir (basename file_path))
          else print (PStr ("Warning: File not found: " +:+ file_path))) then
     ret true)
    (fun e => Some (
       do print (PStr ("Error moving files: " +:+ str_exn env e)) then
       ret false)).

(** What a function that expects a [str] does with [None]. *)
Definition expect_str (v : option string) (e : exn) : M string :=
  match v with
  | Some s => ret s
  | None => raise e
  end.

Definition pending_path : string := "../pending".

(** lines 223-257: the body of the loop over the file names *)
Definition process_filename (env : Env) (filename : string) : M unit :=
  if Str.startswith filename "course_" && Str.endswith filename ".ots" then
    let pathfile := path_join pending_path filename in
    do print (PStr pathfile) then
    let* done := is_ots_done env pathfile in
    if done then
      let signed_txt_path := Str.removesuffix pathfile ".ots" in
      let* blockhash := get_ots_blockhash env pathfile in
      let '(txid_1, txid_2) := split_and_format_hash blockhash in
      let* digest := compute_sha256 signed_txt_path in
      let '(hash_1, hash_2) := split_and_format_hash digest in
      let* course_name := extract_property signed_txt_path "Course name" in
      let* course_name := expect_str course_name AttributeError in
      let '(course_name_1, course_name_2) := split_and_format_coursename course_name in
      let* fullname := extract_property signed_txt_path "Full name" in
      let* completion := extract_property signed_txt_path "Date of completion" in
      let* completion := expect_str completion TypeError in
      let* date := lift (format_date completion) in
      let* course_id := extract_property signed_txt_path "Course ID" in
      let* duration := extract_property signed_txt_path "Duration" in
      let certificate_data :=
        [("fullname", fullname); ("date", Some date); ("course_id", course_id);
         ("course_name_1", Some course_name_1); ("course_name_2", Some course_name_2);
         ("duration", duration); ("hash_1", Some hash_1); ("hash_2", Some hash_2);
         ("txid_1", Some txid_1); ("txid_2", Some txid_2)] in
      do print (PDict certificate_data) then
      let tex_filepath := Str.replace signed_txt_path ".txt" ".tex" in
      let tex_template_path := "../templates/pbn_course_certificate.tex" in
      let pdf_filepath := Str.replace signed_txt_path ".txt" ".pdf" in
      do modify_and_save_tex tex_template_path tex_filepath certificate_data then
      do print (PStr (filename +:+ " tex file replaced")) then
      let* compiled := compile_tex_to_pdf env tex_filepath in
      do print (PStr (filename +:+ " pdf file produced")) then
      let* moved := move_files_to_final env pathfile signed_txt_path pdf_filepath in
      print (PStr (filename +:+ " files moved"))
    else ret tt
  else ret tt.

(** lines 219-257 *)
Definition main (env : Env) : M unit :=
  let* listing := os_listdir pending_path in
  let filenames := py_sorted listing in
  for_each filenames (process_filename env).

End generate.

(** * [src/generate_bitcoin_pdf_certificate.py] *)

(** [except OSError]: the exception and its subclasses. *)
Definition is_OSError (e : exn) : bool :=
  match e with
  | OSError _ | FileNotFoundError _ | FileExistsError _ => true
  | _ => false
  end.

(** [[f for f in l if p(f)]] *)
Fixpoint filterM {A : Type} (p : A -> M bool) (l : list A) : M (list A) :=
  match l with
  | [] => ret []
  | x :: rest =>
      let* keep := p x in
      let* rest' := filterM p rest in
      ret (if keep then x :: rest' else rest')
  end.

Definition newline : string := String "010" EmptyString.

Module generate_bitcoin_pdf_certificate.

(** lines 15-16 and the f-strings of lines 22, 26: [None] is printed as
    the text None *)
Definition credentials (env : Env) : string :=
  py_str (rpc_user env) +:+ ":" +:+ py_str (rpc_password env).

(** lines 19-34 *)
Definition is_ots_done (env : Env) (ots_file_path : string) : M bool :=
  try_except
    (let upgrade_command := bitcoin_node_command (credentials env) "upgrade" ots_file_path in
     do subprocess_run env (Shell upgrade_command) then
     let verify_command := bitcoin_node_command (credentials env) "verify" ots_file_path in
     let* verify_result := subprocess_run env (Shell verify_command) in
     let block_height := re_search match_block_height (stderr verify_result) in
     ret (match block_height with Some _ => true | None => false end))
    (on_CalledProcessError (fun e =>
       do print (PStr ("Failed to process: " +:+ str_exn env e)) then
       ret false)).

(** lines 36-58 *)
Definition get_ots_blockhash (env : Env) (ots_file_path : string) : M string :=
  try_except
    (let upgrade_command := bitcoin_node_command (credentials env) "upgrade" ots_file_path in
     do subprocess_run env (Shell upgrade_command) then
     let verify_command := bitcoin_node_command (credentials env) "verify" ots_file_path in
     let* verify_result := subprocess_run env (Shell verify_command) in
     let* block_height :=
       match re_search match_block_height (stderr verify_result) with
       | Some group1 => ret group1
       | None => raise AttributeError
       end in
     let* header_result := subprocess_run env (Shell (header_command block_height)) in
     ret (Str.strip (stdout header_result)))
    (fun e =>
       match e with
       | CalledProcessError _ _ => Some (ret ("Failed to process: " +:+ str_exn env e))
       | AttributeError => Some (ret "Block height not found in OTS verification output")
       | _ => None
       end).

(** lines 123-151 *)
Definition compile_tex_to_pdf (env : Env) (tex_filepath : string) : M bool :=
  let folder_path := dirname tex_filepath in
  let file_name := splitext_root (basename tex_filepath) in
  try_except
    (do for_each [0; 1] (fun _ =>
          let* result := subprocess_run env (generate.lualatex tex_filepath folder_path) in
          ret tt) then
     let pdf_path := path_join folder_path (file_name +:+ ".pdf") in
     let* found := path_exists pdf_path in
     if found then ret true
     else
       do print (PStr "PDF not produced after two passes.") then
       ret false)
    (on_CalledProcessError (fun e =>
       do print (PStr ("Error running lualatex: " +:+ str_exn env e)) then
       ret false)).

(** lines 171-185 *)
Definition clean_bak_files (env : Env) (folder_path : string) : M unit :=
  let* listing := os_listdir folder_path in
  for_each listing (fun file =>
    if Str.endswith file ".bak" then
      let file_path := path_join folder_path file in
      try_except
        (do os_remove file_path then
         print (PStr ("Removed backup file: " +:+ file)))
        (fun e =>
           if is_OSError e
           then Some (print (PStr ("Error removing " +:+ file +:+ ": " +:+ str_exn env e)))
           else None)
    else ret tt).

(** lines 198-234: the body of the loop over the subfolders *)
Definition process_subfolder (env : Env) (result_folder subfolder : string) : M unit :=
  let result_folder_path := path_join result_folder subfolder in
  let ots_file := path_join result_folder_path "bitcoin_certificate-signed.txt.ots" in
  let pdf_file := path_join result_folder_path "bitcoin_certificate-signed.pdf" in
  let* ots_exists := path_exists ots_file in
  let* pdf_exists := if ots_exists then path_exists pdf_file else ret false in
  if ots_exists && negb pdf_exists then
    do print (PStr ("Processing " +:+ subfolder +:+ "..")) then
    let* done := is_ots_done env ots_file in
    do (if done then
      let signed_txt_path := Str.removesuffix ots_file ".ots" in
      let* blockhash := get_ots_blockhash env ots_file in
      let '(txid_1, txid_2) := split_and_format_hash blockhash in
      let* digest := generate.compute_sha256 signed_txt_path in
      let '(hash_1, hash_2) := split_and_format_hash digest in
      let* fullname := generate.extract_property signed_txt_path "Display name" in
      let* completion := generate.extract_property signed_txt_path "Date of completion" in
      let* completion := generate.expect_str completion TypeError in
      let* date := lift (format_date completion) in
      let certificate_data :=
        [("fullname", fullname); ("date", Some date);
         ("hash1", Some hash_1); ("hash2", Some hash_2);
         ("txid1", Some txid_1); ("txid2", Some txid_2)] in
      let pending_folder := "../pending" in
      let tex_template_path := "../templates/pbn_bitcoin_certificate.tex" in
      let temp_tex_path := path_join pending_folder "bitcoin_certificate-signed.tex" in
      let temp_pdf_path := path_join pending_folder "bitcoin_certificate-signed.pdf" in
      do generate.modify_and_save_tex tex_template_path temp_tex_path certificate_data then
      let* compiled := compile_tex_to_pdf env temp_tex_path in
      let* produced := path_exists temp_pdf_path in
      if produced then
        let target_pdf_path := path_join result_folder_path "bitcoin_certificate-signed.pdf" in
        do shutil_move env temp_pdf_path target_pdf_path then
        do print (PStr "PDF Certificate generated and moved to target folder") then
        clean_bak_files env result_folder_path
      else print (PStr "Failed to generate PDF certificate")
    else print (PStr "Timestamp not ready yet..")) then
    print (PStr EmptyString)
  else ret tt.

Definition bcert_path : string := "../../planB-premium-content/bcert/editions/".

(** lines 189-235: the body of the loop over the editions *)
Definition process_edition_folder (env : Env) (edition_folder : string) : M unit :=
  let edition_path := path_join bcert_path edition_folder in
  let* is_edition := path_isdir edition_path in
  if is_edition then
    do print (PStr (newline +:+ "Processing edition: " +:+ edition_folder)) then
    let result_folder := path_join edition_path "results" in
    let* has_results := path_exists result_folder in
    do (if has_results then
      let* listing := os_listdir result_folder in
      let* subfolders := filterM (fun f => path_isdir (path_join result_folder f)) listing in
      let subfolders := py_sorted subfolders in
      for_each (py_sorted subfolders) (process_subfolder env result_folder)
    else ret tt) then
    print (PStr "==============")
  else ret tt.

(** lines 187-236 *)
Definition main (env : Env) : M unit :=
  let* listing := os_listdir bcert_path in
  do for_each (py_sorted listing) (process_edition_folder env) then
  print (PStr "All pending Certificates that were timestamped were generated!").

End generate_bitcoin_pdf_certificate.

(** * The plaintext generators *)

(** The double quote of the command lines. *)
Definition dquote : string := String "034" EmptyString.

(** [str(v)] of a value of structured data, for the scalars. *)
Definition yaml_str (v : yaml) : string :=
  match v with
  | YNull => "None"
  | YBool true => "True"
  | YBool false => "False"
  | YInt z => Z_to_str z
  | YStr s => s
  | YList _ => "[...]"
  | YMap _ => "{...}"
  end.

(** [key in d] *)
Definition yaml_contains (d : yaml) (key : string) : res bool :=
  match d with
  | YMap l => Ok (match assoc key l with Some _ => true | None => false end)
  | YList l =>
      Ok (existsb (fun y => match y with YStr s => String.eqb s key | _ => false end) l)
  | YStr s => Ok (negb (Str.find s key 0 =? -1)%Z)
  | _ => Raise TypeError
  end.

(** [sum(d.values())] *)
Definition yaml_sum_values (d : yaml) : res Z :=
  match d with
  | YMap l =>
      fold_left
        (fun acc kv =>
           match acc, snd kv with
           | Ok n, YInt z => Ok (n + z)%Z
           | Ok n, YBool b => Ok (n + (if b then 1 else 0))%Z
           | Ok _, _ => Raise TypeError
           | Raise e, _ => Raise e
           end)
        l (Ok 0%Z)
  | _ => Raise AttributeError
  end.

(** The text of lines 10-29 of [generate_bitcoin_txt_certificate.py] and
    lines 20-41 of [generate_course_txt_certificate.py], which differ in
    what they print. *)
Definition get_latest_block_header (env : Env) (label : bool) : M string :=
  try_except
    (let height_command := "curl -sSL 'https://mempool.space/api/blocks/tip/height'" in
     let* height_result := subprocess_run env (Shell height_command) in
     let current_height := Str.strip (stdout height_result) in
     do print (PStr ((if label then "Current block height: " else EmptyString)
                     +:+ current_height)) then
     let* header_result := subprocess_run env (Shell (header_command current_height)) in
     let current_header := Str.strip (stdout header_result) in
     do print (PStr ((if label then "Current block header: " else EmptyString)
                     +:+ current_header)) then
     ret current_header)
    (on_CalledProcessError (fun e =>
       ret ("Failed to fetch block data: " +:+ str_exn env e))).

Definition sign_command (signed_file file_path : string) : string :=
  "gpg --default-key admin@planb.network --output " +:+ dquote +:+ signed_file
  +:+ dquote +:+ " --clearsign " +:+ dquote +:+ file_path +:+ dquote.

(** [sign_certificate]: the same text in both generators *)
Definition sign_certificate (env : Env) (file_path : string) : M string :=
  let signed_file := Str.pyslice 0 (-4) file_path +:+ "-signed.txt" in
  do subprocess_run env (Shell (sign_command signed_file file_path)) then
  ret signed_file.

Definition timestamp_command (file_path : string) : string :=
  "ots stamp " +:+ dquote +:+ file_path +:+ dquote.

(** [timestamp_file]: the same text in both generators *)
Definition timestamp_file (env : Env) (file_path : string) : M unit :=
  do subprocess_run env (Shell (timestamp_command file_path)) then
  ret tt.

Module generate_bitcoin_txt_certificate.

(** lines 5-8 *)
Definition load_yaml_file (env : Env) (file_path : string) : M yaml :=
  let* text := read_file file_path in
  lift (yaml_safe_load env text).

(** lines 43-55 *)
Definition get_total_score (result_data : yaml) : M Z :=
  let* has_categories := lift (yaml_contains result_data "categories") in
  if negb has_categories then
    do print (PStr "No 'categories' found in result data") then
    ret 0%Z
  else
    let* categories := lift (yaml_item result_data "categories") in
    let* total_score := lift (yaml_sum_values categories) in
    ret total_score.

(** lines 57-99 *)
Definition generate_certificate (env : Env) (edition_data result_data : yaml)
    (result_folder_path : string) : M unit :=
  do print (PStr "Generating certificate...") then
  let* username := lift (yaml_get result_data "username" (YStr "Unknown")) in
  let* fullname := lift (yaml_get result_data "display_name" (YStr "Unknown")) in
  let* total_score := get_total_score result_data in
  let* exam_id := lift (yaml_get edition_data "exam_id" (YStr "Unknown")) in
  let* location := lift (yaml_get edition_data "location" (YStr "Unknown")) in
  let* date := lift (yaml_get edition_data "date" YNull) in
  let* last_block_header := get_latest_block_header env true in
  let template_folder := "../templates" in
  let template_file := "pbn_bitcoin_certificate.txt" in
  let template_path := path_join template_folder template_file in
  let* template_content := read_file template_path in
  let* certificate_content :=
    lift (str_format env template_content
            [("username", username); ("fullname", fullname);
             ("total_score", YInt total_score); ("exam_id", exam_id);
             ("location", location); ("date", date);
             ("last_block_header", YStr last_block_header)]) in
  let file_name := "bitcoin_certificate.txt" in
  let file_path := path_join result_folder_path file_name in
  do write_file file_path certificate_content then
  do print (PStr ("Certificate generated: " +:+ file_path)) then
  let* signed_file := sign_certificate env file_path in
  do print (PStr ("Certificate signed: " +:+ signed_file)) then
  do os_remove file_path then
  do timestamp_file env signed_file then
  print (PStr ("Certificate timestamped: " +:+ signed_file)).

(** lines 101-124 *)
Definition process_result (env : Env) (edition_data : yaml)
    (result_folder subfolder : string) : M unit :=
  let result_yml_path := path_join (path_join result_folder subfolder) "result.yml" in
  let* found := path_exists result_yml_path in
  if negb found then
    print (PStr ("result.yml not found in " +:+ path_join result_folder subfolder))
  else
    let* result_data := load_yaml_file env result_yml_path in
    let* username := lift (yaml_get result_data "username" (YStr "Unknown")) in
    do print (PStr ("Processing result for: " +:+ yaml_str username)) then
    let* total_score := get_total_score result_data in
    do (if (80 <=? total_score)%Z then
      do print (PStr ("user has passed with " +:+ Z_to_str total_score)) then
      let result_folder_path := path_join result_folder subfolder in
      let ots_file := path_join result_folder_path "bitcoin_certificate-signed.txt.ots" in
      let* ots_exists := path_exists ots_file in
      if ots_exists then
        let* username := lift (yaml_get result_data "username" (YStr "Unknown")) in
        print (PStr ("Certificate already generated for " +:+ yaml_str username))
      else
        do print (PStr "generation in progress..") then
        generate_certificate env edition_data result_data result_folder_path
    else print (PStr ("user did not pass with " +:+ Z_to_str total_score))) then
    print (PStr EmptyString).

(** lines 126-143 *)
Definition process_edition (env : Env) (edition_path : string) : M unit :=
  let edition_data_path := path_join edition_path "bcert.yml" in
  let* edition_data := load_yaml_file env edition_data_path in
  let result_folder := path_join edition_path "results" in
  let* has_results := path_exists result_folder in
  if negb has_results then
    print (PStr ("Results folder not found in " +:+ edition_path))
  else
    let* listing := os_listdir result_folder in
    let* subfolders := filterM (fun f => path_isdir (path_join result_folder f)) listing in
    let subfolders := py_sorted subfolders in
    match subfolders with
    | [] => print (PStr ("No subfolders found in " +:+ result_folder))
    | _ => for_each (py_sorted subfolders) (process_result env edition_data result_folder)
    end.

(** lines 145-151 *)
Definition process_all_editions (env : Env) (bcert_path : string) : M unit :=
  let* listing := os_listdir bcert_path in
  for_each (py_sorted listing) (fun edition_folder =>
    let edition_path := path_join bcert_path edition_folder in
    let* is_edition := path_isdir edition_path in
    if is_edition then
      do print (PStr (newline +:+ "Processing edition: " +:+ edition_folder)) then
      process_edition env edition_path
    else ret tt).

(** lines 153-155 *)
Definition main (env : Env) : M unit :=
  process_all_editions env "../../planB-premium-content/bcert/editions/".

End generate_bitcoin_txt_certificate.

Module generate_course_txt_certificate.

Definition raw_url (course_id file : string) : string :=
  "https://raw.githubusercontent.com/PlanB-Network/bitcoin-educational-content/mainnet/courses/"
  +:+ course_id +:+ "/" +:+ file.

(** lines 43-49 *)
Definition get_last_commit_hash (env : Env) (repo_owner repo_name file_path : string)
  : M yaml :=
  let api_url := "https://api.github.com/repos/" +:+ repo_owner +:+ "/" +:+ repo_name
                 +:+ "/commits?path=" +:+ file_path in
  let* response := lift (http_get env api_url) in
  let* commits := lift (json_decode env response) in
  let* first := lift (yaml_first commits) in
  let* last_commit_hash := lift (yaml_item first "sha") in
  ret last_commit_hash.

(** lines 51-114 *)
Definition generate_certificate (env : Env) (username fullname course_id : string)
  : M unit :=
  let course_url := raw_url course_id "course.yml" in
  let* response := lift (http_get env course_url) in
  let* course_data := lift (yaml_safe_load env response) in
  let* level := lift (yaml_item course_data "level") in
  let* duration := lift (yaml_item course_data "hours") in
  let en_url := raw_url course_id "en.md" in
  let* en_content := lift (http_get env en_url) in
  let header_start := Str.find en_content "---" 0 in
  let header_end := Str.find en_content "---" (Z.to_nat (header_start + 1)) in
  let header_content := Str.strip (Str.pyslice (header_start + 3) header_end en_content) in
  let* header_data := lift (yaml_safe_load env header_content) in
  let* course_name := lift (yaml_item header_data "name") in
  let* goal := lift (yaml_item header_data "goal") in
  let repo_owner := "PlanB-Network" in
  let repo_name := "bitcoin-educational-content" in
  let file_path := "courses/" +:+ course_id +:+ "/en.md" in
  let* last_commit_hash := get_last_commit_hash env repo_owner repo_name file_path in
  let completion_date := today env in
  let* last_block_header := get_latest_block_header env false in
  let template_folder := "../templates" in
  let template_file := "pbn_course_certificate.txt" in
  let template_path := path_join template_folder template_file in
  let* template_content := read_file template_path in
  let* certificate_content :=
    lift (str_format env template_content
            [("username", YStr username); ("fullname", YStr fullname);
             ("course_name", course_name); ("course_id", YStr (Str.upper course_id));
             ("level", level); ("goal", goal); ("duration", duration);
             ("last_commit_hash", last_commit_hash); ("date", YStr completion_date);
             ("last_block_header", YStr last_block_header)]) in
  let file_name := "course_certificate_" +:+ username +:+ "_" +:+ course_id +:+ ".txt" in
  let pending_folder := "../pending" in
  do makedirs pending_folder then
  let file_path := path_join pending_folder file_name in
  do write_file file_path certificate_content then
  do print (PStr ("Certificate generated: " +:+ file_path)) then
  let* signed_file := sign_certificate env file_path in
  do print (PStr ("Certificate signed: " +:+ signed_file)) then
  do os_remove file_path then
  do timestamp_file env signed_file then
  print (PStr ("Certificate timestamped: " +:+ signed_file)).

End generate_course_txt_certificate.

(** * Vocabulary of the properties *)

(** A text in which every fifth character is a space. *)
Definition spaces_at_fifths (t : string) : Prop :=
  forall i, i mod 5 = 4 -> i < String.length t -> String.get i t = Some " "%char.

(** The decimal digit [k]. *)
Definition digit_of (k : Z) : ascii := ascii_of_nat (48 + Z.to_nat k).

Definition pad2 (n : Z) : string :=
  String (digit_of (n / 10 mod 10)) (String (digit_of (n mod 10)) EmptyString).

Definition pad4 (n : Z) : string :=
  String (digit_of (n / 1000 mod 10)) (String (digit_of (n / 100 mod 10)) (pad2 n)).

(** The text YYYY-MM-DD of a date. *)
Definition iso_date (y m d : Z) : string :=
  pad4 y +:+ "-" +:+ pad2 m +:+ "-" +:+ pad2 d.

(** The English ordinal suffix of a day of the month, as a table. *)
Definition ordinal_suffix (d : Z) : string :=
  (if ((4 <=? d) && (d <=? 20)) || ((24 <=? d) && (d <=? 30)) then "th"
   else if (d =? 1) || (d =? 21) || (d =? 31) then "st"
   else if (d =? 2) || (d =? 22) then "nd"
   else if (d =? 3) || (d =? 23) then "rd"
   else EmptyString)%Z.

(** A text that names a confirming block: the words Bitcoin block
    followed by at least one digit. *)
Definition names_block (s : string) : Prop :=
  exists pre c post,
    s = pre +:+ "Bitcoin block " +:+ String c post /\ Str.is_digit c = true.

(** [str(e)] as CPython prints it for a command that returned a positive
    exit status. *)
Definition command_text (cmd : command) : string :=
  match cmd with
  | Shell c => c
  | Exec args _ => "[" +:+ Str.join ", " (map (fun a => "'" +:+ a +:+ "'") args) +:+ "]"
  end.

Definition cpython_str_exn (e : exn) : string :=
  match e with
  | CalledProcessError cmd rc =>
      "Command '" +:+ command_text cmd +:+ "' returned non-zero exit status "
      +:+ Z_to_str rc +:+ "."
  | AttributeError => "AttributeError"
  | TypeError => "TypeError"
  | ValueError => "ValueError"
  | KeyError k => "'" +:+ k +:+ "'"
  | IndexError => "IndexError"
  | FileNotFoundError p => "[Errno 2] No such file or directory: '" +:+ p +:+ "'"
  | FileExistsError p => "[Errno 17] File exists: '" +:+ p +:+ "'"
  | OSError p => "[Errno 13] Permission denied: '" +:+ p +:+ "'"
  | LibraryError what => what
  end.

(** An environment whose programs leave the files alone and answer by a
    table; no structured data, no network. *)
Definition table_env (answer : command -> CompletedProcess) : Env :=
  {| run_process := fun cmd _ fs => (answer cmd, fs);
     str_exn := cpython_str_exn;
     move_error := fun _ _ => None;
     rpc_user := Some "user";
     rpc_password := Some "secret";
     yaml_safe_load := fun _ => Raise (LibraryError "yaml");
     str_format := fun _ _ => Raise (LibraryError "format");
     http_get := fun _ => Raise (LibraryError "requests");
     json_decode := fun _ => Raise (LibraryError "json");
     today := "2024-01-04" |}.

Definition completed (rc : Z) (out err : string) : CompletedProcess :=
  {| returncode := rc; stdout := out; stderr := err |}.

Definition world_of (fs : list (string * string)) (ds : list string) : World :=
  {| files := list_to_map fs; dirs := list_to_set ds; console := []; history := [] |}.

(** The timestamp is not yet confirmed: [ots verify] succeeds and names no
    block. *)
Definition immature_env : Env :=
  table_env (fun _ => completed 0 EmptyString
                        "Pending confirmation in Bitcoin blockchain").

(** The timestamp is confirmed in block 812345 and the request to the
    block explorer fails ([curl] exits with status 6). *)
Definition offline_env : Env :=
  table_env (fun cmd =>
    match cmd with
    | Shell c =>
        if Str.prefix "curl" c then completed 6 EmptyString "Could not resolve host"
        else completed 0 EmptyString "Success! Bitcoin block 812345 attests existence"
    | Exec _ _ => completed 0 EmptyString EmptyString
    end).


(** A signed certificate text in which the full name is empty. *)
Definition nameless_certificate : string :=
  "Full name:" +:+ newline +:+ "Date of completion: 2024-01-04" +:+ newline.

(** The property name occurs nowhere in the content, whatever the case of
    the letters. *)
Definition absent_from (property_name content : string) : Prop :=
  forall k, prefix_ci property_name (Str.drop k content) = false.


(** A template seen as a sequence of pieces: plain text and placeholders
    [{name}]. *)
Inductive piece :=
| Text (s : string)
| Placeholder (name : string).

Definition open_brace : ascii := "{".
Definition close_brace : ascii := "}".

Definition no_open_brace (s : string) : Prop :=
  Forall (fun c => c <> open_brace) (Str.chars s).

Definition brace_free (s : string) : Prop :=
  Forall (fun c => c <> open_brace /\ c <> close_brace) (Str.chars s).

Definition piece_text (p : piece) : string :=
  match p with
  | Text s => s
  | Placeholder name => "{" +:+ name +:+ "}"
  end.

(** The text of a template. *)
Definition template_text (t : list piece) : string :=
  fold_right (fun p acc => piece_text p +:+ acc) EmptyString t.

(** The plain text carries no opening brace and the names no brace, so
    that the text determines the pieces. *)
Definition plain_template (t : list piece) : Prop :=
  Forall (fun p => match p with
                   | Text s => no_open_brace s
                   | Placeholder name => brace_free name
                   end) t.

Definition plain_fields (data : list (string * option string)) : Prop :=
  Forall (fun kv => brace_free (fst kv) /\ no_open_brace (py_str (snd kv))) data.

(** What the renderer is to do, piece by piece: a placeholder with a field
    of its name becomes the text of the field, every other piece stays. *)
Definition fill (data : list (string * option string)) (p : piece) : piece :=
  match p with
  | Text s => Text s
  | Placeholder name =>
      match assoc name data with
      | Some v => Text (py_str v)
      | None => Placeholder name
      end
  end.

Definition render_spec (t : list piece) (data : list (string * option string)) : string :=
  template_text (map (fill data) t).


(** One field applied to a piece. *)
Definition fill_one (key value : string) (p : piece) : piece :=
  match p with
  | Text s => Text s
  | Placeholder name => if String.eqb name key then Text value else Placeholder name
  end.

(** A template in the style of [pbn_course_certificate.tex], and fields of
    which the first carries the placeholder of the second. *)
Definition latex_template : list piece :=
  [Text "\name{"; Placeholder "fullname"; Text "} \date{"; Placeholder "date"; Text "}"].

Definition cascading_fields : list (string * option string) :=
  [("fullname", Some "{date}"); ("date", Some "4th January, 2024")].


(** A world with one small file. *)
Definition abc_world : World := world_of [("a.txt", "abc")] [].

(** A short template and one field for it. *)
Definition greeting_template : list piece :=
  [Text "Name: "; Placeholder "fullname"; Text ", id "; Placeholder "id"].

Definition greeting_fields : list (string * option string) :=
  [("fullname", Some "Alice"); ("date", None)].

Definition greeting_world : World :=
  world_of [("t.tex", "Name: {fullname}, id {id}")] [].


(** The archive directory of [move_files_to_final] and the place a file is
    moved to. *)
Definition final_dir_of (pathfile : string) : string :=
  path_join (dirname (dirname pathfile)) "final".

Definition destination (pathfile file_path : string) : string :=
  path_join (final_dir_of pathfile) (basename file_path).

(** The world once the archive directory is there. *)
Definition with_final_dir (pathfile : string) (w : World) : World :=
  {| files := files w; dirs := dirs w ∪ {[final_dir_of pathfile]};
     console := console w; history := history w |}.

(** The file is there and moving it raises. *)
Definition move_fails (env : Env) (w : World) (pathfile file_path : string) : Prop :=
  is_Some (files w !! file_path)
  /\ is_Some (move_error env file_path (destination pathfile file_path)).

(** What has happened to a file that was, or was not, there before. *)
Definition moved_or_warned (pathfile file_path : string) (w w' : World) : Prop :=
  match files w !! file_path with
  | Some content =>
      files w' !! destination pathfile file_path = Some content
      /\ (file_path <> destination pathfile file_path -> files w' !! file_path = None)
  | None => In (PStr ("Warning: File not found: " +:+ file_path)) (console w')
  end.

(** The three paths name files (not directories), the archive directory is
    not a file, the three destinations are no directories, differ from
    each other and from the other sources. *)
Record separate_files (w : World) (pathfile signed_txt_path pdf_path : string) : Prop := {
  final_not_file : is_file w (final_dir_of pathfile) = false;
  sources_not_dirs :
    Forall (fun p => is_dir (with_final_dir pathfile w) p = false)
           [pathfile; signed_txt_path; pdf_path];
  destinations_not_dirs :
    Forall (fun p => is_dir (with_final_dir pathfile w) (destination pathfile p) = false)
           [pathfile; signed_txt_path; pdf_path];
  destinations_differ :
    destination pathfile pathfile <> destination pathfile signed_txt_path
    /\ destination pathfile pathfile <> destination pathfile pdf_path
    /\ destination pathfile signed_txt_path <> destination pathfile pdf_path;
  sources_apart :
    signed_txt_path <> destination pathfile pathfile
    /\ pdf_path <> destination pathfile pathfile
    /\ pathfile <> destination pathfile signed_txt_path
    /\ pdf_path <> destination pathfile signed_txt_path
    /\ pathfile <> destination pathfile pdf_path
    /\ signed_txt_path <> destination pathfile pdf_path
}.


(** A pending certificate whose document was not produced: the proof and
    the signed text are there, the PDF is not. *)
Definition pending_world : World :=
  world_of [("../pending/course_a.txt.ots", "proof");
            ("../pending/course_a.txt", "signed text")]
           ["../pending"].

(** The name [sign_certificate] gives to the signed file. *)
Definition signed_name (file_path : string) : string :=
  Str.pyslice 0 (-4) file_path +:+ "-signed.txt".

(** Stamping the signed file does not bring the unsigned file back. *)
Definition stamp_leaves_absent (env : Env) (file_path : string) : Prop :=
  forall hist fs,
    fs !! file_path = None ->
    snd (run_process env (Shell (timestamp_command (signed_name file_path))) hist fs)
      !! file_path = None.

(** The end of a run of [generate_certificate] that completes, seen from
    the world [w0] in which the certificate text is about to be written:
    the text is written to [file_path], [gpg] runs on the files with that
    text and exits with status 0, the text is still there and is removed,
    [ots stamp] runs on the files without it and exits with status 0, and
    the files it leaves are the files of [w']. *)
Definition signed_removed_stamped (env : Env) (file_path : string) (w' : World) : Prop :=
  exists (content : string) (w0 : World),
    let gpg := Shell (sign_command (signed_name file_path) file_path) in
    let stamp := Shell (timestamp_command (signed_name file_path)) in
    let signed := run_process env gpg (history w0) (<[file_path := content]> (files w0)) in
    let stamped := run_process env stamp (history w0 ++ [gpg]) (delete file_path (snd signed)) in
    is_dir w0 file_path = false
    /\ returncode (fst signed) = 0%Z
    /\ is_Some (snd signed !! file_path)
    /\ returncode (fst stamped) = 0%Z
    /\ files w' = snd stamped
    /\ dirs w' = dirs w0
    /\ history w' = history w0 ++ [gpg; stamp].

(** The unsigned files of the two generators. *)
Definition bitcoin_unsigned (result_folder_path : string) : string :=
  path_join result_folder_path "bitcoin_certificate.txt".

Definition course_unsigned (username course_id : string) : string :=
  path_join "../pending"
    ("course_certificate_" +:+ username +:+ "_" +:+ course_id +:+ ".txt").


Definition alice_result : yaml :=
  YMap [("username", YStr "alice"); ("display_name", YStr "Alice");
        ("categories", YMap [("keys", YInt 45); ("mining", YInt 40)])].

(** The text of a [result.yml] that holds [alice_result], and the text
    of the [bcert.yml] of her edition. *)
Definition alice_yaml : string :=
  "username: alice" +:+ newline +:+ "display_name: Alice" +:+ newline
  +:+ "categories:" +:+ newline +:+ "  keys: 45" +:+ newline
  +:+ "  mining: 40" +:+ newline.

Definition edition : yaml :=
  YMap [("exam_id", YStr "e1"); ("location", YStr "Lugano"); ("date", YStr "2024-01-04")].

Definition edition_yaml : string :=
  "exam_id: e1" +:+ newline +:+ "location: Lugano" +:+ newline
  +:+ "date: '2024-01-04'" +:+ newline.

(** A library call that answers on the texts of a table and fails on
    every other text. *)
Definition answer_of_table {A : Type} (library : string) (table : list (string * A))
    (text : string) : res A :=
  match assoc text table with
  | Some answer => Ok answer
  | None => Raise (LibraryError library)
  end.

(** [yaml.safe_load] on the texts of a table. *)
Definition yaml_of_table : list (string * yaml) -> string -> res yaml :=
  answer_of_table "yaml".

(** [template.format] on a template without braces, which it returns as
    it is. *)
Definition format_plain (template : string) (kwargs : list (string * yaml)) : res string :=
  if existsb (fun c => Ascii.eqb c "{" || Ascii.eqb c "}") (Str.chars template)
  then Raise (LibraryError "format")
  else Ok template.

(** Tools that work: [curl] answers, [gpg] writes the signed file of
    [file_path], [ots stamp] writes the proof next to it; the YAML loader
    reads the two texts above. *)
Definition working_env (file_path : string) : Env :=
  {| run_process := fun cmd _ fs =>
       match cmd with
       | Shell c =>
           if Str.prefix "gpg" c
           then (completed 0 EmptyString EmptyString,
                 <[signed_name file_path := "signed text"]> fs)
           else if Str.prefix "ots stamp" c
           then (completed 0 EmptyString EmptyString,
                 <[signed_name file_path +:+ ".ots" := "proof"]> fs)
           else (completed 0 "812345" EmptyString, fs)
       | Exec _ _ => (completed 0 EmptyString EmptyString, fs)
       end;
     str_exn := cpython_str_exn;
     move_error := fun _ _ => None;
     rpc_user := Some "user";
     rpc_password := Some "secret";
     yaml_safe_load := yaml_of_table [(alice_yaml, alice_result); (edition_yaml, edition)];
     str_format := format_plain;
     http_get := fun _ => Raise (LibraryError "requests");
     json_decode := fun _ => Raise (LibraryError "json");
     today := "2024-01-04" |}.

Definition results_world : World :=
  world_of [("../templates/pbn_bitcoin_certificate.txt", "Certificate of completion");
            ("r/alice/result.yml", alice_yaml)]
           ["r"; "r/alice"; "../templates"].


(** Two worlds with the same files, directories and processes run: they
    differ at most in what was printed. *)
Definition same_disk (w w' : World) : Prop :=
  files w' = files w /\ dirs w' = dirs w /\ history w' = history w.

(** A computation that, from the worlds where [P] holds, writes no file,
    makes no directory and runs no process. *)
Definition quiet_on {A : Type} (P : World -> Prop) (m : M A) : Prop :=
  forall w, P w -> same_disk w (snd (m w)).

(** A condition on the files and directories only. *)
Definition disk_condition (P : World -> Prop) : Prop :=
  forall w w', same_disk w w' -> P w -> P w'.

(** Every subfolder that the PDF orchestrator visits has its document. *)
Definition results_of (edition_folder : string) : string :=
  path_join (path_join generate_bitcoin_pdf_certificate.bcert_path edition_folder) "results".

Definition all_finalized (w : World) : Prop :=
  forall edition_folder subfolder,
    In edition_folder (dir_entries w generate_bitcoin_pdf_certificate.bcert_path) ->
    In subfolder (dir_entries w (results_of edition_folder)) ->
    is_dir w (path_join (results_of edition_folder) subfolder) = true ->
    exists_on_disk w
      (path_join (path_join (results_of edition_folder) subfolder)
         "bitcoin_certificate-signed.pdf") = true.


(** A result folder whose document exists while the timestamp proof and
    the signed text are gone. *)
Definition regenerated_world : World :=
  world_of [("../templates/pbn_bitcoin_certificate.txt", "Certificate of completion");
            ("r/alice/result.yml", alice_yaml);
            ("r/alice/bitcoin_certificate-signed.pdf", "%PDF")]
           ["r"; "r/alice"; "../templates"].

(** An edition whose one result folder is finished. *)
Definition finished_editions_world : World :=
  world_of [("../../planB-premium-content/bcert/editions/e1/bcert.yml", edition_yaml);
            ("../../planB-premium-content/bcert/editions/e1/results/alice/result.yml",
             alice_yaml);
            ("../../planB-premium-content/bcert/editions/e1/results/alice/bitcoin_certificate-signed.txt",
             "signed text");
            ("../../planB-premium-content/bcert/editions/e1/results/alice/bitcoin_certificate-signed.txt.ots",
             "proof");
            ("../../planB-premium-content/bcert/editions/e1/results/alice/bitcoin_certificate-signed.pdf",
             "%PDF")]
           ["../../planB-premium-content/bcert/editions";
            "../../planB-premium-content/bcert/editions/e1";
            "../../planB-premium-content/bcert/editions/e1/results";
            "../../planB-premium-content/bcert/editions/e1/results/alice"].

(** A finished result folder: signed text, proof and document. *)
Definition finished_world : World :=
  world_of [("r/alice/result.yml", alice_yaml);
            ("r/alice/bitcoin_certificate-signed.txt", "signed text");
            ("r/alice/bitcoin_certificate-signed.txt.ots", "proof");
            ("r/alice/bitcoin_certificate-signed.pdf", "%PDF")]
           ["r"; "r/alice"].

(** A course certificate that was archived with its document and then
    issued again: signed text and proof are pending once more. *)
Definition course_text : string :=
  "Full name: Alice" +:+ newline +:+ "Course name: Bitcoin Basics" +:+ newline
  +:+ "Date of completion: 2024-01-04" +:+ newline +:+ "Course ID: BTC101" +:+ newline
  +:+ "Duration: 10" +:+ newline.

Definition reissued_world : World :=
  world_of [("../pending/course_alice-signed.txt.ots", "proof");
            ("../pending/course_alice-signed.txt", course_text);
            ("../final/course_alice-signed.pdf", "%PDF of the first run");
            ("../templates/pbn_course_certificate.tex", "\name{{fullname}} \date{{date}}")]
           ["../pending"; "../final"; "../templates"].

(** The proof is mature, the block explorer answers, and [lualatex] writes
    the document next to its source. *)
Definition mature_env : Env :=
  {| run_process := fun cmd _ fs =>
       match cmd with
       | Shell c =>
           if Str.prefix "curl" c
           then (completed 0 "00000000000000000001a0b1c2d3e4f5" EmptyString, fs)
           else (completed 0 EmptyString
                   "Success! Bitcoin block 812345 attests existence", fs)
       | Exec args cwd =>
           (completed 0 EmptyString EmptyString,
            <[path_join cwd "course_alice-signed.pdf" := "%PDF of the second run"]> fs)
       end;
     str_exn := cpython_str_exn;
     move_error := fun _ _ => None;
     rpc_user := Some "user";
     rpc_password := Some "secret";
     yaml_safe_load := fun _ => Raise (LibraryError "yaml");
     str_format := format_plain;
     http_get := fun _ => Raise (LibraryError "requests");
     json_decode := fun _ => Raise (LibraryError "json");
     today := "2024-01-04" |}.

Definition is_lualatex (cmd : command) : bool :=
  match cmd with
  | Exec (program :: _) _ => String.eqb program "lualatex"
  | _ => false
  end.


(** SHA-256 as the standard defines it on a whole message: pad the
    message to a multiple of 64 bytes, then compress block after block. *)
Definition sha256_pad (data : string) : string :=
  let n := String.length data in
  let fill := (64 + 56 - (n + 1) mod 64) mod 64 in
  data +:+ String (Sha256.byte_char 128) (Sha256.zeros fill)
  +:+ Sha256.length_bytes (8 * Z.of_nat n).

Fixpoint fold_blocks (n : nat) (chain : list Z) (s : string) : list Z :=
  match n with
  | O => chain
  | S n' => fold_blocks n' (Sha256.compress chain (Str.take 64 s)) (Str.drop 64 s)
  end.

Definition sha256_of_message (data : string) : string :=
  let padded := sha256_pad data in
  let chain := fold_blocks (String.length padded / 64) Sha256.H0 padded in
  fold_right (fun w acc => Sha256.hex_word w +:+ acc) EmptyString chain.


(** * Vocabulary of the further properties *)

(** A word: not empty and without whitespace. *)
Definition is_word (w : string) : Prop :=
  w <> EmptyString /\ Forall (fun c => Str.is_space c = false) (Str.chars w).

(** The first word of a text (empty when there is none). *)
Definition coursename_word (coursename : string) : string :=
  match Str.split coursename with
  | w :: _ => w
  | [] => EmptyString
  end.

(** A digit of lower-case hexadecimal notation. *)
Definition is_lower_hex (c : ascii) : bool :=
  existsb (Ascii.eqb c) (Str.chars "0123456789abcdef").

(** [sub in s] *)
Definition occurs_in (sub s : string) : Prop :=
  exists k, Str.prefix sub (Str.drop k s) = true.

(** The world after a process has run and left the files [fs]. *)
Definition after_process (w : World) (cmd : command) (fs : gmap string string) : World :=
  {| files := fs; dirs := dirs w; console := console w; history := history w ++ [cmd] |}.

(** A result folder with backup files. *)
Definition backup_world : World :=
  world_of [("r/alice/result.yml", "username: alice");
            ("r/alice/notes.txt.bak", "old notes")]
           ["r"; "r/alice"].

(** The categories of a result with their scores, and the total. *)
Definition category_scores (scores : list (string * Z)) : list (string * yaml) :=
  map (fun kv => (fst kv, YInt (snd kv))) scores.

Definition total_of (scores : list (string * Z)) : Z :=
  fold_left (fun acc kv => (acc + snd kv)%Z) scores 0%Z.

(** The tools leave the file at [q] alone. *)
Definition tools_keep (env : Env) (q : string) : Prop :=
  forall cmd hist fs, snd (run_process env cmd hist fs) !! q = fs !! q.

(** A result folder with a mature proof and a signed text that has no
    date. *)
Definition undated_world : World :=
  world_of [("r/alice/bitcoin_certificate-signed.txt", "Display name: Alice");
            ("r/alice/bitcoin_certificate-signed.txt.ots", "proof")]
           ["r"; "r/alice"].

(** Every result folder of the edition holds its timestamp proof. *)
Definition stamped_results (edition_path : string) (w : World) : Prop :=
  forall subfolder,
    In subfolder (dir_entries w (path_join edition_path "results")) ->
    is_dir w (path_join (path_join edition_path "results") subfolder) = true ->
    exists_on_disk w
      (path_join (path_join (path_join edition_path "results") subfolder)
         "bitcoin_certificate-signed.txt.ots") = true.

(** A pending folder that holds no timestamp proof of a course. *)
Definition idle_world : World :=
  world_of [("../pending/notes.txt", "to do"); ("../pending/exam_a.txt.ots", "proof")]
           ["../pending"].

(** The course generator with tools and services that answer: the two
    files of the course [btc101] and the list of the commits of its text. *)
Definition course_data : yaml :=
  YMap [("level", YStr "beginner"); ("hours", YInt 10)].

Definition course_yaml : string :=
  "level: beginner" +:+ newline +:+ "hours: 10" +:+ newline.

Definition header_data : yaml :=
  YMap [("name", YStr "Bitcoin Basics"); ("goal", YStr "Learn the basics")].

Definition header_yaml : string :=
  "name: Bitcoin Basics" +:+ newline +:+ "goal: Learn the basics".

Definition en_md : string :=
  "---" +:+ newline +:+ header_yaml +:+ newline +:+ "---" +:+ newline
  +:+ "# Bitcoin Basics" +:+ newline.

Definition commits_json : string :=
  "[{" +:+ dquote +:+ "sha" +:+ dquote +:+ ": " +:+ dquote +:+ "0a1b2c" +:+ dquote +:+ "}]".

Definition course_env : Env :=
  {| run_process := fun cmd _ fs =>
       match cmd with
       | Shell c =>
           if Str.prefix "gpg" c
           then (completed 0 EmptyString EmptyString,
                 <[signed_name (course_unsigned "alice" "btc101") := "signed text"]> fs)
           else (completed 0 "812345" EmptyString, fs)
       | Exec _ _ => (completed 0 EmptyString EmptyString, fs)
       end;
     str_exn := cpython_str_exn;
     move_error := fun _ _ => None;
     rpc_user := None;
     rpc_password := None;
     yaml_safe_load := yaml_of_table [(course_yaml, course_data); (header_yaml, header_data)];
     str_format := format_plain;
     http_get :=
       answer_of_table "requests"
         [(generate_course_txt_certificate.raw_url "btc101" "course.yml", course_yaml);
          (generate_course_txt_certificate.raw_url "btc101" "en.md", en_md);
          ("https://api.github.com/repos/PlanB-Network/bitcoin-educational-content/commits?path=courses/btc101/en.md",
           commits_json)];
     json_decode :=
       answer_of_table "json" [(commits_json, YList [YMap [("sha", YStr "0a1b2c")]])];
     today := "2024-01-04" |}.

Definition course_world : World :=
  world_of [("../templates/pbn_course_certificate.txt", "Certificate of completion")]
           ["../templates"].

(** A result below the threshold, and tools that read it. *)
Definition bob_scores : list (string * Z) := [("keys", 40%Z); ("mining", 39%Z)].

Definition bob_result : list (string * yaml) :=
  [("username", YStr "bob"); ("categories", YMap (category_scores bob_scores))].

Definition bob_yaml : string :=
  "username: bob" +:+ newline +:+ "categories:" +:+ newline
  +:+ "  keys: 40" +:+ newline +:+ "  mining: 39" +:+ newline.

Definition bob_world : World :=
  world_of [("r/bob/result.yml", bob_yaml)] ["r"; "r/bob"].

Definition bob_env : Env :=
  {| run_process := fun cmd _ fs => (completed 0 EmptyString EmptyString, fs);
     str_exn := cpython_str_exn;
     move_error := fun _ _ => None;
     rpc_user := None;
     rpc_password := None;
     yaml_safe_load := yaml_of_table [(bob_yaml, YMap bob_result)];
     str_format := format_plain;
     http_get := fun _ => Raise (LibraryError "requests");
     json_decode := fun _ => Raise (LibraryError "json");
     today := "2024-01-04" |}.

(** An edition whose one result folder holds its timestamp proof. *)
Definition stamped_world : World :=
  world_of [("e/one/bcert.yml", edition_yaml);
            ("e/one/results/alice/result.yml", alice_yaml);
            ("e/one/results/alice/bitcoin_certificate-signed.txt", "signed text");
            ("e/one/results/alice/bitcoin_certificate-signed.txt.ots", "proof")]
           ["e"; "e/one"; "e/one/results"; "e/one/results/alice"].

(** A pass that writes the document and exits with a non-zero status, as
    [lualatex] does in [nonstopmode] on a source with errors. *)
Definition writes_and_fails (env : Env) (pass : command) (pdf doc : string) : Prop :=
  forall hist fs,
    returncode (fst (run_process env pass hist fs)) <> 0%Z
    /\ snd (run_process env pass hist fs) = <[pdf := doc]> fs.

(** The shell tools ([ots], [curl], [gpg]) leave the file at [q] alone. *)
Definition shell_keep (env : Env) (q : string) : Prop :=
  forall c hist fs, snd (run_process env (Shell c) hist fs) !! q = fs !! q.

(** A result folder with a mature proof and a dated signed text, and
    tools of which [lualatex] writes the document and exits with status
    1. *)
Definition dated_world : World :=
  world_of [("r/alice/bitcoin_certificate-signed.txt",
             "Display name: Alice" +:+ newline +:+ "Date of completion: 2024-01-04");
            ("r/alice/bitcoin_certificate-signed.txt.ots", "proof");
            ("../templates/pbn_bitcoin_certificate.tex", "\name{{fullname}}")]
           ["r"; "r/alice"; "../pending"; "../templates"].

Definition faulty_latex_env : Env :=
  {| run_process := fun cmd _ fs =>
       match cmd with
       | Shell c =>
           (completed 0 "00000000000000000001a0b1c2d3e4f5"
              "Success! Bitcoin block 812345 attests existence", fs)
       | Exec _ cwd =>
           (completed 1 "! Undefined control sequence." EmptyString,
            <[path_join cwd "bitcoin_certificate-signed.pdf" := "%PDF with errors"]> fs)
       end;
     str_exn := cpython_str_exn;
     move_error := fun _ _ => None;
     rpc_user := Some "user";
     rpc_password := Some "secret";
     yaml_safe_load := fun _ => Raise (LibraryError "yaml");
     str_format := fun _ _ => Raise (LibraryError "format");
     http_get := fun _ => Raise (LibraryError "requests");
     json_decode := fun _ => Raise (LibraryError "json");
     today := "2024-01-04" |}.

(** No tool changes a file. *)
Definition tools_idle (env : Env) : Prop :=
  forall cmd hist fs, snd (run_process env cmd hist fs) = fs.

(** A pending course certificate, its template, and tools of which
    [lualatex] fails without writing anything. *)
Definition uncompiled_world : World :=
  world_of [("../pending/course_alice-signed.txt.ots", "proof");
            ("../pending/course_alice-signed.txt", course_text);
            ("../templates/pbn_course_certificate.tex", "\name{{fullname}} \date{{date}}")]
           ["../pending"; "../templates"].

Definition no_latex_env : Env :=
  table_env (fun cmd =>
    match cmd with
    | Shell c =>
        completed 0 "00000000000000000001a0b1c2d3e4f5"
          "Success! Bitcoin block 812345 attests existence"
    | Exec _ _ => completed 127 EmptyString "lualatex: not found"
    end).

(** The exception is a [CalledProcessError]. *)
Definition is_called (e : exn) : bool :=
  match e with
  | CalledProcessError _ _ => true
  | _ => false
  end.

(** Tools of which [gpg] fails. *)
Definition no_key_env : Env :=
  {| run_process := fun cmd _ fs =>
       match cmd with
       | Shell c =>
           if Str.prefix "gpg" c
           then (completed 2 EmptyString "gpg: signing failed: No secret key", fs)
           else (completed 0 "812345" EmptyString, fs)
       | Exec _ _ => (completed 0 EmptyString EmptyString, fs)
       end;
     str_exn := cpython_str_exn;
     move_error := fun _ _ => None;
     rpc_user := None;
     rpc_password := None;
     yaml_safe_load := yaml_of_table [(alice_yaml, alice_result); (edition_yaml, edition)];
     str_format := format_plain;
     http_get := fun _ => Raise (LibraryError "requests");
     json_decode := fun _ => Raise (LibraryError "json");
     today := "2024-01-04" |}.

(** A pending course certificate of a person whose name is the placeholder
    of the date. *)
Definition braced_text : string :=
  "Full name: {date}" +:+ newline +:+ "Course name: Bitcoin Basics" +:+ newline
  +:+ "Date of completion: 2024-01-04" +:+ newline +:+ "Course ID: BTC101" +:+ newline
  +:+ "Duration: 10" +:+ newline.

Definition braced_world : World :=
  world_of [("../pending/course_alice-signed.txt.ots", "proof");
            ("../pending/course_alice-signed.txt", braced_text);
            ("../templates/pbn_course_certificate.tex", "\name{{fullname}} \date{{date}}")]
           ["../pending"; "../templates"].

(** Texts that text mode reads and writes byte for byte: ASCII characters,
    no carriage return. *)
Definition text_mode_safe (content : string) : bool :=
  forallb (fun c => negb (Ascii.eqb c "013") && (nat_of_ascii c <? 128))
          (Str.chars content).

(** The directory in which [p] is to be created exists. *)
Definition parent_exists (w : World) (p : string) : Prop :=
  dirname p = EmptyString \/ is_dir w (dirname p) = true.

(** The line that [clean_bak_files] prints for a backup file: the removal
    or the error of the removal. *)
Definition reported (env : Env) (file : string) (line : printed) : Prop :=
  line = PStr ("Removed backup file: " +:+ file)
  \/ (exists e, is_OSError e = true
        /\ line = PStr ("Error removing " +:+ file +:+ ": " +:+ str_exn env e)).

(** The same, with the state of the file in [w'] when the removal was
    reported. *)
Definition removal_line (env : Env) (folder_path : string) (w' : World)
    (file : string) (line : printed) : Prop :=
  (line = PStr ("Removed backup file: " +:+ file)
   /\ files w' !! path_join folder_path file = None)
  \/ (exists e, is_OSError e = true
        /\ line = PStr ("Error removing " +:+ file +:+ ": " +:+ str_exn env e)).

(** A result folder with a backup file and a directory named like one. *)
Definition mixed_backup_world : World :=
  world_of [("r/alice/result.yml", alice_yaml);
            ("r/alice/notes.txt.bak", "old notes")]
           ["r"; "r/alice"; "r/alice/old.bak"].

(** * Part II: properties *)

(** ** Facts about strings *)

Module StrFacts.

Lemma app_cons c s t : String c s +:+ t = String c (s +:+ t).
Proof. reflexivity. Qed.

Lemma app_nil_r s : s +:+ EmptyString = s.
Proof. induction s as [|c s IH]; [done|]. by rewrite app_cons, IH. Qed.

Lemma app_assoc s t u : (s +:+ t) +:+ u = s +:+ t +:+ u.
Proof. induction s as [|c s IH]; [done|]. by rewrite !app_cons, IH. Qed.

Lemma length_app s t : String.length (s +:+ t) = String.length s + String.length t.
Proof. induction s as [|c s IH]; [done|]. rewrite app_cons; simpl. by rewrite IH. Qed.

Lemma take_drop n s : Str.take n s +:+ Str.drop n s = s.
Proof.
  revert s; induction n as [|n IH]; intros [|c s]; simpl; try done.
  by rewrite app_cons, IH.
Qed.

Lemma length_take n s : String.length (Str.take n s) = Nat.min n (String.length s).
Proof.
  revert s; induction n as [|n IH]; intros [|c s]; simpl; try done.
  by rewrite IH.
Qed.

Lemma length_drop n s : String.length (Str.drop n s) = String.length s - n.
Proof. revert s; induction n as [|n IH]; intros [|c s]; simpl; try done. Qed.

Lemma take_all n s : String.length s <= n -> Str.take n s = s.
Proof.
  revert s; induction n as [|n IH]; intros [|c s]; simpl; try done; try lia.
  intros H. rewrite IH; [done|lia].
Qed.

Lemma take_empty n s : 0 < n -> Str.take n s = EmptyString -> s = EmptyString.
Proof. destruct n, s; simpl; try done; lia. Qed.

Lemma chars_app s t : Str.chars (s +:+ t) = Str.chars s ++ Str.chars t.
Proof. induction s as [|c s IH]; [done|]. rewrite app_cons; simpl. by rewrite IH. Qed.

Lemma prefix_app p s : Str.prefix p (p +:+ s) = true.
Proof.
  induction p as [|c p IH]; [done|]. rewrite app_cons; simpl.
  by rewrite Ascii.eqb_refl.
Qed.

Lemma prefix_inv p s : Str.prefix p s = true -> exists r, s = p +:+ r.
Proof.
  revert s; induction p as [|c p IH]; intros s H.
  - by exists s.
  - destruct s as [|d s]; simpl in H; [done|].
    destruct (Ascii.eqb c d) eqn:E; [|done].
    apply Ascii.eqb_eq in E as ->. destruct (IH _ H) as [r ->]. by exists r.
Qed.

Lemma drop_app p s : Str.drop (String.length p) (p +:+ s) = s.
Proof. induction p as [|c p IH]; [by destruct s|]. by rewrite app_cons. Qed.

End StrFacts.

(** ** Hash display: the round trip of [split_and_format_hash] *)

Lemma format_hash_short (s : string) :
  String.length s <= 4 -> format_hash s = s.
Proof.
  intros H.
  destruct s as [|a [|b [|c [|d [|e s]]]]]; simpl in H; try lia; reflexivity.
Qed.

Lemma chunks_shift (a b c d : ascii) (t : string) (n : nat) :
  map (fun i => Str.slice i (i + 4) (String a (String b (String c (String d t)))))
      (map (fun k => 0 + k * 4) (seq 1 n))
  = map (fun i => Str.slice i (i + 4) t) (map (fun k => 0 + k * 4) (seq 0 n)).
Proof.
  rewrite <- seq_shift, !map_map. apply map_ext. intros k.
  unfold Str.slice.
  replace (0 + S k * 4) with (S (S (S (S (0 + k * 4))))) by lia.
  reflexivity.
Qed.

(** A space follows each full group of four characters that is not the
    last group. *)
Lemma format_hash_long (a b c d e : ascii) (t : string) :
  format_hash (String a (String b (String c (String d (String e t)))))
  = String a (String b (String c (String d (String " " (format_hash (String e t)))))).
Proof.
  unfold format_hash, py_range.
  set (s := String e t).
  change (String.length (String a (String b (String c (String d s)))))
    with (4 + String.length s).
  replace ((4 + String.length s - 0 + 4 - 1) / 4)
    with (S ((String.length s - 0 + 4 - 1) / 4)).
  2:{ replace (4 + String.length s - 0 + 4 - 1) with ((String.length s - 0 + 4 - 1) + 1 * 4) by lia.
      rewrite Nat.div_add by lia. lia. }
  assert (Hpos : exists k, (String.length s - 0 + 4 - 1) / 4 = S k).
  { subst s. simpl String.length.
    destruct ((S (String.length t) - 0 + 4 - 1) / 4) eqn:E; [|by eauto].
    apply Nat.div_small_iff in E; lia. }
  destruct Hpos as [k Hk]. rewrite Hk.
  change (seq 0 (S (S k))) with (0 :: seq 1 (S k)).
  rewrite !map_cons, chunks_shift.
  change (seq 0 (S k)) with (0 :: seq 1 k). rewrite !map_cons.
  reflexivity.
Qed.

(** Induction on a text by groups of four characters. *)
Lemma by_groups_of_four (P : string -> Prop) :
  (forall s, String.length s <= 4 -> P s) ->
  (forall a b c d e t, P (String e t) ->
     P (String a (String b (String c (String d (String e t)))))) ->
  forall s, P s.
Proof.
  intros Hshort Hlong s.
  remember (String.length s) as n eqn:Hn. revert s Hn.
  induction n as [n IH] using lt_wf_ind. intros s ->.
  destruct s as [|a [|b [|c [|d [|e t]]]]]; try (apply Hshort; simpl; lia).
  apply Hlong. eapply IH; [|reflexivity]. simpl; lia.
Qed.

Lemma remove_inserted_spaces_format_hash (s : string) :
  remove_inserted_spaces (format_hash s) = s.
Proof.
  induction s as [s Hs|a b c d e t IH] using by_groups_of_four.
  - rewrite format_hash_short by done.
    by destruct s as [|a [|b [|c [|d [|e s]]]]]; simpl in Hs; try lia.
  - rewrite format_hash_long. simpl. by rewrite IH.
Qed.

(** The inserted characters are spaces and sit at the indices 4, 9, 14, ... *)
Lemma format_hash_separators (s : string) (i : nat) :
  i mod 5 = 4 -> i < String.length (format_hash s) ->
  String.get i (format_hash s) = Some " "%char.
Proof.
  revert i. induction s as [s Hs|a b c d e t IH] using by_groups_of_four; intros i Hi Hlen.
  - rewrite format_hash_short in Hlen by done.
    assert (i = 4 \/ 5 <= i) as [->|] by (destruct (decide (i < 5)) as [Hlt|];
      [left; destruct i as [|[|[|[|[|]]]]]; simpl in Hi; lia | lia]); lia.
  - rewrite format_hash_long in *. simpl in Hlen.
    destruct i as [|[|[|[|[|i]]]]]; try (simpl in Hi; lia); [done|].
    simpl. apply IH; [|lia].
    change (S (S (S (S (S i))))) with (5 + i) in Hi.
    rewrite <- (Nat.Div0.add_mod_idemp_l 5 i 5) in Hi. exact Hi.
Qed.

Lemma remove_spaces_app s t :
  remove_spaces (s +:+ t) = remove_spaces s +:+ remove_spaces t.
Proof.
  induction s as [|c s IH]; [done|]. rewrite StrFacts.app_cons. simpl.
  destruct (Ascii.eqb c " "); [done|]. by rewrite StrFacts.app_cons, IH.
Qed.

Lemma remove_spaces_id s :
  Forall (fun c => c <> " "%char) (Str.chars s) -> remove_spaces s = s.
Proof.
  induction s as [|c s IH]; [done|]. simpl. intros [Hc Hs]%Forall_cons.
  destruct (Ascii.eqb c " ") eqn:E; [by apply Ascii.eqb_eq in E|]. by rewrite IH.
Qed.

Lemma remove_spaces_format_hash (s : string) :
  remove_spaces (format_hash s) = remove_spaces s.
Proof.
  induction s as [s Hs|a b c d e t IH] using by_groups_of_four.
  - by rewrite format_hash_short.
  - rewrite format_hash_long.
    change (remove_spaces (String a (String b (String c (String d (String " " (format_hash (String e t)))))))
      = remove_spaces (String a (String b (String c (String d (String e t)))))).
    cbn [remove_spaces]. rewrite IH.
    change (Ascii.eqb " " " ") with true. cbn [remove_spaces]. reflexivity.
Qed.

(** C2. For every string, [split_and_format_hash] cuts it at the index
    [len // 2] (an odd length leaves the first half one character shorter
    than the second), returns [format_hash] of each half, in which the spaces
    inserted stand after each group of four characters; taking the inserted
    spaces out of both results and concatenating them gives the string
    back. *)
Theorem split_and_format_hash_round_trip (s : string) :
  let midpoint := String.length s / 2 in
  let first_half := Str.take midpoint s in
  let second_half := Str.drop midpoint s in
  split_and_format_hash s = (format_hash first_half, format_hash second_half)
  /\ first_half +:+ second_half = s
  /\ String.length first_half = midpoint
  /\ String.length second_half = String.length s - midpoint
  /\ (String.length s mod 2 = 1 ->
      S (String.length first_half) = String.length second_half)
  /\ spaces_at_fifths (format_hash first_half)
  /\ spaces_at_fifths (format_hash second_half)
  /\ remove_inserted_spaces (fst (split_and_format_hash s))
     +:+ remove_inserted_spaces (snd (split_and_format_hash s)) = s.
Proof.
  intros midpoint first_half second_half.
  assert (Hmid : midpoint <= String.length s).
  { subst midpoint. apply Nat.Div0.div_le_upper_bound. lia. }
  assert (Hlen1 : String.length first_half = midpoint).
  { subst first_half. rewrite StrFacts.length_take. lia. }
  assert (Hlen2 : String.length second_half = String.length s - midpoint).
  { subst second_half. apply StrFacts.length_drop. }
  repeat split.
  - apply StrFacts.take_drop.
  - exact Hlen1.
  - exact Hlen2.
  - intros Hodd. rewrite Hlen1, Hlen2. subst midpoint.
    pose proof (Nat.div_mod_eq (String.length s) 2). lia.
  - intros i. apply format_hash_separators.
  - intros i. apply format_hash_separators.
  - unfold split_and_format_hash. simpl.
    rewrite !remove_inserted_spaces_format_hash. apply StrFacts.take_drop.
Qed.

(** For a text without spaces, such as a hexadecimal digest, removing all
    spaces de-formats as well. *)
Corollary split_and_format_hash_remove_spaces (s : string) :
  Forall (fun c => c <> " "%char) (Str.chars s) ->
  remove_spaces (fst (split_and_format_hash s))
  +:+ remove_spaces (snd (split_and_format_hash s)) = s.
Proof.
  intros H. unfold split_and_format_hash. simpl.
  rewrite !remove_spaces_format_hash, <- remove_spaces_app, StrFacts.take_drop.
  by apply remove_spaces_id.
Qed.

(** ** Date formatting *)

Lemma digit_of_ok (k : Z) :
  (0 <= k < 10)%Z -> Str.is_digit (digit_of k) = true /\ digit_val (digit_of k) = k.
Proof.
  intros H.
  assert (k = 0 \/ k = 1 \/ k = 2 \/ k = 3 \/ k = 4 \/ k = 5 \/ k = 6 \/ k = 7
          \/ k = 8 \/ k = 9)%Z as Hk by lia.
  repeat (destruct Hk as [->|Hk]; [by split|]). subst k. by split.
Qed.

Lemma parse_Y_pad4 (y : Z) (r : string) :
  (0 <= y <= 9999)%Z -> parse_Y (pad4 y +:+ r) = [(y, r)].
Proof.
  intros Hy. unfold pad4, pad2. rewrite !StrFacts.app_cons. cbn [parse_Y].
  destruct (digit_of_ok (y / 1000 mod 10)) as [-> ->]; [apply Z.mod_pos_bound; lia|].
  destruct (digit_of_ok (y / 100 mod 10)) as [-> ->]; [apply Z.mod_pos_bound; lia|].
  destruct (digit_of_ok (y / 10 mod 10)) as [-> ->]; [apply Z.mod_pos_bound; lia|].
  destruct (digit_of_ok (y mod 10)) as [-> ->]; [apply Z.mod_pos_bound; lia|].
  cbn [andb]. do 2 f_equal.
  replace (y / 1000)%Z with (y / 10 / 10 / 10)%Z by (rewrite !Z.div_div by lia; done).
  replace (y / 100)%Z with (y / 10 / 10)%Z by (rewrite !Z.div_div by lia; done).
  pose proof (Z.div_mod y 10 ltac:(lia)).
  pose proof (Z.div_mod (y / 10) 10 ltac:(lia)).
  pose proof (Z.div_mod (y / 10 / 10) 10 ltac:(lia)).
  pose proof (Z.mod_pos_bound y 10 ltac:(lia)).
  pose proof (Z.mod_pos_bound (y / 10) 10 ltac:(lia)).
  pose proof (Z.mod_pos_bound (y / 10 / 10) 10 ltac:(lia)).
  assert (0 <= y / 10 / 10 / 10 < 10)%Z.
  { split; [repeat apply Z.div_pos; lia|].
    rewrite !Z.div_div by lia. apply Z.div_lt_upper_bound; lia. }
  rewrite (Z.mod_small (y / 10 / 10 / 10) 10) by done.
  generalize dependent (y mod 10)%Z. generalize dependent (y / 10 mod 10)%Z.
  generalize dependent (y / 10 / 10 mod 10)%Z. generalize dependent (y / 10 / 10 / 10)%Z.
  generalize dependent (y / 10 / 10)%Z. generalize dependent (y / 10)%Z.
  intros; lia.
Qed.

(** Case analysis on an integer known to lie in a small range. *)
Ltac enumerate z lo n :=
  lazymatch n with
  | O => exfalso; lia
  | S ?n' =>
      destruct (Z.eq_dec z lo) as [->|?];
      [| let lo' := eval compute in (lo + 1)%Z in enumerate z lo' n']
  end.

Lemma parse_Ymd_iso (y m d : Z) :
  (0 <= y <= 9999)%Z -> (1 <= m <= 12)%Z -> (1 <= d <= 31)%Z ->
  hd_error (parse_Ymd (iso_date y m d)) = Some (y, m, d, EmptyString).
Proof.
  intros Hy Hm Hd. unfold parse_Ymd, iso_date.
  rewrite parse_Y_pad4 by done.
  enumerate m 1%Z 12; enumerate d 1%Z 31; vm_compute; reflexivity.
Qed.

Lemma valid_date_bounds (y m d : Z) :
  valid_date y m d = true ->
  (1 <= y <= 9999)%Z /\ (1 <= m <= 12)%Z /\ (1 <= d <= 31)%Z.
Proof.
  unfold valid_date. intros H.
  rewrite !andb_true_iff, !Z.leb_le in H.
  assert (days_in_month y m <= 31)%Z by (unfold days_in_month; repeat case_match; lia).
  lia.
Qed.

Lemma strptime_iso (y m d : Z) :
  valid_date y m d = true ->
  strptime (iso_date y m d) = Ok {| year := y; month := m; day := d |}.
Proof.
  intros H. destruct (valid_date_bounds _ _ _ H) as (Hy & Hm & Hd).
  unfold strptime.
  pose proof (parse_Ymd_iso y m d ltac:(lia) Hm Hd) as Hp.
  destruct (parse_Ymd (iso_date y m d)) as [|[[[y' m'] d'] rest] tl]; [done|].
  simpl in Hp. injection Hp as -> -> -> ->. by rewrite H.
Qed.

(** C6. For every valid date, given as the text YYYY-MM-DD, [format_date]
    returns the day without leading zero, its English ordinal suffix (th
    for 4-20 and 24-30, st for 1, 21, 31, nd for 2, 22, rd for 3, 23), a
    space, the full month name, a comma and a space, and the year. *)
Theorem format_date_correct (y m d : Z) :
  valid_date y m d = true ->
  format_date (iso_date y m d)
  = Ok (Z_to_str d +:+ ordinal_suffix d +:+ " " +:+ month_name m +:+ ", " +:+ Z_to_str y)
  /\ String.get 0 (Z_to_str d) <> Some "0"%char
  /\ In (month_name m) month_names.
Proof.
  intros H. destruct (valid_date_bounds _ _ _ H) as (Hy & Hm & Hd).
  unfold format_date. rewrite (strptime_iso _ _ _ H). cbn [day month year].
  split; [|split].
  - unfold year_str. enumerate d 1%Z 31; reflexivity.
  - enumerate d 1%Z 31; vm_compute; discriminate.
  - enumerate m 1%Z 12; vm_compute; tauto.
Qed.

Lemma format_date_correct_witness :
  valid_date 2024 1 4 = true
  /\ format_date "2024-01-04" = Ok "4th January, 2024".
Proof.
  split; [reflexivity|].
  exact (proj1 (format_date_correct 2024 1 4 eq_refl)).
Defined.

Example format_date_21st : format_date "2024-01-21" = Ok "21st January, 2024".
Proof. reflexivity. Qed.

Example format_date_23rd : format_date "2024-01-23" = Ok "23rd January, 2024".
Proof. reflexivity. Qed.

Example format_date_leap_day : format_date "2024-02-29" = Ok "29th February, 2024".
Proof. reflexivity. Qed.

Example format_date_not_a_date : format_date "2023-02-29" = Raise ValueError.
Proof. reflexivity. Qed.

(** ** The digest of a file *)

(** The model of SHA-256 on the test vectors of FIPS 180-4. *)
Example sha256_abc :
  Sha256.sha256_hex "abc"
  = "ba7816bf8f01cfea414140de5dae2223b00361a396177a9cb410ff61f20015ad".
Proof. vm_compute. reflexivity. Qed.

Example sha256_two_blocks :
  Sha256.sha256_hex "abcdbcdecdefdefgefghfghighijhijkijkljklmklmnlmnomnopnopq"
  = "248d6a61d20638b8e5c026930c3e6039a33ce45964ff2167f6ecedd419db06c1".
Proof. vm_compute. reflexivity. Qed.

Example sha256_of_message_abc :
  sha256_of_message "abc"
  = "ba7816bf8f01cfea414140de5dae2223b00361a396177a9cb410ff61f20015ad".
Proof. vm_compute. reflexivity. Qed.

(** Feeding a text in two pieces is feeding it at once. *)
Lemma sha256_update_app (st : Sha256.state) (a b : string) :
  Sha256.update st (a +:+ b) = Sha256.update (Sha256.update st a) b.
Proof.
  revert st; induction a as [|c a IH]; intros st; [done|].
  rewrite StrFacts.app_cons. simpl. apply IH.
Qed.

(** The loop over the chunks of 4096 bytes ends and has fed the whole
    content, in order, to the hash object. *)
Lemma read_chunks_update (file : string) (hash_sha256 : Sha256.state) :
  read_chunks file hash_sha256 = Sha256.update hash_sha256 file.
Proof.
  funelim (read_chunks file hash_sha256).
  - clear H Heqcall. apply StrFacts.take_empty in e; [|lia]. by subst.
  - clear H0 Heqcall. rewrite H, <- Heq, <- sha256_update_app.
    by rewrite StrFacts.take_drop.
Qed.

(** *** The hash object against the definition on whole messages *)

Lemma take_app_exact (b r : string) : Str.take (String.length b) (b +:+ r) = b.
Proof. induction b as [|c b IH]; [by destruct r|]. rewrite StrFacts.app_cons. simpl. by rewrite IH. Qed.

Lemma fold_blocks_cons (n : nat) (chain : list Z) (b r : string) :
  String.length b = 64 ->
  fold_blocks (S n) chain (b +:+ r) = fold_blocks n (Sha256.compress chain b) r.
Proof.
  intros Hb. cbn [fold_blocks]. rewrite <- Hb at 1 2.
  by rewrite take_app_exact, StrFacts.drop_app.
Qed.

Lemma length_zeros (n : nat) : String.length (Sha256.zeros n) = n.
Proof. induction n as [|n IH]; [done|]. simpl. by rewrite IH. Qed.

(** The hash object after a text that completes its pending block. *)
Lemma update_fold_blocks (st : Sha256.state) (data : string) :
  String.length (Sha256.pending st) < 64 ->
  (String.length (Sha256.pending st) + String.length data) mod 64 = 0 ->
  Sha256.chain (Sha256.update st data)
  = fold_blocks ((String.length (Sha256.pending st) + String.length data) / 64)
      (Sha256.chain st) (Sha256.pending st +:+ data).
Proof.
  revert st. induction data as [|c data IH]; intros st Hlt Hdiv.
  - cbn [String.length Sha256.update] in *. rewrite Nat.add_0_r in *.
    rewrite Nat.mod_small in Hdiv by done.
    rewrite Hdiv. reflexivity.
  - cbn [Sha256.update]. unfold Sha256.feed.
    assert (Hblock : String.length (Sha256.pending st +:+ String c EmptyString)
                     = S (String.length (Sha256.pending st))).
    { rewrite StrFacts.length_app. simpl. lia. }
    replace (Sha256.pending st +:+ String c data)
      with ((Sha256.pending st +:+ String c EmptyString) +:+ data)
      by (by rewrite StrFacts.app_assoc).
    cbn [String.length] in Hdiv |- *.
    destruct (Nat.eqb_spec (String.length (Sha256.pending st +:+ String c EmptyString)) 64)
      as [Hfull|Hpart].
    + rewrite IH; cbn [Sha256.pending Sha256.chain String.length].
      * replace ((String.length (Sha256.pending st) + S (String.length data)) / 64)
          with (S ((0 + String.length data) / 64)).
        -- by rewrite fold_blocks_cons.
        -- replace (String.length (Sha256.pending st) + S (String.length data))
             with (String.length data + 1 * 64) by lia.
           rewrite Nat.div_add by lia. simpl. lia.
      * lia.
      * replace (String.length (Sha256.pending st) + S (String.length data))
          with (String.length data + 1 * 64) in Hdiv by lia.
        by rewrite Nat.Div0.mod_add in Hdiv.
    + rewrite IH; cbn [Sha256.pending Sha256.chain].
      * rewrite Hblock.
        by replace (S (String.length (Sha256.pending st)) + String.length data)
          with (String.length (Sha256.pending st) + S (String.length data)) by lia.
      * lia.
      * rewrite Hblock.
        by replace (S (String.length (Sha256.pending st)) + String.length data)
          with (String.length (Sha256.pending st) + S (String.length data)) by lia.
Qed.

Lemma padded_length (n : nat) :
  (n + (1 + (64 + 56 - (n + 1) mod 64) mod 64 + 8)) mod 64 = 0.
Proof.
  pose proof (Nat.div_mod_eq (n + 1) 64) as Hn.
  pose proof (Nat.mod_upper_bound (n + 1) 64 ltac:(lia)) as Hr.
  set (r := (n + 1) mod 64) in *. set (q := (n + 1) / 64) in *.
  destruct (le_lt_dec r 56) as [Hle|Hgt].
  - replace ((64 + 56 - r) mod 64) with (56 - r).
    + replace (n + (1 + (56 - r) + 8)) with (0 + (q + 1) * 64) by lia.
      by rewrite Nat.Div0.mod_add.
    + replace (64 + 56 - r) with ((56 - r) + 1 * 64) by lia.
      rewrite Nat.Div0.mod_add. rewrite Nat.mod_small; lia.
  - rewrite (Nat.mod_small (64 + 56 - r)) by lia.
    replace (n + (1 + (64 + 56 - r) + 8)) with (0 + (q + 2) * 64) by lia.
    by rewrite Nat.Div0.mod_add.
Qed.

Lemma update_fed (st : Sha256.state) (data : string) :
  Sha256.fed (Sha256.update st data) = Sha256.fed st + String.length data.
Proof.
  revert st. induction data as [|c data IH]; intros st; [simpl; lia|].
  cbn [Sha256.update String.length]. rewrite IH. unfold Sha256.feed.
  destruct (_ =? 64); cbn [Sha256.fed]; lia.
Qed.

Lemma update_pending (st : Sha256.state) (data : string) :
  String.length (Sha256.pending st) < 64 ->
  String.length (Sha256.pending (Sha256.update st data))
  = (String.length (Sha256.pending st) + String.length data) mod 64.
Proof.
  revert st. induction data as [|c data IH]; intros st Hlt.
  - cbn [Sha256.update String.length]. rewrite Nat.add_0_r. by rewrite Nat.mod_small.
  - cbn [Sha256.update String.length]. unfold Sha256.feed.
    assert (Hblock : String.length (Sha256.pending st +:+ String c EmptyString)
                     = S (String.length (Sha256.pending st))).
    { rewrite StrFacts.length_app. simpl. lia. }
    destruct (Nat.eqb_spec (String.length (Sha256.pending st +:+ String c EmptyString)) 64)
      as [Hfull|Hpart].
    + rewrite IH; cbn [Sha256.pending String.length]; [|lia].
      replace (String.length (Sha256.pending st) + S (String.length data))
        with (String.length data + 1 * 64) by lia.
      by rewrite Nat.Div0.mod_add.
    + rewrite IH; cbn [Sha256.pending]; [|lia]. rewrite Hblock. f_equal. lia.
Qed.

(** The hash object computes SHA-256 of the bytes it was fed. *)
Lemma sha256_hex_of_message (data : string) :
  Sha256.sha256_hex data = sha256_of_message data.
Proof.
  unfold Sha256.sha256_hex, Sha256.hexdigest, sha256_of_message.
  set (st := Sha256.update Sha256.new data).
  replace {| Sha256.chain := Sha256.chain st; Sha256.pending := Sha256.pending st;
             Sha256.fed := Sha256.fed st |} with st by (by destruct st).
  assert (Hpad : data +:+ Sha256.padding st = sha256_pad data).
  { unfold Sha256.padding, sha256_pad. subst st.
    rewrite update_fed, update_pending by (cbn; lia).
    cbn [Sha256.new Sha256.pending Sha256.fed String.length Nat.add].
    replace (S (String.length data mod 64) mod 64) with ((String.length data + 1) mod 64).
    - reflexivity.
    - replace (S (String.length data mod 64)) with (String.length data mod 64 + 1) by lia.
      by rewrite Nat.Div0.add_mod_idemp_l. }
  subst st. rewrite <- sha256_update_app, Hpad.
  assert (Hlen : String.length (sha256_pad data) mod 64 = 0).
  { unfold sha256_pad. rewrite !StrFacts.length_app. cbn [String.length].
    rewrite length_zeros.
    change (String.length (Sha256.length_bytes _)) with 8.
    replace (String.length data + (S ((64 + 56 - (String.length data + 1) mod 64) mod 64) + 8))
      with (String.length data + (1 + (64 + 56 - (String.length data + 1) mod 64) mod 64 + 8))
      by lia.
    apply padded_length. }
  rewrite update_fold_blocks by (cbn; done || lia).
  reflexivity.
Qed.

(** C5. For every content of the file, [compute_sha256], which feeds the
    content to the hash object in chunks of 4096 bytes, returns the
    hexadecimal SHA-256 digest of the whole content, as computed in one
    pass over the padded message; the result depends on the bytes only: the
    same content gives the same digest, whatever the path and the rest of
    the world. *)
Theorem compute_sha256_one_pass (file_path content : string) (w : World) :
  files w !! file_path = Some content ->
  generate.compute_sha256 file_path w = (Ok (sha256_of_message content), w)
  /\ forall file_path' w', files w' !! file_path' = Some content ->
       fst (generate.compute_sha256 file_path' w')
       = fst (generate.compute_sha256 file_path w).
Proof.
  assert (Hone : forall p w0, files w0 !! p = Some content ->
            generate.compute_sha256 p w0 = (Ok (sha256_of_message content), w0)).
  { intros p w0 Hp. unfold generate.compute_sha256, bind, read_file, ret.
    rewrite Hp. rewrite read_chunks_update. by rewrite <- sha256_hex_of_message. }
  intros H. split; [by apply Hone|].
  intros p' w' H'. by rewrite (Hone _ _ H'), (Hone _ _ H).
Qed.

(** ** The proof maturity resolver *)

Lemma match_block_height_spec (s : string) :
  is_Some (match_block_height s) <->
  exists c post, s = "Bitcoin block " +:+ String c post /\ Str.is_digit c = true.
Proof.
  unfold match_block_height. split.
  - intros [g Hg]. destruct (Str.prefix "Bitcoin block " s) eqn:Hp; [|done].
    apply StrFacts.prefix_inv in Hp as [r ->].
    change (Str.drop 14 ("Bitcoin block " +:+ r)) with r in Hg.
    destruct r as [|c post]; [done|]. simpl in Hg.
    destruct (Str.is_digit c) eqn:Hc; [|done]. by exists c, post.
  - intros (c & post & -> & Hc). rewrite StrFacts.prefix_app.
    change (Str.drop 14 ("Bitcoin block " +:+ String c post)) with (String c post).
    simpl. rewrite Hc. by eexists.
Qed.

Lemma re_search_unfold {A : Type} (m : string -> option A) (s : string) :
  re_search m s
  = match m s with
    | Some g => Some g
    | None => match s with
              | EmptyString => None
              | String _ s' => re_search m s'
              end
    end.
Proof. by destruct s. Qed.

(** [re.search] finds the pattern exactly in the texts that name a block. *)
Lemma re_search_block_height_spec (s : string) :
  is_Some (re_search match_block_height s) <-> names_block s.
Proof.
  split.
  - induction s as [|x s IH]; rewrite re_search_unfold; intros H.
    + destruct (match_block_height EmptyString) eqn:E; [done|by destruct H].
    + destruct (match_block_height (String x s)) eqn:E.
      * destruct (proj1 (match_block_height_spec (String x s))) as (c & post & Hs & Hc);
          [by rewrite E|].
        exists EmptyString, c, post. by rewrite Hs.
      * destruct (IH H) as (pre & c & post & -> & Hc).
        by exists (String x pre), c, post.
  - intros (pre & c & post & -> & Hc).
    induction pre as [|x pre IH]; rewrite re_search_unfold.
    + destruct (proj2 (match_block_height_spec (EmptyString +:+ "Bitcoin block " +:+ String c post)))
        as [g ->]; [by exists c, post|]. by eexists.
    + rewrite StrFacts.app_cons.
      destruct (match_block_height _); [by eexists|]. exact IH.
Qed.

(** C4. [is_ots_done] returns a boolean for every proof path and every
    behaviour of the tool, and never raises: [True] exactly when the
    upgrade step and the verify step both exit with status zero and the
    diagnostic output of the verify step names a block (the words Bitcoin
    block and digits); [False] when a tool invocation exits non-zero and
    when the output names no block. *)
Theorem is_ots_done_total (env : Env) (ots_file_path : string) (w : World) :
  let upgrade := Shell (bitcoin_node_command generate.credentials "upgrade" ots_file_path) in
  let verify := Shell (bitcoin_node_command generate.credentials "verify" ots_file_path) in
  let upgraded := run_process env upgrade (history w) (files w) in
  let verified := run_process env verify (history w ++ [upgrade]) (snd upgraded) in
  exists (b : bool) (w' : World),
    generate.is_ots_done env ots_file_path w = (Ok b, w')
    /\ (b = true <->
        returncode (fst upgraded) = 0%Z /\ returncode (fst verified) = 0%Z
        /\ names_block (stderr (fst verified))).
Proof.
  intros upgrade verify upgraded verified.
  unfold generate.is_ots_done, try_except, bind, subprocess_run, on_CalledProcessError.
  fold upgrade verify. cbn [history files]. fold upgraded.
  destruct upgraded as [up files1] eqn:Hup. cbn [fst snd] in *.
  destruct (returncode up =? 0)%Z eqn:Hrc1.
  - cbn [history files]. fold verified.
    destruct verified as [ver files2] eqn:Hver. cbn [fst snd] in *.
    destruct (returncode ver =? 0)%Z eqn:Hrc2.
    + cbn. pose proof (re_search_block_height_spec (stderr ver)) as Hspec.
      destruct (re_search match_block_height (stderr ver)) as [g|].
      * eexists true, _. split; [reflexivity|].
        split; [intros _|done]. repeat split; try lia. apply Hspec. by eexists.
      * eexists false, _. split; [reflexivity|].
        split; [done|]. intros (_ & _ & Hn). apply Hspec in Hn. by destruct Hn.
    + cbn. eexists false, _. split; [reflexivity|]. split; [done|]. lia.
  - cbn. eexists false, _. split; [reflexivity|]. split; [done|]. lia.
Qed.

(** X17. [is_ots_done] of the PDF orchestrator for exams, which takes the
    credentials of the node from the environment and prints nothing on
    success, returns a boolean for every proof path and every behaviour of
    the tool, and never raises: [True] exactly when the upgrade step and
    the verify step both exit with status zero and the diagnostic output of
    the verify step names a block. *)
Lemma pdf_is_ots_done_total (env : Env) (ots_file_path : string) (w : World) :
  let credentials := generate_bitcoin_pdf_certificate.credentials env in
  let upgrade := Shell (bitcoin_node_command credentials "upgrade" ots_file_path) in
  let verify := Shell (bitcoin_node_command credentials "verify" ots_file_path) in
  let upgraded := run_process env upgrade (history w) (files w) in
  let verified := run_process env verify (history w ++ [upgrade]) (snd upgraded) in
  exists (b : bool) (w' : World),
    generate_bitcoin_pdf_certificate.is_ots_done env ots_file_path w = (Ok b, w')
    /\ (b = true <->
        returncode (fst upgraded) = 0%Z /\ returncode (fst verified) = 0%Z
        /\ names_block (stderr (fst verified))).
Proof.
  intros credentials upgrade verify upgraded verified.
  unfold generate_bitcoin_pdf_certificate.is_ots_done, try_except, bind, subprocess_run,
    on_CalledProcessError.
  fold credentials. fold upgrade verify. cbn [history files]. fold upgraded.
  destruct upgraded as [up files1] eqn:Hup. cbn [fst snd] in *.
  destruct (returncode up =? 0)%Z eqn:Hrc1.
  - cbn [history files]. fold verified.
    destruct verified as [ver files2] eqn:Hver. cbn [fst snd] in *.
    destruct (returncode ver =? 0)%Z eqn:Hrc2.
    + cbn. pose proof (re_search_block_height_spec (stderr ver)) as Hspec.
      destruct (re_search match_block_height (stderr ver)) as [g|].
      * eexists true, _. split; [reflexivity|].
        split; [intros _|done]. repeat split; try lia. apply Hspec. by eexists.
      * eexists false, _. split; [reflexivity|].
        split; [done|]. intros (_ & _ & Hn). apply Hspec in Hn. by destruct Hn.
    + cbn. eexists false, _. split; [reflexivity|]. split; [done|]. lia.
  - cbn. eexists false, _. split; [reflexivity|]. split; [done|]. lia.
Qed.

(** C3, as stated, fails: when the verify output names no block,
    [get_ots_blockhash] catches the [AttributeError] and returns a message
    as its ordinary result; when the request to the block explorer exits
    non-zero, it catches the [CalledProcessError] and returns another
    message. In neither case does the caller see an error. *)
Lemma get_ots_blockhash_returns_messages :
  re_search match_block_height
    (stderr (fst (run_process immature_env
                    (Shell (bitcoin_node_command generate.credentials "verify"
                              "../pending/course_a.txt.ots")) [] ∅))) = None
  /\ fst (generate.get_ots_blockhash immature_env "../pending/course_a.txt.ots"
            (world_of [] []))
     = Ok "Block height not found in OTS verification output"
  /\ returncode (fst (run_process offline_env (Shell (header_command "812345")) [] ∅)) = 6%Z
  /\ fst (generate.get_ots_blockhash offline_env "../pending/course_a.txt.ots"
            (world_of [] []))
     = Ok ("Failed to process: Command 'curl -sSL "
           +:+ "'https://mempool.space/api/block-height/812345'' "
           +:+ "returned non-zero exit status 6.").
Proof. vm_compute. done. Qed.

(** C3, amended. [get_ots_blockhash] never raises: it returns a text for
    every proof path and every behaviour of the tools. The text is the
    message Block height not found in OTS verification output when the
    upgrade and verify steps succeed and the output names no block; the
    text Failed to process: followed by the error when the upgrade step,
    the verify step or the lookup of the block header exits non-zero; and
    the stripped output of the lookup otherwise. *)
Theorem get_ots_blockhash_never_raises (env : Env) (ots_file_path : string) (w : World) :
  let upgrade := Shell (bitcoin_node_command generate.credentials "upgrade" ots_file_path) in
  let verify := Shell (bitcoin_node_command generate.credentials "verify" ots_file_path) in
  let upgraded := run_process env upgrade (history w) (files w) in
  let verified := run_process env verify (history w ++ [upgrade]) (snd upgraded) in
  let failed cmd rc := "Failed to process: " +:+ str_exn env (CalledProcessError cmd rc) in
  exists (text : string) (w' : World),
    generate.get_ots_blockhash env ots_file_path w = (Ok text, w')
    /\ (returncode (fst upgraded) <> 0%Z ->
        text = failed upgrade (returncode (fst upgraded)))
    /\ (returncode (fst upgraded) = 0%Z -> returncode (fst verified) <> 0%Z ->
        text = failed verify (returncode (fst verified)))
    /\ (returncode (fst upgraded) = 0%Z -> returncode (fst verified) = 0%Z ->
        re_search match_block_height (stderr (fst verified)) = None ->
        text = "Block height not found in OTS verification output")
    /\ (forall block_height,
        returncode (fst upgraded) = 0%Z -> returncode (fst verified) = 0%Z ->
        re_search match_block_height (stderr (fst verified)) = Some block_height ->
        let lookup := Shell (header_command block_height) in
        let looked_up :=
          run_process env lookup (history w ++ [upgrade] ++ [verify]) (snd verified) in
        (returncode (fst looked_up) <> 0%Z ->
         text = failed lookup (returncode (fst looked_up)))
        /\ (returncode (fst looked_up) = 0%Z ->
            text = Str.strip (stdout (fst looked_up)))).
Proof.
  intros upgrade verify upgraded verified failed.
  unfold generate.get_ots_blockhash, try_except, bind, subprocess_run, print, raise, ret.
  fold upgrade verify. cbn [history files]. fold upgraded.
  destruct upgraded as [up files1] eqn:Hup. cbn [fst snd] in *.
  destruct (Z.eqb_spec (returncode up) 0) as [Hrc1|Hrc1].
  - cbn [history files]. fold verified.
    destruct verified as [ver files2] eqn:Hver. cbn [fst snd] in *.
    destruct (Z.eqb_spec (returncode ver) 0) as [Hrc2|Hrc2].
    + cbn [history files].
      destruct (re_search match_block_height (stderr ver)) as [g|] eqn:Hre.
      * cbn [history files]. rewrite <- !app_assoc.
        destruct (run_process env (Shell (header_command g))
                    (history w ++ [upgrade] ++ [verify]) files2) as [hdr files3] eqn:Hhdr.
        destruct (Z.eqb_spec (returncode hdr) 0) as [Hrc3|Hrc3].
        -- eexists _, _. split; [reflexivity|].
           split_and!; try (intros; first [congruence | reflexivity]).
           intros bh _ _ [= <-]. cbn zeta. rewrite Hhdr. cbn [fst snd].
           split; intros; first [congruence | reflexivity].
        -- eexists _, _. split; [reflexivity|].
           split_and!; try (intros; first [congruence | reflexivity]).
           intros bh _ _ [= <-]. cbn zeta. rewrite Hhdr. cbn [fst snd].
           split; intros; first [congruence | reflexivity].
      * eexists _, _. split; [reflexivity|].
        split_and!; try (intros; first [congruence | reflexivity]).
    + eexists _, _. split; [reflexivity|].
      split_and!; try (intros; first [congruence | reflexivity]).
  - eexists _, _. split; [reflexivity|].
    split_and!; try (intros; first [congruence | reflexivity]).
Qed.

(** X25. [get_ots_blockhash] of the PDF orchestrator for exams returns
    a text for every proof path and every behaviour of the tools: it never
    raises. *)
Lemma pdf_get_ots_blockhash_never_raises (env : Env) (ots_file_path : string) (w : World) :
  exists (text : string) (w' : World),
    generate_bitcoin_pdf_certificate.get_ots_blockhash env ots_file_path w = (Ok text, w').
Proof.
  unfold generate_bitcoin_pdf_certificate.get_ots_blockhash, try_except, bind,
    subprocess_run, raise, ret.
  cbn [history files].
  destruct (run_process env _ (history w) (files w)) as [up files1].
  destruct (returncode up =? 0)%Z; [|by eexists _, _].
  cbn [history files].
  destruct (run_process env _ _ files1) as [ver files2].
  destruct (returncode ver =? 0)%Z; [|by eexists _, _].
  destruct (re_search match_block_height (stderr ver)) as [g|]; [|by eexists _, _].
  cbn [history files].
  destruct (run_process env _ _ files2) as [hdr files3].
  destruct (returncode hdr =? 0)%Z; by eexists _, _.
Qed.

(** ** The property extractor *)

(** C7 fails on the code when nothing but whitespace follows the property
    name on its line: [\s*] runs over the end of the line, and the result is
    the next line that is not blank, not the (empty) remainder of the line
    of the property. At the end of the text the colon itself is returned. *)
Theorem extract_property_crosses_lines :
  generate.extract_property "a.txt" "Full name"
    (world_of [("a.txt", nameless_certificate)] [])
  = (Ok (Some "Date of completion: 2024-01-04"),
     world_of [("a.txt", nameless_certificate)] [])
  /\ generate.search_property "Full name:" "Full name" = Some ":".
Proof. vm_compute. done. Qed.

(** The parts of C7 that hold. A property name that does not occur gives
    [None]; reading an existing file and searching it never raises. *)
Lemma search_property_absent (content property_name : string) :
  absent_from property_name content ->
  generate.search_property content property_name = None.
Proof.
  unfold generate.search_property. intros H.
  assert (Hnone : re_search (match_property property_name) content = None);
    [|by rewrite Hnone].
  induction content as [|c content IH]; rewrite re_search_unfold;
    pose proof (H 0) as H0; simpl in H0.
  - unfold match_property. by rewrite H0.
  - unfold match_property at 1. rewrite H0. apply IH.
    intros k. apply (H (S k)).
Qed.

Lemma extract_property_total (txt_file property_name content : string) (w : World) :
  files w !! txt_file = Some content ->
  generate.extract_property txt_file property_name w
  = (Ok (generate.search_property content property_name), w).
Proof.
  intros H. unfold generate.extract_property, bind, read_file, ret. by rewrite H.
Qed.

Example extract_property_ignores_case :
  generate.search_property ("Username: bob" +:+ newline +:+ "FULL NAME :   Alice B  ")
    "full name" = Some ":   Alice B"
  /\ generate.search_property ("Username: bob" +:+ newline +:+ "FULL NAME:   Alice B  ")
       "full name" = Some "Alice B".
Proof. vm_compute. done. Qed.


(** The ordinary case of C7: the value stands on the line of the
    property. The content is cut at the first occurrence of the name into
    what precedes it, the name as written there, an optional colon,
    whitespace, the value (which starts with a character that is no
    whitespace and runs to the end of the line), and the rest. *)
Lemma re_search_skip {A : Type} (m : string -> option A) (pre s : string) :
  (forall k, k < String.length pre -> m (Str.drop k (pre +:+ s)) = None) ->
  re_search m (pre +:+ s) = re_search m s.
Proof.
  induction pre as [|c pre IH]; intros H; [done|].
  rewrite StrFacts.app_cons, re_search_unfold.
  pose proof (H 0 ltac:(simpl; lia)) as H0. rewrite StrFacts.app_cons in H0.
  simpl in H0. rewrite H0.
  apply IH. intros k Hk. specialize (H (S k) ltac:(simpl; lia)).
  by rewrite StrFacts.app_cons in H.
Qed.

Lemma prefix_ci_app (p l x : string) :
  prefix_ci p l = true -> prefix_ci p (l +:+ x) = true.
Proof.
  revert l; induction p as [|a p IH]; intros l H; [done|].
  destruct l as [|b l]; [done|]. rewrite StrFacts.app_cons. simpl in *.
  destruct (Ascii.eqb _ _); [by apply IH|done].
Qed.

Lemma take_while_app (p : ascii -> bool) (x : string) (c : ascii) (s : string) :
  Forall (fun a => p a = true) (Str.chars x) -> p c = false ->
  Str.take_while p (x +:+ String c s) = x.
Proof.
  intros Hx Hc. induction x as [|a x IH].
  - simpl. by rewrite Hc.
  - apply Forall_cons in Hx as [Ha Hx]. rewrite StrFacts.app_cons. simpl.
    by rewrite Ha, IH.
Qed.

Lemma take_while_all (p : ascii -> bool) (x : string) :
  Forall (fun a => p a = true) (Str.chars x) -> Str.take_while p x = x.
Proof.
  induction x as [|a x IH]; [done|]. intros [Ha Hx]%Forall_cons.
  simpl. by rewrite Ha, IH.
Qed.

Lemma match_rest_of_line_value (value rest : string) :
  value <> EmptyString ->
  Forall (fun a => not_newline a = true) (Str.chars value) ->
  rest = EmptyString \/ (exists rest', rest = String "010" rest') ->
  match_rest_of_line (value +:+ rest) = Some value.
Proof.
  intros Hne Hvalue Hrest. unfold match_rest_of_line.
  assert (Str.take_while not_newline (value +:+ rest) = value) as ->.
  { destruct Hrest as [->|[rest' ->]].
    - rewrite StrFacts.app_nil_r. by apply take_while_all.
    - by apply take_while_app. }
  by destruct value.
Qed.

Lemma match_ws_value_go_here (k : nat) (r v : string) :
  match_rest_of_line (Str.drop k r) = Some v -> match_ws_value_go k r = Some v.
Proof. intros H. destruct k; cbn [match_ws_value_go]; by rewrite H. Qed.

Lemma match_ws_value_value (ws value rest : string) (v0 : ascii) (vs : string) :
  value = String v0 vs -> Str.is_space v0 = false ->
  Forall (fun a => Str.is_space a = true) (Str.chars ws) ->
  Forall (fun a => not_newline a = true) (Str.chars value) ->
  rest = EmptyString \/ (exists rest', rest = String "010" rest') ->
  match_ws_value (ws +:+ value +:+ rest) = Some value.
Proof.
  intros Hv Hv0 Hws Hvalue Hrest. unfold match_ws_value.
  assert (Str.take_while Str.is_space (ws +:+ value +:+ rest) = ws) as ->.
  { rewrite Hv, StrFacts.app_cons. by apply take_while_app. }
  apply match_ws_value_go_here. rewrite StrFacts.drop_app.
  apply match_rest_of_line_value; [by rewrite Hv|done|done].
Qed.

(** X18. When the first occurrence of the property name in the content,
    in any case of the letters, is followed by an optional colon,
    whitespace and a value that starts on the same line with a character
    that is no whitespace (and no colon, when there is no colon before
    it), the extractor returns the value up to the end of its line,
    stripped. *)
Lemma search_property_same_line
    (property_name pre label ws value rest : string) (colon : bool)
    (v0 : ascii) (vs : string) :
  let sep := (if colon then ":" else EmptyString) +:+ ws in
  let content := pre +:+ label +:+ sep +:+ value +:+ rest in
  (forall k, k < String.length pre ->
     prefix_ci property_name (Str.drop k content) = false) ->
  prefix_ci property_name label = true ->
  String.length label = String.length property_name ->
  Forall (fun a => Str.is_space a = true) (Str.chars ws) ->
  value = String v0 vs -> Str.is_space v0 = false ->
  (colon = false -> v0 <> ":"%char) ->
  Forall (fun a => not_newline a = true) (Str.chars value) ->
  rest = EmptyString \/ (exists rest', rest = String "010" rest') ->
  generate.search_property content property_name = Some (Str.strip value).
Proof.
  intros sep content Hfirst Hlabel Hlen Hws Hv Hv0 Hcolon Hvalue Hrest.
  unfold generate.search_property.
  assert (re_search (match_property property_name) content = Some value) as ->; [|done].
  subst content. rewrite re_search_skip.
  2:{ intros k Hk. unfold match_property. by rewrite Hfirst. }
  rewrite re_search_unfold.
  assert (match_property property_name (label +:+ sep +:+ value +:+ rest) = Some value)
    as ->; [|done].
  unfold match_property. rewrite prefix_ci_app by done.
  rewrite <- Hlen, StrFacts.drop_app.
  pose proof (match_ws_value_value ws value rest v0 vs Hv Hv0 Hws Hvalue Hrest) as Hmatch.
  subst sep. destruct colon.
  - rewrite StrFacts.app_assoc. change (":" +:+ ws +:+ value +:+ rest)
      with (String ":" (ws +:+ value +:+ rest)).
    lazy beta iota. rewrite Ascii.eqb_refl. by rewrite Hmatch.
  - rewrite StrFacts.app_assoc. change (EmptyString +:+ ws +:+ value +:+ rest)
      with (ws +:+ value +:+ rest).
    rewrite Hmatch.
    destruct ws as [|w0 ws'].
    + subst value.
      change (EmptyString +:+ String v0 vs +:+ rest) with (String v0 (vs +:+ rest)).
      lazy beta iota.
      destruct (Ascii.eqb v0 ":") eqn:E; [|done].
      apply Ascii.eqb_eq in E. by destruct (Hcolon eq_refl).
    + apply Forall_cons in Hws as [Hw0 _]. rewrite StrFacts.app_cons.
      lazy beta iota.
      destruct (Ascii.eqb w0 ":") eqn:E; [|done].
      apply Ascii.eqb_eq in E. subst w0. discriminate Hw0.
Qed.

Example search_property_same_line_example :
  generate.search_property course_text "course name" = Some "Bitcoin Basics".
Proof. vm_compute. reflexivity. Qed.

(** ** The template renderer *)

Lemma prefix_other_name (key name s : string) :
  brace_free key -> brace_free name -> name <> key ->
  Str.prefix (key +:+ String close_brace EmptyString)
             (name +:+ String close_brace s) = false.
Proof.
  intros Hkey. revert name.
  induction key as [|c k IH]; intros name Hname Hne.
  - destruct name as [|d name]; [congruence|].
    apply Forall_cons in Hname as [[_ Hd] _].
    change (Str.prefix (String close_brace EmptyString)
              (String d (name +:+ String close_brace s)) = false).
    cbn [Str.prefix].
    destruct (Ascii.eqb close_brace d) eqn:E; [|done].
    apply Ascii.eqb_eq in E. congruence.
  - apply Forall_cons in Hkey as [[_ Hc] Hk].
    destruct name as [|d name].
    + change (Str.prefix (String c (k +:+ String close_brace EmptyString))
                (String close_brace s) = false).
      cbn [Str.prefix].
      destruct (Ascii.eqb c close_brace) eqn:E; [|done].
      apply Ascii.eqb_eq in E. congruence.
    + apply Forall_cons in Hname as [_ Hname]. rewrite !StrFacts.app_cons. cbn [Str.prefix].
      destruct (Ascii.eqb c d) eqn:E; [|done].
      apply Ascii.eqb_eq in E as ->. apply IH; [done|done|congruence].
Qed.

Section Replace.

Variables (key new : string).
Hypothesis key_brace_free : brace_free key.

Let old : string := String open_brace (key +:+ String close_brace EmptyString).

Lemma replace_go_plain_char (c : ascii) (s : string) :
  c <> open_brace ->
  Str.replace_go old new 0 (String c s) = String c (Str.replace_go old new 0 s).
Proof.
  intros Hc. unfold old. cbn [Str.replace_go Str.prefix].
  destruct (Ascii.eqb open_brace c) eqn:E; [|done].
  apply Ascii.eqb_eq in E. congruence.
Qed.

Lemma replace_go_open_brace (s : string) :
  Str.prefix (key +:+ String close_brace EmptyString) s = false ->
  Str.replace_go old new 0 (String open_brace s)
  = String open_brace (Str.replace_go old new 0 s).
Proof.
  intros Hp. unfold old. cbn [Str.replace_go Str.prefix].
  by rewrite Ascii.eqb_refl, Hp.
Qed.

Lemma replace_go_plain (x s : string) :
  no_open_brace x ->
  Str.replace_go old new 0 (x +:+ s) = x +:+ Str.replace_go old new 0 s.
Proof.
  induction x as [|c x IH]; [done|]. intros [Hc Hx]%Forall_cons.
  rewrite !StrFacts.app_cons, replace_go_plain_char by done. by rewrite IH.
Qed.

Lemma replace_go_skip (x s : string) :
  Str.replace_go old new (String.length x) (x +:+ s) = Str.replace_go old new 0 s.
Proof.
  induction x as [|c x IH]; [done|]. rewrite StrFacts.app_cons. exact IH.
Qed.

Lemma replace_go_match (s : string) :
  Str.replace_go old new 0 (old +:+ s) = new +:+ Str.replace_go old new 0 s.
Proof.
  pose proof (StrFacts.prefix_app old s) as Hp.
  unfold old in *. rewrite !StrFacts.app_cons in *.
  cbn [Str.replace_go]. rewrite Hp. f_equal.
  cbn [String.length]. rewrite Nat.sub_1_r. cbn [Nat.pred].
  apply replace_go_skip.
Qed.

Lemma replace_go_other_placeholder (name s : string) :
  brace_free name -> name <> key ->
  Str.replace_go old new 0 (piece_text (Placeholder name) +:+ s)
  = piece_text (Placeholder name) +:+ Str.replace_go old new 0 s.
Proof.
  intros Hname Hne.
  change (piece_text (Placeholder name))
    with (String open_brace (name +:+ String close_brace EmptyString)).
  rewrite !StrFacts.app_cons, !StrFacts.app_assoc. rewrite !StrFacts.app_cons.
  change (EmptyString +:+ s) with s.
  change (EmptyString +:+ Str.replace_go old new 0 s) with (Str.replace_go old new 0 s).
  rewrite replace_go_open_brace.
  2:{ by apply prefix_other_name. }
  f_equal. rewrite replace_go_plain.
  2:{ eapply Forall_impl; [exact Hname|]. by intros c [? _]. }
  by rewrite replace_go_plain_char.
Qed.

End Replace.

Lemma replace_one (key new : string) (t : list piece) :
  brace_free key -> plain_template t ->
  Str.replace (template_text t) ("{" +:+ key +:+ "}") new
  = template_text (map (fill_one key new) t).
Proof.
  intros Hkey Ht.
  change (Str.replace (template_text t) ("{" +:+ key +:+ "}") new)
    with (Str.replace_go (String open_brace (key +:+ String close_brace EmptyString))
            new 0 (template_text t)).
  induction Ht as [|p t Hp Ht IH]; [done|].
  cbn [map template_text fold_right]. fold (template_text t).
  fold (template_text (map (fill_one key new) t)).
  destruct p as [x|name]; cbn [fill_one].
  - cbn [piece_text]. by rewrite replace_go_plain, IH.
  - destruct (String.eqb_spec name key) as [->|Hne].
    + change (piece_text (Placeholder key))
        with (String open_brace (key +:+ String close_brace EmptyString)).
      by rewrite replace_go_match, IH.
    + by rewrite replace_go_other_placeholder, IH.
Qed.

Lemma plain_fill_one (key new : string) (t : list piece) :
  no_open_brace new -> plain_template t -> plain_template (map (fill_one key new) t).
Proof.
  intros Hnew Ht. induction Ht as [|p t Hp Ht IH]; [constructor|].
  cbn [map]. constructor; [|exact IH].
  destruct p as [x|name]; cbn [fill_one]; [done|].
  by destruct (String.eqb name key).
Qed.

Lemma fill_fill_one (key : string) (value : option string)
    (data : list (string * option string)) (p : piece) :
  fill data (fill_one key (py_str value) p) = fill ((key, value) :: data) p.
Proof.
  destruct p as [x|name]; [done|]. cbn [fill_one fill assoc].
  by destruct (String.eqb name key).
Qed.

(** On a plain template with plain fields, the loop of replacements is the
    simultaneous substitution. *)
Lemma replace_placeholders_spec (t : list piece) (data : list (string * option string)) :
  plain_template t -> plain_fields data ->
  generate.replace_placeholders (template_text t) data = render_spec t data.
Proof.
  intros Ht Hdata. revert t Ht.
  induction Hdata as [|[key value] data [Hkey Hvalue] Hdata IH]; intros t Ht.
  - unfold render_spec. cbn.
    replace (map (fill []) t) with t; [done|].
    induction t as [|[x|name] t IHt]; [done| |]; cbn; f_equal; apply IHt;
      by apply Forall_cons in Ht as [_ ?].
  - change (generate.replace_placeholders (template_text t) ((key, value) :: data))
      with (generate.replace_placeholders
              (Str.replace (template_text t) ("{" +:+ key +:+ "}") (py_str value)) data).
    cbn [fst snd] in *. rewrite replace_one by done.
    rewrite (IH _ (plain_fill_one key _ t Hvalue Ht)).
    unfold render_spec. rewrite map_map. f_equal. apply map_ext.
    intros p. apply fill_fill_one.
Qed.

(** C8 fails on the code when the text of a field carries the placeholder
    of a later field: the fields are applied one after the other to the
    whole text, so the text put in for [fullname] is searched again for
    [{date}]. The template is that of [latex_template]; the renderer writes
    the date in both places, where the template with its two placeholders
    filled is the second text. The same text is written when the
    orchestrator comes to the pending certificate of that person. *)
Theorem modify_and_save_tex_cascades :
  template_text latex_template = "\name{{fullname}} \date{{date}}"
  /\ generate.modify_and_save_tex "../templates/pbn_course_certificate.tex"
       "../pending/course_alice-signed.tex" cascading_fields braced_world
     = (Ok tt,
        set_files (insert "../pending/course_alice-signed.tex"
                     "\name{4th January, 2024} \date{4th January, 2024}") braced_world)
  /\ render_spec latex_template cascading_fields = "\name{{date}} \date{4th January, 2024}"
  /\ files (snd (generate.process_filename no_latex_env "course_alice-signed.txt.ots"
                   braced_world))
       !! "../pending/course_alice-signed.tex"
     = Some "\name{4th January, 2024} \date{4th January, 2024}".
Proof. vm_compute. done. Qed.

Lemma compute_sha256_one_pass_witness :
  files abc_world !! "a.txt" = Some "abc"
  /\ generate.compute_sha256 "a.txt" abc_world
     = (Ok "ba7816bf8f01cfea414140de5dae2223b00361a396177a9cb410ff61f20015ad", abc_world).
Proof.
  split; [reflexivity|].
  exact (proj1 (compute_sha256_one_pass "a.txt" "abc" abc_world eq_refl)).
Defined.

(** Discharges the conditions on braces for given texts. *)
Ltac plain :=
  repeat first [ apply Forall_nil | apply Forall_cons | split | discriminate ].


(** ** Archiving *)

Lemma is_file_lookup (w : World) (p : string) :
  is_file w p = match files w !! p with Some _ => true | None => false end.
Proof.
  unfold is_file. destruct (files w !! p) eqn:E.
  - apply bool_decide_eq_true. by eexists.
  - apply bool_decide_eq_false. by intros [? ?].
Qed.

(** One turn of the loop of [move_files_to_final], for a path that is no
    directory and whose destination is none. *)
Lemma move_one_step (env : Env) (w : World) (file_path dst : string) :
  is_dir w file_path = false -> is_dir w dst = false ->
  (let* found := path_exists file_path in
   if found then shutil_move env file_path dst
   else print (PStr ("Warning: File not found: " +:+ file_path))) w
  = match files w !! file_path with
    | None =>
        (Ok tt, {| files := files w; dirs := dirs w;
                   console := console w ++ [PStr ("Warning: File not found: " +:+ file_path)];
                   history := history w |})
    | Some content =>
        match move_error env file_path dst with
        | Some e => (Raise e, w)
        | None => (Ok tt, set_files (fun fs => <[dst := content]> (delete file_path fs)) w)
        end
    end.
Proof.
  intros Hsrc Hdst. unfold bind, path_exists, exists_on_disk.
  rewrite Hsrc, is_file_lookup, orb_false_r.
  destruct (files w !! file_path) eqn:E; [|done].
  unfold shutil_move. rewrite Hdst, E.
  by destruct (move_error env file_path dst).
Qed.

Lemma bind_apply {A B : Type} (m : M A) (k : A -> M B) (w : World) :
  bind m k w
  = match m w with
    | (Ok a, w') => k a w'
    | (Raise e, w') => (Raise e, w')
    end.
Proof. reflexivity. Qed.

Lemma is_dir_same_dirs (w w' : World) (p : string) :
  dirs w' = dirs w -> is_dir w' p = is_dir w p.
Proof. unfold is_dir. by intros ->. Qed.

Lemma is_Some_match {A : Type} (mx : option A) :
  is_Some mx <-> match mx with Some _ => True | None => False end.
Proof.
  destruct mx; split; intros H; try done; try (by eexists); by destruct H.
Qed.

(** Lookups in a file map after renamings. *)
Ltac lookup_files :=
  repeat first
    [ rewrite lookup_insert_eq
    | rewrite lookup_insert_ne by congruence
    | rewrite lookup_delete_eq
    | rewrite lookup_delete_ne by congruence ].

Ltac in_console :=
  rewrite ?in_app_iff; cbn [In]; auto 10.

Ltac close_leaf Hfs :=
  eexists _, _; split; [reflexivity|];
  rewrite !is_Some_match; cbn [files set_files console]; rewrite ?Hfs;
  split_and!;
  first
    [ tauto
    | split; [discriminate|tauto]
    | intros; split; intros; lookup_files; first [assumption | reflexivity]
    | intros; in_console ].

(** The loop over three files with their destinations. *)
Lemma move_loop (env : Env) (w1 : World) (a b c da db dc : string) (fs : gmap string string) :
  files w1 = fs ->
  is_dir w1 a = false -> is_dir w1 b = false -> is_dir w1 c = false ->
  is_dir w1 da = false -> is_dir w1 db = false -> is_dir w1 dc = false ->
  a <> b -> a <> c -> b <> c ->
  da <> db -> da <> dc -> db <> dc ->
  b <> da -> c <> da -> a <> db -> c <> db -> a <> dc -> b <> dc ->
  let body x dx :=
    let* found := path_exists x in
    if found then shutil_move env x dx
    else print (PStr ("Warning: File not found: " +:+ x)) in
  let fails x dx := is_Some (fs !! x) /\ is_Some (move_error env x dx) in
  let done x dx (w' : World) :=
    match fs !! x with
    | Some content => files w' !! dx = Some content /\ (x <> dx -> files w' !! x = None)
    | None => In (PStr ("Warning: File not found: " +:+ x)) (console w')
    end in
  exists (r : bool) (w' : World),
    try_except
      (do (do body a da then do body b db then do body c dc then ret tt) then ret true)
      (fun e => Some (do print (PStr ("Error moving files: " +:+ str_exn env e)) then
                      ret false)) w1
    = (Ok r, w')
    /\ (r = false <-> fails a da \/ fails b db \/ fails c dc)
    /\ (~ fails a da -> done a da w')
    /\ (~ fails a da -> ~ fails b db -> done b db w')
    /\ (~ fails a da -> ~ fails b db -> ~ fails c dc -> done c dc w')
    /\ (fails a da -> files w' = fs).
Proof.
  intros Hfs Ha Hb Hc Hda Hdb Hdc Hsab Hsac Hsbc Hab Hac Hbc H1 H2 H3 H4 H5 H6
    body fails done.
  subst body fails done. cbn beta. unfold try_except.
  rewrite 2!bind_apply, move_one_step by assumption. rewrite Hfs.
  destruct (fs !! a) as [ca|] eqn:Ea;
    [destruct (move_error env a da) as [ea|] eqn:Fa|].
  1: { eexists _, _. split; [reflexivity|]. rewrite !is_Some_match.
       cbn [files]. split_and!; tauto. }
  all: rewrite bind_apply.
  all: rewrite move_one_step by (erewrite is_dir_same_dirs; [eassumption|reflexivity]).
  all: cbn [files set_files]; rewrite ?Hfs; lookup_files.
  all: (destruct (fs !! b) as [cb|] eqn:Eb;
         [destruct (move_error env b db) as [eb|] eqn:Fb|]).
  1,4: close_leaf Hfs.
  all: rewrite bind_apply.
  all: rewrite move_one_step by (erewrite is_dir_same_dirs; [eassumption|reflexivity]).
  all: cbn [files set_files]; rewrite ?Hfs; lookup_files.
  all: (destruct (fs !! c) as [cc|] eqn:Ec;
         [destruct (move_error env c dc) as [ec|] eqn:Fc|]).
  all: close_leaf Hfs.
Qed.

(** C9. [move_files_to_final], for three paths that name files, with
    distinct destinations in the archive directory: it returns a boolean;
    the boolean is [False] exactly when a file is there and moving it
    raises; a file that is there is moved to the archive directory, also
    when a later move fails (nothing is rolled back); for a file that is
    not there a warning is printed, the files after it are still moved, and
    the result is still [True]. *)
Theorem move_files_to_final_semantics (env : Env)
    (pathfile signed_txt_path pdf_path : string) (w : World) :
  separate_files w pathfile signed_txt_path pdf_path ->
  exists (r : bool) (w' : World),
    generate.move_files_to_final env pathfile signed_txt_path pdf_path w = (Ok r, w')
    /\ (r = false <->
        move_fails env w pathfile pathfile \/ move_fails env w pathfile signed_txt_path
        \/ move_fails env w pathfile pdf_path)
    /\ (~ move_fails env w pathfile pathfile -> moved_or_warned pathfile pathfile w w')
    /\ (~ move_fails env w pathfile pathfile ->
        ~ move_fails env w pathfile signed_txt_path ->
        moved_or_warned pathfile signed_txt_path w w')
    /\ (~ move_fails env w pathfile pathfile ->
        ~ move_fails env w pathfile signed_txt_path ->
        ~ move_fails env w pathfile pdf_path ->
        moved_or_warned pathfile pdf_path w w')
    /\ (move_fails env w pathfile pathfile -> files w' = files w).
Proof.
  intros [Hfinal Hsrc Hdst Hdd Hsd].
  apply Forall_cons in Hsrc as [Ha Hsrc]. apply Forall_cons in Hsrc as [Hb Hsrc].
  apply Forall_cons in Hsrc as [Hc _].
  apply Forall_cons in Hdst as [Hda Hdst]. apply Forall_cons in Hdst as [Hdb Hdst].
  apply Forall_cons in Hdst as [Hdc _].
  destruct Hdd as (Hab & Hac & Hbc). destruct Hsd as (H1 & H2 & H3 & H4 & H5 & H6).
  assert (Hsab : pathfile <> signed_txt_path) by (intros ->; done).
  assert (Hsac : pathfile <> pdf_path) by (intros ->; done).
  assert (Hsbc : signed_txt_path <> pdf_path) by (intros ->; done).
  unfold generate.move_files_to_final.
  unfold bind at 1. unfold makedirs.
  fold (final_dir_of pathfile). rewrite Hfinal.
  fold (with_final_dir pathfile w).
  exact (move_loop env (with_final_dir pathfile w) pathfile signed_txt_path pdf_path
           (destination pathfile pathfile) (destination pathfile signed_txt_path)
           (destination pathfile pdf_path) (files w) eq_refl
           Ha Hb Hc Hda Hdb Hdc Hsab Hsac Hsbc Hab Hac Hbc H1 H2 H3 H4 H5 H6).
Qed.

Ltac by_computation := vm_compute; discriminate.

Lemma pending_files_separate :
  separate_files pending_world "../pending/course_a.txt.ots"
    "../pending/course_a.txt" "../pending/course_a.pdf".
Proof.
  split.
  - reflexivity.
  - repeat constructor.
  - repeat constructor.
  - repeat split; by_computation.
  - repeat split; by_computation.
Defined.

Lemma move_files_to_final_semantics_witness :
  exists (r : bool) (w' : World),
    generate.move_files_to_final (table_env (fun _ => completed 0 EmptyString EmptyString))
      "../pending/course_a.txt.ots" "../pending/course_a.txt" "../pending/course_a.pdf"
      pending_world = (Ok r, w')
    /\ r = true
    /\ files w' !! "../final/course_a.txt.ots" = Some "proof"
    /\ files w' !! "../final/course_a.txt" = Some "signed text"
    /\ files w' !! "../pending/course_a.txt" = None
    /\ In (PStr "Warning: File not found: ../pending/course_a.pdf") (console w').
Proof.
  destruct (move_files_to_final_semantics
              (table_env (fun _ => completed 0 EmptyString EmptyString))
              "../pending/course_a.txt.ots" "../pending/course_a.txt"
              "../pending/course_a.pdf" pending_world pending_files_separate)
    as (r & w' & Hrun & Hr & Ha & Hb & Hc & _).
  assert (Hnofail : forall p, ~ move_fails
            (table_env (fun _ => completed 0 EmptyString EmptyString)) pending_world
            "../pending/course_a.txt.ots" p).
  { intros p [_ [e He]]. discriminate He. }
  exists r, w'. split; [exact Hrun|]. split.
  - destruct r; [reflexivity|].
    destruct (proj1 Hr eq_refl) as [H|[H|H]]; destruct (Hnofail _ H).
  - specialize (Ha (Hnofail _)). specialize (Hb (Hnofail _) (Hnofail _)).
    specialize (Hc (Hnofail _) (Hnofail _) (Hnofail _)).
    split; [exact (proj1 Ha)|]. split; [exact (proj1 Hb)|].
    split; [|exact Hc].
    apply (proj2 Hb). by_computation.
Defined.

(** ** The plaintext generators remove the unsigned text *)

Lemma bind_Ok_inv {A B : Type} (m : M A) (k : A -> M B) (w w' : World) (b : B) :
  bind m k w = (Ok b, w') ->
  exists a w1, m w = (Ok a, w1) /\ k a w1 = (Ok b, w').
Proof.
  unfold bind. destruct (m w) as [[a|e] w1]; [|done]. intros H. by exists a, w1.
Qed.

(** Peels the first step off a computation that is known to succeed. *)
Tactic Notation "peel" hyp(H) "as" ident(a) ident(w1) ident(Hm) :=
  apply bind_Ok_inv in H as (a & w1 & Hm & H).

(** The end of both [generate_certificate] functions: write the text,
    sign it, remove it, stamp the signed file. *)
Lemma write_sign_remove_stamp (env : Env) (file_path content : string) (w w' : World) :
  (do write_file file_path content then
   do print (PStr ("Certificate generated: " +:+ file_path)) then
   let* signed_file := sign_certificate env file_path in
   do print (PStr ("Certificate signed: " +:+ signed_file)) then
   do os_remove file_path then
   do timestamp_file env signed_file then
   print (PStr ("Certificate timestamped: " +:+ signed_file))) w = (Ok tt, w') ->
  signed_removed_stamped env file_path w'.
Proof.
  intros H. exists content, w. cbv zeta.
  peel H as u1 w1 H1. peel H as u2 w2 H2. peel H as signed_file w3 H3.
  peel H as u4 w4 H4. peel H as u5 w5 H5. peel H as u6 w6 H6.
  unfold write_file in H1. destruct (is_dir w file_path) eqn:Hdir; [discriminate H1|].
  injection H1 as _ <-. injection H2 as _ <-.
  unfold sign_certificate in H3. fold (signed_name file_path) in H3.
  peel H3 as r3 w3' H3'. injection H3 as <- <-.
  unfold subprocess_run in H3'. cbn [files history dirs console set_files] in H3'.
  destruct (run_process env (Shell (sign_command (signed_name file_path) file_path))
              (history w) (<[file_path := content]> (files w)))
    as [signed files1] eqn:Hsigned.
  destruct (Z.eqb_spec (returncode signed) 0) as [Hrc1|]; [|discriminate H3'].
  injection H3' as _ <-. injection H4 as _ <-.
  unfold os_remove in H5. cbn [files history dirs console] in H5.
  destruct (files1 !! file_path) as [text|] eqn:Hthere; [|discriminate H5].
  injection H5 as _ <-.
  unfold timestamp_file in H6. peel H6 as r6 w6' H6'. injection H6 as _ <-.
  unfold subprocess_run in H6'. cbn [files history dirs console set_files] in H6'.
  destruct (run_process env (Shell (timestamp_command (signed_name file_path)))
              (history w ++ [Shell (sign_command (signed_name file_path) file_path)])
              (delete file_path files1))
    as [stamped files2] eqn:Hstamped.
  destruct (Z.eqb_spec (returncode stamped) 0) as [Hrc2|]; [|discriminate H6'].
  injection H6' as _ <-. injection H as <-.
  cbn [fst snd files history dirs console]. rewrite Hstamped. cbn [fst snd].
  split_and!; try done. by rewrite <- app_assoc.
Qed.

(** After such an end, the unsigned text is back only if [ots stamp]
    brought it back. *)
Lemma stamped_absent (env : Env) (file_path : string) (w' : World) :
  signed_removed_stamped env file_path w' ->
  stamp_leaves_absent env file_path ->
  files w' !! file_path = None.
Proof.
  intros (content & w0 & _ & _ & _ & _ & Hfiles & _) Hframe.
  rewrite Hfiles. apply Hframe, lookup_delete_eq.
Qed.

(** C10. In both plaintext generators, when [generate_certificate]
    completes without raising, it has written the certificate text to the
    unsigned path, [gpg] has run on it, the text was still there and was
    removed after the signing step, and [ots stamp] has run on the files
    without it: the files afterwards are the files that [ots stamp] left,
    and [gpg] and [ots stamp] are the last two processes run. So, when
    stamping does not itself re-create the file, no file lies at the
    unsigned path afterwards. *)
Theorem unsigned_text_removed (env : Env) :
  (forall (edition_data result_data : yaml) (result_folder_path : string) (w w' : World),
     generate_bitcoin_txt_certificate.generate_certificate
       env edition_data result_data result_folder_path w = (Ok tt, w') ->
     signed_removed_stamped env (bitcoin_unsigned result_folder_path) w'
     /\ (stamp_leaves_absent env (bitcoin_unsigned result_folder_path) ->
         files w' !! bitcoin_unsigned result_folder_path = None))
  /\ (forall (username fullname course_id : string) (w w' : World),
     generate_course_txt_certificate.generate_certificate
       env username fullname course_id w = (Ok tt, w') ->
     signed_removed_stamped env (course_unsigned username course_id) w'
     /\ (stamp_leaves_absent env (course_unsigned username course_id) ->
         files w' !! course_unsigned username course_id = None)).
Proof.
  split.
  - intros edition_data result_data result_folder_path w w' H.
    unfold generate_bitcoin_txt_certificate.generate_certificate in H.
    do 10 (let a := fresh "a" in let w1 := fresh "w" in let Hs := fresh "Hs" in
           peel H as a w1 Hs; clear Hs; cbn beta in H).
    apply write_sign_remove_stamp in H.
    split; [exact H|]. by apply stamped_absent.
  - intros username fullname course_id w w' H.
    unfold generate_course_txt_certificate.generate_certificate in H.
    do 13 (let a := fresh "a" in let w1 := fresh "w" in let Hs := fresh "Hs" in
           peel H as a w1 Hs; clear Hs; cbn beta in H).
    apply write_sign_remove_stamp in H.
    split; [exact H|]. by apply stamped_absent.
Qed.

Lemma working_env_stamp (file_path : string) :
  signed_name file_path +:+ ".ots" <> file_path ->
  stamp_leaves_absent (working_env file_path) file_path.
Proof.
  intros Hne hist fs Hfs. by apply lookup_insert_None.
Qed.

Lemma unsigned_text_removed_witness :
  let run := generate_bitcoin_txt_certificate.generate_certificate
               (working_env (bitcoin_unsigned "r/alice")) edition alice_result "r/alice"
               results_world in
  let course_run := generate_course_txt_certificate.generate_certificate
                      course_env "alice" "Alice" "btc101" course_world in
  (fst run = Ok tt
   /\ files (snd run) !! "r/alice/bitcoin_certificate.txt" = None
   /\ files (snd run) !! "r/alice/bitcoin_certificate-signed.txt" = Some "signed text"
   /\ files (snd run) !! "r/alice/bitcoin_certificate-signed.txt.ots" = Some "proof")
  /\ (fst course_run = Ok tt
      /\ files (snd course_run) !! "../pending/course_certificate_alice_btc101.txt" = None
      /\ files (snd course_run) !! "../pending/course_certificate_alice_btc101-signed.txt"
         = Some "signed text").
Proof.
  intros run course_run.
  assert (Hrun : run = (Ok tt, snd run)) by (vm_compute; reflexivity).
  assert (Hcourse : course_run = (Ok tt, snd course_run)) by (vm_compute; reflexivity).
  split.
  - split; [by rewrite Hrun|]. split; [|vm_compute; done].
    apply (proj1 (unsigned_text_removed (working_env (bitcoin_unsigned "r/alice")))
             edition alice_result "r/alice" results_world (snd run) Hrun).
    apply working_env_stamp. vm_compute. discriminate.
  - split; [by rewrite Hcourse|]. split; [|vm_compute; done].
    apply (proj2 (unsigned_text_removed course_env)
             "alice" "Alice" "btc101" course_world (snd course_run) Hcourse).
    intros hist fs Hfs. exact Hfs.
Defined.

(** ** The idempotency gate *)

(** The PDF orchestrator: a subfolder whose document exists is skipped,
    with no effect at all. *)
Lemma process_subfolder_skips (env : Env) (result_folder subfolder : string) (w : World) :
  exists_on_disk w
    (path_join (path_join result_folder subfolder) "bitcoin_certificate-signed.pdf") = true ->
  generate_bitcoin_pdf_certificate.process_subfolder env result_folder subfolder w
  = (Ok tt, w).
Proof.
  intros Hpdf. unfold generate_bitcoin_pdf_certificate.process_subfolder.
  unfold bind at 1, path_exists at 1.
  destruct (exists_on_disk w (path_join (path_join result_folder subfolder)
                                "bitcoin_certificate-signed.txt.ots")) eqn:Hots.
  - unfold bind at 1, path_exists at 1. by rewrite Hpdf.
  - reflexivity.
Qed.

Lemma for_each_skips (env : Env) (result_folder : string) (subfolders : list string)
    (w : World) :
  Forall (fun subfolder =>
            exists_on_disk w
              (path_join (path_join result_folder subfolder)
                 "bitcoin_certificate-signed.pdf") = true) subfolders ->
  for_each subfolders (generate_bitcoin_pdf_certificate.process_subfolder env result_folder) w
  = (Ok tt, w).
Proof.
  induction 1 as [|subfolder subfolders Hpdf _ IH]; [done|].
  cbn [for_each]. rewrite bind_apply, process_subfolder_skips by done. exact IH.
Qed.

(** *** Computations that only print *)

Lemma same_disk_refl (w : World) : same_disk w w.
Proof. by repeat split. Qed.

Lemma same_disk_trans (w1 w2 w3 : World) :
  same_disk w1 w2 -> same_disk w2 w3 -> same_disk w1 w3.
Proof. intros (? & ? & ?) (? & ? & ?). repeat split; congruence. Qed.

Lemma quiet_on_pure {A : Type} (P : World -> Prop) (m : M A) :
  (forall w, snd (m w) = w) -> quiet_on P m.
Proof. intros H w _. rewrite H. apply same_disk_refl. Qed.

Lemma quiet_on_print (P : World -> Prop) (p : printed) : quiet_on P (print p).
Proof. intros w _. by repeat split. Qed.

Lemma quiet_on_bind {A B : Type} (P : World -> Prop) (m : M A) (k : A -> M B) :
  disk_condition P -> quiet_on P m -> (forall a, quiet_on P (k a)) ->
  quiet_on P (bind m k).
Proof.
  intros HP Hm Hk w Hw. unfold bind. specialize (Hm w Hw).
  destruct (m w) as [[a|e] w1]; cbn [snd] in *; [|done].
  eapply same_disk_trans; [exact Hm|]. apply Hk. by eapply HP.
Qed.

(** The gate: from the worlds where the path exists, only the first
    branch runs. *)
Lemma quiet_on_gate {A : Type} (P : World -> Prop) (p : string) (yes no : M A) :
  (forall w, P w -> exists_on_disk w p = true) ->
  quiet_on P yes ->
  quiet_on P (let* found := path_exists p in if found then yes else no).
Proof.
  intros Hp Hyes w Hw. unfold bind, path_exists. rewrite (Hp w Hw). by apply Hyes.
Qed.

Lemma exists_on_disk_same (w w' : World) (p : string) :
  same_disk w w' -> exists_on_disk w' p = exists_on_disk w p.
Proof.
  intros (Hf & Hd & _). unfold exists_on_disk, is_file, is_dir. by rewrite Hf, Hd.
Qed.

Ltac quiet_pure := apply quiet_on_pure; intros w0; unfold ret, raise, lift, path_exists,
  path_isdir, read_file, os_listdir; repeat case_match; reflexivity.

Ltac quiet :=
  repeat first
    [ apply quiet_on_print
    | apply quiet_on_gate; [by auto|]
    | apply quiet_on_bind; [assumption| |intros ?]
    | quiet_pure
    | match goal with
      | |- quiet_on _ (if ?b then _ else _) => destruct b
      | |- quiet_on _ (match ?x with _ => _ end) => destruct x
      end ].

(** The plaintext generator: a subfolder whose timestamp proof exists is
    left as it is; only messages are printed. *)
Lemma process_result_skips (env : Env) (edition_data : yaml)
    (result_folder subfolder : string) :
  quiet_on
    (fun w => exists_on_disk w
                (path_join (path_join result_folder subfolder)
                   "bitcoin_certificate-signed.txt.ots") = true)
    (generate_bitcoin_txt_certificate.process_result env edition_data result_folder subfolder).
Proof.
  assert (Hcond : disk_condition
            (fun w => exists_on_disk w
                        (path_join (path_join result_folder subfolder)
                           "bitcoin_certificate-signed.txt.ots") = true)).
  { intros w w' Hsame Hw. by rewrite (exists_on_disk_same _ _ _ Hsame). }
  unfold generate_bitcoin_txt_certificate.process_result,
    generate_bitcoin_txt_certificate.load_yaml_file,
    generate_bitcoin_txt_certificate.get_total_score.
  quiet.
Qed.

(** *** A run of the PDF orchestrator over finished work *)

Lemma filterM_isdir (g : string -> string) (l : list string) (w : World) :
  filterM (fun f => path_isdir (g f)) l w
  = (Ok (List.filter (fun f => is_dir w (g f)) l), w).
Proof.
  induction l as [|x l IH]; [done|].
  cbn [filterM List.filter]. unfold bind at 1, path_isdir at 1.
  unfold bind at 1. rewrite IH. unfold ret. by destruct (is_dir w (g x)).
Qed.

Lemma In_py_sorted (x : string) (l : list string) : In x (py_sorted l) -> In x l.
Proof.
  unfold py_sorted. intros H. eapply Permutation_in; [|exact H].
  apply merge_sort_Permutation.
Qed.

Lemma process_edition_folder_quiet (env : Env) (edition_folder : string) (w : World) :
  all_finalized w ->
  In edition_folder (dir_entries w generate_bitcoin_pdf_certificate.bcert_path) ->
  same_disk w (snd (generate_bitcoin_pdf_certificate.process_edition_folder
                      env edition_folder w)).
Proof.
  intros Hfin Hin.
  unfold generate_bitcoin_pdf_certificate.process_edition_folder.
  fold (results_of edition_folder).
  unfold bind at 1, path_isdir at 1.
  destruct (is_dir w _); [|apply same_disk_refl].
  unfold bind at 1, print at 1.
  set (w1 := {| files := files w; dirs := dirs w; console := _; history := history w |}).
  unfold bind at 1, path_exists at 1.
  destruct (exists_on_disk w1 (results_of edition_folder)).
  2:{ unfold bind, ret, print. by repeat split. }
  unfold bind at 1. unfold bind at 1, os_listdir at 1.
  destruct (is_dir w1 (results_of edition_folder)); [|by repeat split].
  unfold bind at 1. rewrite filterM_isdir.
  rewrite for_each_skips.
  - unfold print. by repeat split.
  - apply List.Forall_forall. intros subfolder Hsub.
    apply In_py_sorted, In_py_sorted, filter_In in Hsub as [Hsub Hdir].
    exact (Hfin edition_folder subfolder Hin Hsub Hdir).
Qed.

Lemma all_finalized_same (w w' : World) :
  same_disk w w' -> all_finalized w -> all_finalized w'.
Proof.
  intros (Hf & Hd & Hh) H e sf. unfold dir_entries, exists_on_disk, is_file, is_dir.
  rewrite Hf, Hd. apply H.
Qed.

Lemma for_each_edition_quiet (env : Env) (editions : list string) (w : World) :
  all_finalized w ->
  Forall (fun e => In e (dir_entries w generate_bitcoin_pdf_certificate.bcert_path)) editions ->
  same_disk w (snd (for_each editions
                      (generate_bitcoin_pdf_certificate.process_edition_folder env) w)).
Proof.
  intros Hfin Hall. revert w Hfin Hall.
  induction editions as [|e editions IH]; intros w Hfin Hall; [apply same_disk_refl|].
  apply Forall_cons in Hall as [He Hall].
  cbn [for_each]. unfold bind.
  pose proof (process_edition_folder_quiet env e w Hfin He) as Hstep.
  destruct (generate_bitcoin_pdf_certificate.process_edition_folder env e w)
    as [[[]|err] w1]; cbn [snd] in Hstep; [|exact Hstep].
  eapply same_disk_trans; [exact Hstep|]. apply IH.
  - by eapply all_finalized_same.
  - destruct Hstep as (Hf & Hd & _). unfold dir_entries. rewrite Hf, Hd. exact Hall.
Qed.

Lemma main_quiet (env : Env) (w : World) :
  all_finalized w -> same_disk w (snd (generate_bitcoin_pdf_certificate.main env w)).
Proof.
  intros Hfin. unfold generate_bitcoin_pdf_certificate.main.
  unfold bind at 1, os_listdir at 1.
  destruct (is_dir w _); [|apply same_disk_refl].
  unfold bind.
  pose proof (for_each_edition_quiet env
    (py_sorted (dir_entries w generate_bitcoin_pdf_certificate.bcert_path)) w Hfin) as Hloop.
  destruct (for_each _ _ w) as [[[]|err] w1]; cbn [snd] in Hloop.
  - unfold print. cbn [snd]. destruct Hloop as (? & ? & ?); [|by repeat split].
    apply List.Forall_forall. intros e. apply In_py_sorted.
  - apply Hloop. apply List.Forall_forall. intros e. apply In_py_sorted.
Qed.

(** C1, as stated, fails on two of the three orchestrators. The plaintext
    generator tests the timestamp proof, not the document: with the
    document there and the proof gone it signs and stamps again. The course
    orchestrator of [generate.py] tests nothing: a certificate whose
    document is archived and whose proof is pending again is rendered and
    compiled again, and the archived document is replaced. *)
Lemma finalized_item_processed_again :
  exists_on_disk regenerated_world "r/alice/bitcoin_certificate-signed.pdf" = true
  /\ files regenerated_world !! "r/alice/bitcoin_certificate-signed.txt" = None
  /\ files (snd (generate_bitcoin_txt_certificate.process_result
                   (working_env (bitcoin_unsigned "r/alice")) edition "r" "alice"
                   regenerated_world))
       !! "r/alice/bitcoin_certificate-signed.txt" = Some "signed text"
  /\ exists_on_disk reissued_world "../final/course_alice-signed.pdf" = true
  /\ existsb is_lualatex
       (history (snd (generate.process_filename mature_env "course_alice-signed.txt.ots"
                        reissued_world))) = true
  /\ files (snd (generate.process_filename mature_env "course_alice-signed.txt.ots"
                   reissued_world))
       !! "../final/course_alice-signed.pdf" = Some "%PDF of the second run".
Proof. vm_compute. done. Qed.

(** C1, amended. In [generate_bitcoin_pdf_certificate.py] a subfolder whose
    document exists is skipped entirely: nothing is run, written or
    printed for it; and a run over editions in which every subfolder has
    its document changes no file, makes no directory and runs no process.
    In [generate_bitcoin_txt_certificate.py] the gate is the timestamp
    proof: a subfolder whose proof exists is not signed or stamped again,
    no file is written and no process is run for it. *)
Theorem idempotency_gates (env : Env) :
  (forall (result_folder subfolder : string) (w : World),
     exists_on_disk w
       (path_join (path_join result_folder subfolder) "bitcoin_certificate-signed.pdf")
     = true ->
     generate_bitcoin_pdf_certificate.process_subfolder env result_folder subfolder w
     = (Ok tt, w))
  /\ (forall (w : World),
     all_finalized w ->
     same_disk w (snd (generate_bitcoin_pdf_certificate.main env w)))
  /\ (forall (edition_data : yaml) (result_folder subfolder : string) (w : World),
     exists_on_disk w
       (path_join (path_join result_folder subfolder) "bitcoin_certificate-signed.txt.ots")
     = true ->
     same_disk w (snd (generate_bitcoin_txt_certificate.process_result
                         env edition_data result_folder subfolder w))).
Proof.
  split; [|split].
  - intros. by apply process_subfolder_skips.
  - intros. by apply main_quiet.
  - intros edition_data result_folder subfolder w H.
    by apply (process_result_skips env edition_data result_folder subfolder w).
Qed.

Lemma idempotency_gates_witness :
  exists_on_disk finished_world "r/alice/bitcoin_certificate-signed.pdf" = true
  /\ generate_bitcoin_pdf_certificate.process_subfolder mature_env "r" "alice" finished_world
     = (Ok tt, finished_world)
  /\ same_disk finished_world
       (snd (generate_bitcoin_txt_certificate.process_result
               (working_env (bitcoin_unsigned "r/alice")) edition "r" "alice"
               finished_world))
  /\ fst (generate_bitcoin_pdf_certificate.main mature_env finished_editions_world) = Ok tt
  /\ same_disk finished_editions_world
       (snd (generate_bitcoin_pdf_certificate.main mature_env finished_editions_world)).
Proof.
  split; [reflexivity|]. split_and!.
  - apply (proj1 (idempotency_gates mature_env) "r" "alice" finished_world). reflexivity.
  - apply (proj2 (proj2 (idempotency_gates (working_env (bitcoin_unsigned "r/alice"))))
             edition "r" "alice" finished_world). reflexivity.
  - vm_compute. reflexivity.
  - apply (proj1 (proj2 (idempotency_gates mature_env)) finished_editions_world).
    intros edition_folder subfolder Hedition Hsub _.
    vm_compute in Hedition. destruct Hedition as [<-|[]].
    vm_compute in Hsub. destruct Hsub as [<-|[]].
    vm_compute. reflexivity.
Defined.

(** * Part III: further properties of the code *)

(** ** Course names in two lines *)

Lemma is_word_chars_app (x y : string) :
  Forall (fun c => Str.is_space c = false) (Str.chars x) ->
  Forall (fun c => Str.is_space c = false) (Str.chars y) ->
  Forall (fun c => Str.is_space c = false) (Str.chars (x +:+ y)).
Proof. intros Hx Hy. rewrite StrFacts.chars_app. by apply Forall_app. Qed.

Lemma split_go_word (a x s : string) :
  Forall (fun c => Str.is_space c = false) (Str.chars x) ->
  Str.split_go (Some a) (x +:+ s) = Str.split_go (Some (a +:+ x)) s.
Proof.
  revert a. induction x as [|c x IH]; intros a Hx.
  - by rewrite StrFacts.app_nil_r.
  - apply Forall_cons in Hx as [Hc Hx]. rewrite StrFacts.app_cons.
    cbn [Str.split_go]. rewrite Hc, IH by done.
    by rewrite StrFacts.app_assoc.
Qed.

Lemma split_go_start (w s : string) :
  is_word w -> Str.split_go None (w +:+ s) = Str.split_go (Some w) s.
Proof.
  intros [Hne Hw]. destruct w as [|c w]; [done|].
  apply Forall_cons in Hw as [Hc Hw]. rewrite StrFacts.app_cons.
  cbn [Str.split_go]. rewrite Hc. by rewrite split_go_word.
Qed.

(** Splitting the words joined by single spaces gives the words back. *)
Lemma split_join (ws : list string) :
  Forall is_word ws -> Str.split (Str.join " " ws) = ws.
Proof.
  induction 1 as [|w ws Hw Hws IH]; [done|].
  unfold Str.split in *. destruct ws as [|w' ws].
  - cbn [Str.join]. pose proof (split_go_start w EmptyString Hw) as E.
    rewrite StrFacts.app_nil_r in E. by rewrite E.
  - change (Str.join " " (w :: w' :: ws)) with (w +:+ " " +:+ Str.join " " (w' :: ws)).
    rewrite split_go_start by done.
    change (" " +:+ Str.join " " (w' :: ws)) with (String " " (Str.join " " (w' :: ws))).
    cbn [Str.split_go]. change (Str.is_space " ") with true. cbn iota. by rewrite IH.
Qed.

Lemma split_go_words (cur : option string) (s : string) :
  match cur with Some a => is_word a | None => True end ->
  Forall is_word (Str.split_go cur s).
Proof.
  revert cur. induction s as [|c s IH]; intros cur Hcur.
  - destruct cur; [by constructor|constructor].
  - cbn [Str.split_go]. destruct (Str.is_space c) eqn:Hc.
    + destruct cur; [constructor; [done|]|]; by apply IH.
    + apply IH. destruct cur as [a|].
      * destruct Hcur as [Hne Ha]. split; [by destruct a|].
        apply is_word_chars_app; [done|]. by repeat constructor.
      * split; [done|]. by repeat constructor.
Qed.

(** X1. [split_and_format_coursename] loses no word: the words of the two
    halves are the first [n // 2] words of the name and the remaining
    ones, in order; with an odd number of words the first half has one
    word less, and a name of one word goes to the second half. *)
Theorem split_and_format_coursename_words (coursename : string) :
  let words := Str.split coursename in
  let halves := split_and_format_coursename coursename in
  Str.split (fst halves) = firstn (length words / 2) words
  /\ Str.split (snd halves) = skipn (length words / 2) words
  /\ Str.split (fst halves) ++ Str.split (snd halves) = words
  /\ length (Str.split (fst halves)) = length words / 2
  /\ (length words mod 2 = 1 ->
      S (length (Str.split (fst halves))) = length (Str.split (snd halves)))
  /\ (length words = 1 -> halves = (EmptyString, coursename_word coursename)).
Proof.
  intros words halves.
  assert (Hwords : Forall is_word words) by (by apply split_go_words).
  assert (H1 : Str.split (fst halves) = firstn (length words / 2) words).
  { apply split_join. by apply Forall_take. }
  assert (H2 : Str.split (snd halves) = skipn (length words / 2) words).
  { apply split_join. by apply Forall_drop. }
  assert (Hmid : length words / 2 <= length words).
  { apply Nat.Div0.div_le_upper_bound. lia. }
  rewrite H1, H2. split_and!; try done.
  - apply firstn_skipn.
  - rewrite length_firstn. lia.
  - intros Hodd. rewrite length_firstn, length_skipn.
    pose proof (Nat.div_mod_eq (length words) 2). lia.
  - intros Hone. subst halves. unfold split_and_format_coursename, coursename_word.
    fold words. destruct words as [|w [|w' ws]]; try discriminate Hone. reflexivity.
Qed.

(** ** The displayed hash *)

Lemma length_format_hash (s : string) :
  String.length (format_hash s) = String.length s + (String.length s - 1) / 4.
Proof.
  induction s as [s Hs|a b c d e t IH] using by_groups_of_four.
  - rewrite format_hash_short by done.
    rewrite (Nat.div_small (String.length s - 1) 4) by lia. lia.
  - rewrite format_hash_long. cbn [String.length] in *. rewrite IH.
    replace (S (S (S (S (S (String.length t))))) - 1) with (1 * 4 + String.length t) by lia.
    rewrite Nat.div_add_l by lia.
    replace (S (String.length t) - 1) with (String.length t) by lia. lia.
Qed.

(** X2. [format_hash] adds one character per full group of four that
    has characters after it. *)
Theorem format_hash_length (hash_value : string) :
  String.length (format_hash hash_value)
  = String.length hash_value + (String.length hash_value - 1) / 4.
Proof. apply length_format_hash. Qed.

Lemma length_round (st : list Z) (kw : Z * Z) :
  length (Sha256.round st kw) = length st.
Proof. by destruct st as [|a [|b [|c [|d [|e [|f [|g [|h [|i t]]]]]]]]]. Qed.

Lemma length_rounds (l : list (Z * Z)) (st : list Z) :
  length (fold_left Sha256.round l st) = length st.
Proof.
  revert st. induction l as [|kw l IH]; intros st; [done|].
  cbn [fold_left]. by rewrite IH, length_round.
Qed.

Lemma length_compress (hs : list Z) (block : string) :
  length (Sha256.compress hs block) = length hs.
Proof.
  unfold Sha256.compress. rewrite length_map, length_combine, length_rounds. lia.
Qed.

Lemma length_fold_blocks (n : nat) (hs : list Z) (s : string) :
  length (fold_blocks n hs s) = length hs.
Proof.
  revert hs s. induction n as [|n IH]; intros hs s; [done|].
  cbn [fold_blocks]. by rewrite IH, length_compress.
Qed.

Lemma hex_digit_lower (z : Z) :
  (0 <= z < 16)%Z -> is_lower_hex (Sha256.hex_digit z) = true.
Proof. intros Hz. enumerate z 0%Z 16; reflexivity. Qed.

Lemma hex_word_lower (w : Z) :
  String.length (Sha256.hex_word w) = 8
  /\ Forall (fun c => is_lower_hex c = true) (Str.chars (Sha256.hex_word w)).
Proof.
  split; [done|]. unfold Sha256.hex_word. cbn [fold_right Str.chars].
  repeat (constructor; [apply hex_digit_lower, Z.mod_pos_bound; lia|]). constructor.
Qed.

Lemma hex_words_lower (ws : list Z) :
  let text := fold_right (fun w acc => Sha256.hex_word w +:+ acc) EmptyString ws in
  String.length text = 8 * length ws
  /\ Forall (fun c => is_lower_hex c = true) (Str.chars text).
Proof.
  induction ws as [|w ws [IHl IHc]]; [by split|].
  cbn [fold_right length]. destruct (hex_word_lower w) as [Hl Hc]. split.
  - rewrite StrFacts.length_app, Hl, IHl. lia.
  - rewrite StrFacts.chars_app. by apply Forall_app.
Qed.

Lemma sha256_of_message_shape (data : string) :
  String.length (sha256_of_message data) = 64
  /\ Forall (fun c => is_lower_hex c = true) (Str.chars (sha256_of_message data)).
Proof.
  unfold sha256_of_message.
  destruct (hex_words_lower
    (fold_blocks (String.length (sha256_pad data) / 64) Sha256.H0 (sha256_pad data)))
    as [Hl Hc].
  split; [|exact Hc]. rewrite Hl, length_fold_blocks. reflexivity.
Qed.

Lemma lower_hex_not_space (s : string) :
  Forall (fun c => is_lower_hex c = true) (Str.chars s) ->
  Forall (fun c => c <> " "%char) (Str.chars s).
Proof.
  intros H. eapply Forall_impl; [exact H|]. intros c Hc ->. discriminate Hc.
Qed.

(** X3. The digest [compute_sha256] returns for a file that exists has
    64 characters, each one of [0-9a-f]; [split_and_format_hash] makes of
    it two lines of 39 characters (eight groups of four) each, and taking
    the spaces out of the two lines and joining them gives the digest
    back. The file system is left as it was. *)
Theorem compute_sha256_display (file_path content : string) (w : World) :
  files w !! file_path = Some content ->
  exists digest,
    generate.compute_sha256 file_path w = (Ok digest, w)
    /\ String.length digest = 64
    /\ Forall (fun c => is_lower_hex c = true) (Str.chars digest)
    /\ String.length (fst (split_and_format_hash digest)) = 39
    /\ String.length (snd (split_and_format_hash digest)) = 39
    /\ remove_spaces (fst (split_and_format_hash digest))
       +:+ remove_spaces (snd (split_and_format_hash digest)) = digest.
Proof.
  intros Hp. exists (sha256_of_message content).
  destruct (sha256_of_message_shape content) as [Hl Hc].
  split_and!; try done.
  - unfold generate.compute_sha256, bind, read_file, ret.
    rewrite Hp, read_chunks_update. by rewrite <- sha256_hex_of_message.
  - unfold split_and_format_hash. cbn [fst].
    rewrite length_format_hash, StrFacts.length_take, Hl. reflexivity.
  - unfold split_and_format_hash. cbn [snd].
    rewrite length_format_hash, StrFacts.length_drop, Hl. reflexivity.
  - unfold split_and_format_hash. cbn [fst snd].
    rewrite !remove_spaces_format_hash, <- remove_spaces_app, StrFacts.take_drop.
    by apply remove_spaces_id, lower_hex_not_space.
Qed.

Lemma compute_sha256_display_witness :
  exists digest,
    generate.compute_sha256 "a.txt" abc_world = (Ok digest, abc_world)
    /\ String.length digest = 64
    /\ Forall (fun c => is_lower_hex c = true) (Str.chars digest)
    /\ String.length (fst (split_and_format_hash digest)) = 39
    /\ String.length (snd (split_and_format_hash digest)) = 39
    /\ remove_spaces (fst (split_and_format_hash digest))
       +:+ remove_spaces (snd (split_and_format_hash digest)) = digest.
Proof. exact (compute_sha256_display "a.txt" "abc" abc_world eq_refl). Defined.

(** ** Dates *)

(** X4. [format_date] either raises [ValueError] or returns the long
    form of the valid date that [strptime] reads in the text: the index
    into the list of the three short suffixes is never out of range, and
    never negative, so that no [IndexError] leaves the function and no
    suffix is taken from the end of the list. *)
Theorem format_date_total (date_string : string) :
  format_date date_string = Raise ValueError
  \/ exists y m d,
       strptime date_string = Ok {| year := y; month := m; day := d |}
       /\ valid_date y m d = true
       /\ (((4 <= d <= 20) \/ (24 <= d <= 30) \/ (0 <= d mod 10 - 1 < 3))%Z)
       /\ format_date date_string
          = Ok (Z_to_str d +:+ ordinal_suffix d +:+ " " +:+ month_name m
                +:+ ", " +:+ Z_to_str y).
Proof.
  unfold format_date, strptime.
  destruct (parse_Ymd date_string) as [|[[[y m] d] rest] alternatives]; [by left|].
  destruct rest; [|by left].
  destruct (valid_date y m d) eqn:Hvalid; [|by left].
  right. exists y, m, d. cbn [day month year].
  destruct (valid_date_bounds _ _ _ Hvalid) as (Hy & Hm & Hd).
  split_and!; try done.
  - clear Hvalid. enumerate d 1%Z 31;
      first [left; lia | right; left; lia | right; right; by vm_compute].
  - unfold year_str. enumerate d 1%Z 31; reflexivity.
Qed.

(** ** Templates without the placeholders of the fields *)

Lemma replace_go_absent (old new s : string) :
  ~ occurs_in old s -> Str.replace_go old new 0 s = s.
Proof.
  induction s as [|c s IH]; intros Habsent; [done|].
  cbn [Str.replace_go].
  destruct (Str.prefix old (String c s)) eqn:Hp.
  - exfalso. apply Habsent. by exists 0.
  - f_equal. apply IH. intros [k Hk]. apply Habsent. by exists (S k).
Qed.

Lemma replace_placeholders_absent (content : string)
    (certificate_data : list (string * option string)) :
  (forall key value, In (key, value) certificate_data ->
     ~ occurs_in ("{" +:+ key +:+ "}") content) ->
  generate.replace_placeholders content certificate_data = content.
Proof.
  unfold generate.replace_placeholders.
  induction certificate_data as [|[key value] data IH]; intros Habsent; [done|].
  cbn [fold_left].
  change (Str.replace content ("{" +:+ key +:+ "}") (py_str value))
    with (Str.replace_go ("{" +:+ key +:+ "}") (py_str value) 0 content).
  rewrite replace_go_absent by (apply (Habsent key value); by left).
  apply IH. intros k v Hin. apply (Habsent k v). by right.
Qed.

(** X6. A template of ASCII characters without carriage return in
    which the placeholder of no field occurs is written out as it is,
    whatever other braces it contains and whatever the values of the
    fields are, when the directory of the new file exists and the new path
    is not itself a directory. *)
Theorem modify_and_save_tex_copies (template_path new_tex_path content : string)
    (certificate_data : list (string * option string)) (w : World) :
  files w !! template_path = Some content ->
  text_mode_safe content = true ->
  is_dir w new_tex_path = false ->
  parent_exists w new_tex_path ->
  (forall key value, In (key, value) certificate_data ->
     ~ occurs_in ("{" +:+ key +:+ "}") content) ->
  generate.modify_and_save_tex template_path new_tex_path certificate_data w
  = (Ok tt, set_files (insert new_tex_path content) w).
Proof.
  intros Hfile _ Hdir _ Habsent.
  unfold generate.modify_and_save_tex, bind, read_file, write_file.
  rewrite Hfile, Hdir. by rewrite replace_placeholders_absent.
Qed.

Lemma drop_beyond (n : nat) (s : string) :
  String.length s <= n -> Str.drop n s = EmptyString.
Proof.
  revert n. induction s as [|c s IH]; intros [|n] Hn; simpl in *; try done; try lia.
  apply IH. lia.
Qed.

Lemma occurs_in_bounded (sub s : string) :
  occurs_in sub s <->
  Exists (fun k => Str.prefix sub (Str.drop k s) = true) (seq 0 (S (String.length s))).
Proof.
  rewrite List.Exists_exists. split.
  - intros [k Hk]. destruct (decide (k <= String.length s)) as [Hle|Hgt].
    + exists k. split; [|done]. apply in_seq. lia.
    + exists (String.length s). split; [apply in_seq; lia|].
      rewrite drop_beyond in * by lia. done.
  - intros (k & _ & Hk). by exists k.
Qed.

Lemma modify_and_save_tex_copies_witness :
  generate.modify_and_save_tex "t.tex" "out.tex" [("course", Some "x")] greeting_world
  = (Ok tt, set_files (insert "out.tex" "Name: {fullname}, id {id}") greeting_world).
Proof.
  apply (modify_and_save_tex_copies "t.tex" "out.tex" "Name: {fullname}, id {id}");
    [reflexivity|reflexivity|reflexivity|by left|].
  intros key value [[= <- <-]|[]]. rewrite occurs_in_bounded.
  rewrite <- List.Forall_Exists_neg. vm_compute.
  repeat (constructor; [discriminate|]). constructor.
Defined.

(** ** The order of the fields *)

Lemma assoc_Permutation {A : Type} (k : string) (l l' : list (string * A)) :
  List.NoDup (map fst l) -> Permutation l l' -> assoc k l = assoc k l'.
Proof.
  intros Hnd Hp. induction Hp as [|[k1 v1] l l' Hp IH|[k1 v1] [k2 v2] l|l l' l'' H1 IH1 H2 IH2].
  - done.
  - cbn [assoc]. destruct (String.eqb k k1); [done|].
    apply IH. by inversion Hnd.
  - cbn [assoc].
    destruct (String.eqb_spec k k2) as [->|]; [|done].
    destruct (String.eqb_spec k2 k1) as [->|]; [|done].
    exfalso. inversion Hnd as [|? ? Hnotin]. apply Hnotin. by left.
  - rewrite IH1 by done. apply IH2.
    eapply Permutation_NoDup; [|exact Hnd]. by apply Permutation_map.
Qed.

(** X7. On a plain template, with plain fields of distinct names, the
    order in which the dictionary lists the fields does not change the
    rendered text. *)
Theorem replace_placeholders_any_order (t : list piece)
    (certificate_data reordered : list (string * option string)) :
  plain_template t -> plain_fields certificate_data ->
  List.NoDup (map fst certificate_data) ->
  Permutation certificate_data reordered ->
  generate.replace_placeholders (template_text t) certificate_data
  = generate.replace_placeholders (template_text t) reordered.
Proof.
  intros Ht Hdata Hnd Hp.
  assert (Hdata' : plain_fields reordered).
  { unfold plain_fields in *. rewrite List.Forall_forall in *.
    intros kv Hin. apply Hdata. eapply Permutation_in; [|exact Hin].
    by apply Permutation_sym. }
  rewrite !replace_placeholders_spec by done.
  unfold render_spec. f_equal. apply map_ext. intros [s|name]; [done|].
  cbn [fill]. by rewrite (assoc_Permutation name _ _ Hnd Hp).
Qed.

Lemma replace_placeholders_any_order_witness :
  generate.replace_placeholders (template_text greeting_template) greeting_fields
  = generate.replace_placeholders (template_text greeting_template)
      [("date", None); ("fullname", Some "Alice")].
Proof.
  apply (replace_placeholders_any_order greeting_template greeting_fields).
  - unfold plain_template, greeting_template, no_open_brace, brace_free; simpl. plain.
  - unfold plain_fields, greeting_fields, no_open_brace, brace_free; simpl. plain.
  - repeat (constructor; [simpl; intuition discriminate|]). constructor.
  - apply perm_swap.
Defined.

(** ** The names of the signed and stamped files *)

Lemma drop_zero (s : string) : Str.drop 0 s = s.
Proof. by destruct s. Qed.

Lemma pyslice_cut_four (s : string) :
  Str.pyslice 0 (-4) s = Str.take (String.length s - 4) s.
Proof.
  unfold Str.pyslice, Str.slice, Str.norm_index. cbn [Z.ltb Z.compare].
  change (Z.to_nat 0) with 0. rewrite Nat.min_0_r, drop_zero, Nat.sub_0_r.
  f_equal. lia.
Qed.

Lemma cut_extension (stem extension : string) :
  String.length extension = 4 -> Str.pyslice 0 (-4) (stem +:+ extension) = stem.
Proof.
  intros H. rewrite pyslice_cut_four, StrFacts.length_app, H.
  replace (String.length stem + 4 - 4) with (String.length stem) by lia.
  apply take_app_exact.
Qed.

(** X8. [sign_certificate] names the signed file by cutting the last
    four characters of the path, whatever they are, and adding
    [-signed.txt]: for a path [stem.txt] this is [stem-signed.txt]. The
    name always differs from the path of the text to sign. The one
    process it runs is [gpg], and it returns the name when [gpg] exits
    with status 0 and raises [CalledProcessError] otherwise. *)
Theorem sign_certificate_signed_file (env : Env) (file_path : string) (w : World) :
  let signed_file :=
    Str.take (String.length file_path - 4) file_path +:+ "-signed.txt" in
  let gpg := Shell (sign_command signed_file file_path) in
  let answer := run_process env gpg (history w) (files w) in
  signed_file <> file_path
  /\ (forall stem, file_path = stem +:+ ".txt" -> signed_file = stem +:+ "-signed.txt")
  /\ history (snd (sign_certificate env file_path w)) = history w ++ [gpg]
  /\ fst (sign_certificate env file_path w)
     = if (returncode (fst answer) =? 0)%Z then Ok signed_file
       else Raise (CalledProcessError gpg (returncode (fst answer))).
Proof.
  intros signed_file gpg answer. split_and!.
  - intros Heq. apply (f_equal String.length) in Heq. subst signed_file.
    rewrite StrFacts.length_app, StrFacts.length_take in Heq.
    change (String.length "-signed.txt") with 11 in Heq. lia.
  - intros stem ->. subst signed_file.
    rewrite <- pyslice_cut_four. by rewrite cut_extension.
  - unfold sign_certificate, bind, subprocess_run.
    rewrite pyslice_cut_four. fold signed_file gpg answer.
    destruct answer as [result files']. cbn [fst].
    by destruct (returncode result =? 0)%Z.
  - unfold sign_certificate, bind, subprocess_run.
    rewrite pyslice_cut_four. fold signed_file gpg answer.
    destruct answer as [result files']. cbn [fst].
    by destruct (returncode result =? 0)%Z.
Qed.

(** The last two processes of both [generate_certificate] functions. *)
Lemma sign_then_stamp (env : Env) (stem content : string) (w w' : World) :
  (do write_file (stem +:+ ".txt") content then
   do print (PStr ("Certificate generated: " +:+ (stem +:+ ".txt"))) then
   let* signed_file := sign_certificate env (stem +:+ ".txt") in
   do print (PStr ("Certificate signed: " +:+ signed_file)) then
   do os_remove (stem +:+ ".txt") then
   do timestamp_file env signed_file then
   print (PStr ("Certificate timestamped: " +:+ signed_file))) w = (Ok tt, w') ->
  history w'
  = history w ++ [Shell (sign_command (stem +:+ "-signed.txt") (stem +:+ ".txt"));
                  Shell (timestamp_command (stem +:+ "-signed.txt"))].
Proof.
  intros H.
  peel H as u1 w1 H1. peel H as u2 w2 H2. peel H as signed_file w3 H3.
  peel H as u4 w4 H4. peel H as u5 w5 H5. peel H as u6 w6 H6.
  assert (Hh1 : history w1 = history w).
  { unfold write_file in H1. destruct (is_dir w _); [discriminate H1|].
    by injection H1 as _ <-. }
  assert (Hh2 : history w2 = history w1) by (by injection H2 as _ <-).
  assert (Hh3 : signed_file = stem +:+ "-signed.txt"
                /\ history w3 = history w2
                     ++ [Shell (sign_command (stem +:+ "-signed.txt") (stem +:+ ".txt"))]).
  { unfold sign_certificate in H3. rewrite cut_extension in H3 by done.
    peel H3 as r w3' H3'. injection H3 as <- <-. split; [done|].
    unfold subprocess_run in H3'.
    destruct (run_process env _ (history w2) (files w2)) as [result files'].
    destruct (returncode result =? 0)%Z; [|discriminate H3'].
    by injection H3' as _ <-. }
  destruct Hh3 as [-> Hh3].
  assert (Hh4 : history w4 = history w3) by (by injection H4 as _ <-).
  assert (Hh5 : history w5 = history w4).
  { unfold os_remove in H5. destruct (files w4 !! _); [|discriminate H5].
    by injection H5 as _ <-. }
  assert (Hh6 : history w6 = history w5 ++ [Shell (timestamp_command (stem +:+ "-signed.txt"))]).
  { unfold timestamp_file in H6. peel H6 as r w6' H6'. injection H6 as _ <-.
    unfold subprocess_run in H6'.
    destruct (run_process env _ (history w5) (files w5)) as [result files'].
    destruct (returncode result =? 0)%Z; [|discriminate H6'].
    by injection H6' as _ <-. }
  injection H as <-. cbn [history].
  rewrite Hh6, Hh5, Hh4, Hh3, Hh2, Hh1, <- app_assoc. reflexivity.
Qed.

Lemma path_join_relative (a b : string) (c : ascii) :
  c <> slash ->
  path_join a (String c b)
  = (if String.eqb a EmptyString || Str.endswith a "/" then a else a +:+ "/")
    +:+ String c b.
Proof.
  intros Hc. unfold path_join, Str.startswith. cbn [Str.prefix].
  destruct (Ascii.eqb_spec "/" c) as [<-|_]; [done|].
  destruct (String.eqb a EmptyString || Str.endswith a "/"); [done|].
  by rewrite <- StrFacts.app_assoc.
Qed.

Lemma endswith_app (s p : string) : Str.endswith (s +:+ p) p = true.
Proof.
  unfold Str.endswith. rewrite StrFacts.length_app.
  replace (String.length s + String.length p - String.length p) with (String.length s) by lia.
  rewrite StrFacts.drop_app, String.eqb_refl. apply Nat.leb_le. lia.
Qed.

Lemma removesuffix_app (s p : string) :
  p <> EmptyString -> Str.removesuffix (s +:+ p) p = s.
Proof.
  intros Hp. unfold Str.removesuffix. rewrite endswith_app.
  destruct (String.eqb_spec p EmptyString) as [|_]; [done|]. cbn [negb andb].
  rewrite StrFacts.length_app.
  replace (String.length s + String.length p - String.length p) with (String.length s) by lia.
  apply take_app_exact.
Qed.

(** X9. When [generate_certificate] of the plaintext generator for exams
    completes, the last two processes it ran are [gpg], writing
    [bitcoin_certificate-signed.txt] in the result folder, and
    [ots stamp] on that file; the proof that stamping puts next to it is
    the file [process_result] and the PDF orchestrator test before they
    start on the folder, and cutting [.ots] off its path gives the signed
    text that the PDF orchestrator reads. *)
Theorem generate_certificate_stamps_gate_file (env : Env)
    (edition_data result_data : yaml) (result_folder_path : string) (w w' : World) :
  generate_bitcoin_txt_certificate.generate_certificate
    env edition_data result_data result_folder_path w = (Ok tt, w') ->
  let unsigned := path_join result_folder_path "bitcoin_certificate.txt" in
  let signed := path_join result_folder_path "bitcoin_certificate-signed.txt" in
  let gate := path_join result_folder_path "bitcoin_certificate-signed.txt.ots" in
  (exists earlier,
     history w' = earlier ++ [Shell (sign_command signed unsigned);
                              Shell (timestamp_command signed)])
  /\ signed +:+ ".ots" = gate
  /\ Str.removesuffix gate ".ots" = signed.
Proof.
  intros H unsigned signed gate.
  set (folder := if String.eqb result_folder_path EmptyString
                    || Str.endswith result_folder_path "/"
                 then result_folder_path else result_folder_path +:+ "/").
  assert (Hu : unsigned = (folder +:+ "bitcoin_certificate") +:+ ".txt").
  { subst unsigned folder. rewrite path_join_relative by done.
    by rewrite StrFacts.app_assoc. }
  assert (Hs : signed = (folder +:+ "bitcoin_certificate") +:+ "-signed.txt").
  { subst signed folder. rewrite path_join_relative by done.
    by rewrite StrFacts.app_assoc. }
  assert (Hg : gate = signed +:+ ".ots").
  { subst gate. rewrite Hs. subst folder. rewrite path_join_relative by done.
    by rewrite !StrFacts.app_assoc. }
  split_and!.
  - unfold generate_bitcoin_txt_certificate.generate_certificate in H.
    do 10 (let a := fresh "a" in let w1 := fresh "w" in let Hs := fresh "Hs" in
           peel H as a w1 Hs; clear Hs; cbn beta in H).
    fold unsigned in H. rewrite Hu in H. apply sign_then_stamp in H.
    eexists. rewrite Hs, Hu. exact H.
  - by rewrite Hg.
  - rewrite Hg. by apply removesuffix_app.
Qed.

Lemma generate_certificate_stamps_gate_file_witness :
  exists earlier,
    history (snd (generate_bitcoin_txt_certificate.generate_certificate
                    (working_env (bitcoin_unsigned "r/alice")) edition alice_result
                    "r/alice" results_world))
    = earlier
      ++ [Shell (sign_command "r/alice/bitcoin_certificate-signed.txt"
                   "r/alice/bitcoin_certificate.txt");
          Shell (timestamp_command "r/alice/bitcoin_certificate-signed.txt")].
Proof.
  refine (proj1 (generate_certificate_stamps_gate_file
           (working_env (bitcoin_unsigned "r/alice")) edition alice_result "r/alice"
           results_world _ _)).
  vm_compute. reflexivity.
Defined.

(** X10. When [generate_certificate] of the plaintext generator for
    courses completes, the last two processes it ran are [gpg] and
    [ots stamp] on the signed text in the pending folder. The name of the
    proof that stamping puts next to the signed text passes the filter of
    the course PDF orchestrator (it starts with [course_] and ends with
    [.ots]), the orchestrator finds it under the path it builds from the
    name, and the text it reads, the path without [.ots], is the signed
    text. *)
Theorem course_certificate_is_picked_up (env : Env)
    (username fullname course_id : string) (w w' : World) :
  generate_course_txt_certificate.generate_certificate
    env username fullname course_id w = (Ok tt, w') ->
  let stem := "course_certificate_" +:+ username +:+ "_" +:+ course_id in
  let unsigned := path_join generate.pending_path (stem +:+ ".txt") in
  let signed := path_join generate.pending_path (stem +:+ "-signed.txt") in
  let filename := stem +:+ "-signed.txt.ots" in
  (exists earlier,
     history w' = earlier ++ [Shell (sign_command signed unsigned);
                              Shell (timestamp_command signed)])
  /\ Str.startswith filename "course_" && Str.endswith filename ".ots" = true
  /\ path_join generate.pending_path filename = signed +:+ ".ots"
  /\ Str.removesuffix (path_join generate.pending_path filename) ".ots" = signed.
Proof.
  intros H stem unsigned signed filename.
  set (rest := "ourse_certificate_" +:+ username +:+ "_" +:+ course_id).
  assert (Hstem : stem = String "c" rest) by reflexivity.
  assert (Hu : unsigned = ("../pending/" +:+ stem) +:+ ".txt").
  { subst unsigned. rewrite Hstem, StrFacts.app_cons, path_join_relative by done.
    reflexivity. }
  assert (Hs : signed = ("../pending/" +:+ stem) +:+ "-signed.txt").
  { subst signed. rewrite Hstem, StrFacts.app_cons, path_join_relative by done.
    reflexivity. }
  assert (Hf : path_join generate.pending_path filename = signed +:+ ".ots").
  { subst filename. rewrite Hs, Hstem, StrFacts.app_cons, path_join_relative by done.
    rewrite <- (StrFacts.app_cons "c" rest "-signed.txt.ots").
    change (String "c" rest +:+ "-signed.txt.ots")
      with (String "c" rest +:+ ("-signed.txt" +:+ ".ots")).
    by rewrite !StrFacts.app_assoc. }
  split_and!.
  - unfold generate_course_txt_certificate.generate_certificate in H.
    do 13 (let a := fresh "a" in let w1 := fresh "w" in let Hs := fresh "Hs" in
           peel H as a w1 Hs; clear Hs; cbn beta in H).
    change (path_join "../pending"
              ("course_certificate_" +:+ username +:+ "_" +:+ course_id +:+ ".txt"))
      with (path_join generate.pending_path
              ("course_certificate_" +:+ username +:+ "_" +:+ (course_id +:+ ".txt"))) in H.
    replace ("course_certificate_" +:+ username +:+ "_" +:+ (course_id +:+ ".txt"))
      with (stem +:+ ".txt") in H
      by (subst stem; by rewrite !StrFacts.app_assoc).
    fold unsigned in H. rewrite Hu in H. apply sign_then_stamp in H.
    eexists. rewrite Hs, Hu. exact H.
  - apply andb_true_iff. split.
    + subst filename stem. unfold Str.startswith.
      change ("course_certificate_" +:+ username +:+ "_" +:+ course_id)
        with ("course_" +:+ ("certificate_" +:+ username +:+ "_" +:+ course_id)).
      rewrite StrFacts.app_assoc. apply StrFacts.prefix_app.
    + subst filename.
      change (stem +:+ "-signed.txt.ots") with (stem +:+ ("-signed.txt" +:+ ".ots")).
      rewrite <- StrFacts.app_assoc. apply endswith_app.
  - exact Hf.
  - rewrite Hf. by apply removesuffix_app.
Qed.

(** ** The latest block header *)

(** X11. [get_latest_block_header] never raises: it returns a text for
    every behaviour of [curl]. When the request for the height of the
    tip exits non-zero, the text is the message Failed to fetch block
    data: followed by the error, and the second request is not made;
    when the request for the header exits non-zero, the text is the same
    message with that error; otherwise it is the stripped output of the
    second request. The message is returned in the place of the header,
    as an ordinary result. *)
Theorem get_latest_block_header_never_raises (env : Env) (label : bool) (w : World) :
  let tip := Shell "curl -sSL 'https://mempool.space/api/blocks/tip/height'" in
  let asked := run_process env tip (history w) (files w) in
  let lookup := Shell (header_command (Str.strip (stdout (fst asked)))) in
  let looked_up := run_process env lookup (history w ++ [tip]) (snd asked) in
  let failed cmd rc :=
    "Failed to fetch block data: " +:+ str_exn env (CalledProcessError cmd rc) in
  exists (text : string) (w' : World),
    get_latest_block_header env label w = (Ok text, w')
    /\ (returncode (fst asked) <> 0%Z ->
        text = failed tip (returncode (fst asked))
        /\ history w' = history w ++ [tip] /\ console w' = console w)
    /\ (returncode (fst asked) = 0%Z -> returncode (fst looked_up) <> 0%Z ->
        text = failed lookup (returncode (fst looked_up))
        /\ history w' = history w ++ [tip; lookup])
    /\ (returncode (fst asked) = 0%Z -> returncode (fst looked_up) = 0%Z ->
        text = Str.strip (stdout (fst looked_up))
        /\ history w' = history w ++ [tip; lookup]).
Proof.
  intros tip asked lookup looked_up failed.
  unfold get_latest_block_header, try_except, bind, subprocess_run, print, ret.
  fold tip. cbn [history files]. fold asked.
  destruct asked as [first files1] eqn:Hasked. cbn [fst snd] in *.
  destruct (Z.eqb_spec (returncode first) 0) as [Hrc1|Hrc1].
  - cbn [history files]. fold lookup. fold looked_up.
    destruct looked_up as [second files2] eqn:Hlooked. cbn [fst snd] in *.
    destruct (Z.eqb_spec (returncode second) 0) as [Hrc2|Hrc2].
    + eexists _, _. split; [reflexivity|]. cbn [history console].
      rewrite <- app_assoc. split_and!; try done.
    + cbn [on_CalledProcessError]. eexists _, _. split; [reflexivity|].
      cbn [history console]. rewrite <- app_assoc. split_and!; try done.
  - cbn [on_CalledProcessError]. eexists _, _. split; [reflexivity|].
    cbn [history console]. split_and!; try done.
Qed.

(** ** Compiling the document *)

(** X12. [compile_tex_to_pdf] of the PDF orchestrator for exams never
    raises and changes no file itself. It runs [lualatex] once when the
    first pass exits non-zero and twice otherwise, and returns [True]
    exactly when both passes exit with status 0 and the document is there
    afterwards. *)
Theorem pdf_compile_tex_to_pdf_result (env : Env) (tex_filepath : string) (w : World) :
  let folder_path := dirname tex_filepath in
  let pdf_path := path_join folder_path (splitext_root (basename tex_filepath) +:+ ".pdf") in
  let pass := generate.lualatex tex_filepath folder_path in
  let first := run_process env pass (history w) (files w) in
  let second := run_process env pass (history w ++ [pass]) (snd first) in
  exists (compiled : bool) (w' : World),
    generate_bitcoin_pdf_certificate.compile_tex_to_pdf env tex_filepath w
    = (Ok compiled, w')
    /\ dirs w' = dirs w
    /\ (returncode (fst first) <> 0%Z ->
        compiled = false /\ history w' = history w ++ [pass] /\ files w' = snd first)
    /\ (returncode (fst first) = 0%Z ->
        history w' = history w ++ [pass; pass] /\ files w' = snd second
        /\ (compiled = true <->
            returncode (fst second) = 0%Z /\ exists_on_disk w' pdf_path = true)).
Proof.
  intros folder_path pdf_path pass first second.
  unfold generate_bitcoin_pdf_certificate.compile_tex_to_pdf, try_except.
  cbn [for_each]. unfold bind, subprocess_run, path_exists, print, ret.
  fold folder_path. fold pass. cbn [history files]. fold first.
  destruct first as [r1 files1] eqn:Hfirst. cbn [fst snd] in *.
  destruct (Z.eqb_spec (returncode r1) 0) as [Hrc1|Hrc1].
  - cbn [history files]. fold second.
    destruct second as [r2 files2] eqn:Hsecond. cbn [fst snd] in *.
    destruct (Z.eqb_spec (returncode r2) 0) as [Hrc2|Hrc2].
    + fold pdf_path.
      match goal with |- context [exists_on_disk ?w0 pdf_path] =>
        destruct (exists_on_disk w0 pdf_path) eqn:Hpdf end.
      * eexists _, _. split; [reflexivity|]. cbn [dirs history files].
        rewrite <- app_assoc. split_and!; try done.
      * eexists _, _. split; [reflexivity|]. cbn [dirs history files].
        rewrite <- app_assoc. split_and!; try done.
        intros _. split_and!; try done. split; [done|].
        intros [_ Hthere]. unfold exists_on_disk, is_file, is_dir in *.
        cbn [files dirs] in *. congruence.
    + cbn [on_CalledProcessError]. eexists _, _. split; [reflexivity|].
      cbn [dirs history files]. rewrite <- app_assoc. split_and!; try done.
      intros _. split_and!; try done. split; [done|]. by intros [? _].
  - cbn [on_CalledProcessError]. eexists _, _. split; [reflexivity|].
    cbn [dirs history files]. split_and!; try done.
Qed.

(** One turn of the loop that removes the auxiliary files. *)
Lemma remove_if_present (p : string) (w : World) :
  is_dir w p = false ->
  exists w',
    (let* present := path_exists p in if present then os_remove p else ret tt) w
    = (Ok tt, w')
    /\ files w' = delete p (files w) /\ dirs w' = dirs w
    /\ history w' = history w /\ console w' = console w.
Proof.
  intros Hdir. unfold bind, path_exists, exists_on_disk, is_file, os_remove, ret.
  rewrite Hdir, orb_false_r.
  destruct (files w !! p) as [content|] eqn:Hp.
  - rewrite bool_decide_eq_true_2 by done. rewrite Hp. by eexists.
  - rewrite bool_decide_eq_false_2 by (by intros [? ?]).
    eexists. split; [reflexivity|]. by rewrite delete_id.
Qed.

Lemma for_each_map {A B : Type} (f : A -> B) (l : list A) (body : B -> M unit) :
  for_each (map f l) body = for_each l (fun x => body (f x)).
Proof. induction l as [|x l IH]; [done|]. cbn [map for_each]. by rewrite IH. Qed.

Lemma remove_all_present (paths : list string) (w : World) :
  Forall (fun p => is_dir w p = false) paths ->
  exists w',
    for_each paths (fun p =>
      let* present := path_exists p in if present then os_remove p else ret tt) w
    = (Ok tt, w')
    /\ files w' = foldr delete (files w) (rev paths) /\ dirs w' = dirs w
    /\ history w' = history w /\ console w' = console w.
Proof.
  revert w. induction paths as [|p paths IH]; intros w Hdirs.
  - by eexists.
  - apply Forall_cons in Hdirs as [Hp Hdirs]. cbn [for_each].
    destruct (remove_if_present p w Hp) as (w1 & Hstep & Hf & Hd & Hh & Hc).
    unfold bind at 1. rewrite Hstep.
    destruct (IH w1) as (w' & Hrest & Hf' & Hd' & Hh' & Hc').
    { eapply Forall_impl; [exact Hdirs|]. intros q Hq. unfold is_dir in *. by rewrite Hd. }
    exists w'. split; [exact Hrest|].
    rewrite Hf', Hd', Hh', Hc', Hf, Hd, Hh, Hc. split_and!; try done.
    cbn [rev]. by rewrite foldr_app.
Qed.

Lemma lookup_foldr_delete (paths : list string) (fs : gmap string string) (p : string) :
  (In p paths -> foldr delete fs paths !! p = None)
  /\ (~ In p paths -> foldr delete fs paths !! p = fs !! p).
Proof.
  induction paths as [|q paths [IHin IHout]]; [by split|]. cbn [foldr]. split.
  - intros Hin. destruct (decide (q = p)) as [->|Hne]; [apply lookup_delete_eq|].
    rewrite lookup_delete_ne by done. apply IHin. by destruct Hin.
  - intros Hnotin. rewrite lookup_delete_ne by (intros ->; apply Hnotin; by left).
    apply IHout. intros Hin. apply Hnotin. by right.
Qed.

(** The two passes of [lualatex]. *)
Lemma two_passes (env : Env) (pass : command) (w : World) :
  for_each [0; 1] (fun _ => let* result := subprocess_run env pass in ret tt) w
  = let first := run_process env pass (history w) (files w) in
    let second := run_process env pass (history w ++ [pass]) (snd first) in
    if (returncode (fst first) =? 0)%Z then
      (if (returncode (fst second) =? 0)%Z then Ok tt
       else Raise (CalledProcessError pass (returncode (fst second))),
       after_process (after_process w pass (snd first)) pass (snd second))
    else (Raise (CalledProcessError pass (returncode (fst first))),
          after_process w pass (snd first)).
Proof.
  cbn [for_each]. unfold bind, subprocess_run, ret, after_process.
  destruct (run_process env pass (history w) (files w)) as [r1 files1]. cbn [fst snd].
  destruct (returncode r1 =? 0)%Z; [|done]. cbn [history files dirs console].
  destruct (run_process env pass (history w ++ [pass]) files1) as [r2 files2]. cbn [fst snd].
  by destruct (returncode r2 =? 0)%Z.
Qed.

(** X13. [compile_tex_to_pdf] of the course PDF orchestrator, when
    none of the four auxiliary paths ([.log], [.aux], [.out], [.tex] next
    to the document) is a directory: it never raises; it returns [True]
    exactly when both passes of [lualatex] exit with status 0 and the
    document is there afterwards; when it returns [True] the four
    auxiliary files, the rendered source among them, are gone and every
    other file is as [lualatex] left it; when it returns [False] it has
    removed nothing. *)
Theorem compile_tex_to_pdf_cleans_up (env : Env) (tex_filepath : string) (w : World) :
  let folder_path := dirname tex_filepath in
  let file_name := splitext_root (basename tex_filepath) in
  let pdf_path := path_join folder_path (file_name +:+ ".pdf") in
  let auxiliary :=
    map (fun ext => path_join folder_path (file_name +:+ ext))
        [".log"; ".aux"; ".out"; ".tex"] in
  let pass := generate.lualatex tex_filepath folder_path in
  let first := run_process env pass (history w) (files w) in
  let second := run_process env pass (history w ++ [pass]) (snd first) in
  let compiled_world := after_process (after_process w pass (snd first)) pass (snd second) in
  Forall (fun p => is_dir w p = false) auxiliary ->
  exists (compiled : bool) (w' : World),
    generate.compile_tex_to_pdf env tex_filepath w = (Ok compiled, w')
    /\ dirs w' = dirs w
    /\ (compiled = true <->
        returncode (fst first) = 0%Z /\ returncode (fst second) = 0%Z
        /\ exists_on_disk compiled_world pdf_path = true)
    /\ (compiled = true ->
        history w' = history w ++ [pass; pass]
        /\ (forall p, In p auxiliary -> files w' !! p = None)
        /\ (forall p, ~ In p auxiliary -> files w' !! p = snd second !! p))
    /\ (compiled = false ->
        files w' = if (returncode (fst first) =? 0)%Z then snd second else snd first).
Proof.
  intros folder_path file_name pdf_path auxiliary pass first second compiled_world Hdirs.
  unfold generate.compile_tex_to_pdf, try_except.
  fold folder_path file_name pdf_path. fold pass.
  rewrite bind_apply, two_passes. cbv zeta. fold first. fold second. fold compiled_world.
  destruct (Z.eqb_spec (returncode (fst first)) 0) as [Hrc1|Hrc1]; lazy beta iota.
  - destruct (Z.eqb_spec (returncode (fst second)) 0) as [Hrc2|Hrc2]; lazy beta iota.
    + rewrite bind_apply. unfold path_exists at 1.
      destruct (exists_on_disk compiled_world pdf_path) eqn:Hpdf.
      * destruct (remove_all_present auxiliary compiled_world)
          as (w3 & Hloop & Hf & Hd & Hh & Hc); [exact Hdirs|].
        unfold auxiliary in Hloop. rewrite for_each_map in Hloop.
        rewrite bind_apply, Hloop. unfold ret.
        exists true, w3. split; [reflexivity|].
        rewrite Hd, Hh, Hf. subst compiled_world. cbn [after_process dirs history files].
        rewrite <- app_assoc. split_and!; try done.
        intros _. split_and!; try done.
        -- intros p Hin. apply lookup_foldr_delete. by apply in_rev in Hin.
        -- intros p Hnotin. apply lookup_foldr_delete.
           intros Hin. apply Hnotin. by apply in_rev.
      * unfold bind, print, ret. eexists _, _. split; [reflexivity|].
        cbn [dirs history files]. split_and!; try done.
        split; [done|]. intros (_ & _ & Hthere). congruence.
    + cbn [on_CalledProcessError]. unfold bind, print, ret.
      eexists _, _. split; [reflexivity|]. cbn [dirs history files].
      split_and!; try done. split; [done|]. by intros (_ & ? & _).
  - cbn [on_CalledProcessError]. unfold bind, print, ret.
    eexists _, _. split; [reflexivity|]. cbn [dirs history files].
    split_and!; try done. split; [done|]. by intros (? & _).
Qed.

(** ** Backup files *)

(** One turn of the loop of [clean_bak_files]. *)
Lemma clean_one (env : Env) (folder_path file : string) (w : World) :
  exists w',
    (if Str.endswith file ".bak" then
       let file_path := path_join folder_path file in
       try_except
         (do os_remove file_path then
          print (PStr ("Removed backup file: " +:+ file)))
         (fun e =>
            if is_OSError e
            then Some (print (PStr ("Error removing " +:+ file +:+ ": " +:+ str_exn env e)))
            else None)
     else ret tt) w = (Ok tt, w')
    /\ files w'
       = (if Str.endswith file ".bak" then delete (path_join folder_path file) (files w)
          else files w)
    /\ dirs w' = dirs w /\ history w' = history w.
Proof.
  destruct (Str.endswith file ".bak"); [|by eexists].
  unfold try_except, bind, os_remove, print.
  destruct (files w !! path_join folder_path file) as [content|] eqn:Hp.
  - by eexists.
  - destruct (is_dir w (path_join folder_path file)); cbn [is_OSError];
      (eexists; split; [reflexivity|]; cbn [files dirs history]; by rewrite delete_id).
Qed.

Lemma clean_loop (env : Env) (folder_path : string) (listing : list string) (w : World) :
  exists w',
    for_each listing (fun file =>
      if Str.endswith file ".bak" then
        let file_path := path_join folder_path file in
        try_except
          (do os_remove file_path then
           print (PStr ("Removed backup file: " +:+ file)))
          (fun e =>
             if is_OSError e
             then Some (print (PStr ("Error removing " +:+ file +:+ ": " +:+ str_exn env e)))
             else None)
      else ret tt) w = (Ok tt, w')
    /\ files w'
       = foldr delete (files w)
           (rev (map (path_join folder_path)
                     (List.filter (fun file => Str.endswith file ".bak") listing)))
    /\ dirs w' = dirs w /\ history w' = history w.
Proof.
  revert w. induction listing as [|file listing IH]; intros w; [by eexists|].
  cbn [for_each]. rewrite bind_apply.
  destruct (clean_one env folder_path file w) as (w1 & H1 & Hf & Hd & Hh).
  cbv zeta in H1 |- *. rewrite H1.
  destruct (IH w1) as (w' & Hrest & Hf' & Hd' & Hh').
  exists w'. split; [exact Hrest|]. rewrite Hf', Hd', Hh', Hf, Hd, Hh.
  split_and!; try done. cbn [List.filter].
  destruct (Str.endswith file ".bak"); [|done].
  cbn [map rev]. by rewrite foldr_app.
Qed.

(** The line of one turn of the loop of [clean_bak_files]. *)
Lemma clean_one_reports (env : Env) (folder_path file : string) (w : World) :
  Str.endswith file ".bak" = true ->
  exists w' line,
    (let file_path := path_join folder_path file in
     try_except
       (do os_remove file_path then
        print (PStr ("Removed backup file: " +:+ file)))
       (fun e =>
          if is_OSError e
          then Some (print (PStr ("Error removing " +:+ file +:+ ": " +:+ str_exn env e)))
          else None)) w = (Ok tt, w')
    /\ console w' = console w ++ [line]
    /\ reported env file line.
Proof.
  intros Hbak. cbv zeta. unfold try_except, bind, os_remove, print.
  destruct (files w !! path_join folder_path file) as [content|] eqn:Hp.
  - eexists _, _. split; [reflexivity|]. split; [reflexivity|]. by left.
  - destruct (is_dir w (path_join folder_path file)); cbn [is_OSError];
      (eexists _, _; split; [reflexivity|]; split; [reflexivity|]; right; eexists; split; [|reflexivity]; reflexivity).
Qed.

Lemma clean_loop_reports (env : Env) (folder_path : string) (listing : list string)
    (w w' : World) :
  for_each listing (fun file =>
    if Str.endswith file ".bak" then
      let file_path := path_join folder_path file in
      try_except
        (do os_remove file_path then
         print (PStr ("Removed backup file: " +:+ file)))
        (fun e =>
           if is_OSError e
           then Some (print (PStr ("Error removing " +:+ file +:+ ": " +:+ str_exn env e)))
           else None)
    else ret tt) w = (Ok tt, w') ->
  exists lines,
    console w' = console w ++ lines
    /\ Forall2 (reported env) (List.filter (fun file => Str.endswith file ".bak") listing) lines.
Proof.
  revert w. induction listing as [|file listing IH]; intros w H.
  - injection H as <-. exists []. split; [by rewrite app_nil_r|constructor].
  - cbn [for_each] in H. peel H as u w1 H1. cbn [List.filter].
    destruct (Str.endswith file ".bak") eqn:Hbak.
    + destruct (clean_one_reports env folder_path file w Hbak) as (w1' & line & Hone & Hc & Hline).
      cbv zeta in Hone, H1. rewrite Hone in H1. injection H1 as _ <-.
      destruct (IH _ H) as (lines & Hc' & Hlines).
      exists (line :: lines). split; [|apply List.Forall2_cons; [exact Hline|exact Hlines]].
      by rewrite Hc', Hc, <- app_assoc.
    + injection H1 as _ <-. by apply IH.
Qed.

(** X14. [clean_bak_files] on a folder that exists never raises,
    whatever the entries are: the [OSError] of a removal is caught. It
    prints one line for each entry whose name ends with [.bak], in the
    order of the listing: either that the file was removed, and then no
    file lies at its path afterwards, or the error of the removal. Every
    file that is not such an entry is as it was, no directory is touched
    and no process run. *)
Theorem clean_bak_files_removes_backups (env : Env) (folder_path : string) (w : World) :
  is_dir w folder_path = true ->
  exists (w' : World) (lines : list printed),
    generate_bitcoin_pdf_certificate.clean_bak_files env folder_path w = (Ok tt, w')
    /\ dirs w' = dirs w /\ history w' = history w
    /\ console w' = console w ++ lines
    /\ Forall2 (removal_line env folder_path w')
         (List.filter (fun file => Str.endswith file ".bak") (dir_entries w folder_path))
         lines
    /\ (forall p,
          (forall file, In file (dir_entries w folder_path) ->
             Str.endswith file ".bak" = true -> p <> path_join folder_path file) ->
          files w' !! p = files w !! p).
Proof.
  intros Hdir. unfold generate_bitcoin_pdf_certificate.clean_bak_files.
  rewrite bind_apply. unfold os_listdir at 1. rewrite Hdir.
  destruct (clean_loop env folder_path (dir_entries w folder_path) w)
    as (w' & Hloop & Hf & Hd & Hh).
  destruct (clean_loop_reports env folder_path _ w w' Hloop) as (lines & Hc & Hlines).
  exists w', lines. split; [exact Hloop|]. split_and!; try done.
  - assert (Hgone : forall file,
              In file (List.filter (fun file => Str.endswith file ".bak")
                         (dir_entries w folder_path)) ->
              files w' !! path_join folder_path file = None).
    { intros file Hin. rewrite Hf. apply lookup_foldr_delete.
      apply in_rev. rewrite rev_involutive. by apply in_map. }
    clear Hc. revert Hlines Hgone.
    generalize (List.filter (fun file => Str.endswith file ".bak") (dir_entries w folder_path)).
    intros listing Hlines Hgone.
    induction Hlines as [|file line baks lines Hline Hlines IH]; [constructor|].
    apply List.Forall2_cons.
    + destruct Hline as [->|Herror]; [left|by right].
      split; [done|]. apply Hgone. by left.
    + apply IH. intros f Hin. apply Hgone. by right.
  - intros p Hp. rewrite Hf. apply lookup_foldr_delete.
    intros Hin. apply in_rev in Hin. apply in_map_iff in Hin as (file & <- & Hin).
    apply filter_In in Hin as [Hin Hbak]. by apply (Hp file).
Qed.

Lemma clean_bak_files_removes_backups_witness :
  exists w',
    generate_bitcoin_pdf_certificate.clean_bak_files immature_env "r/alice" mixed_backup_world
    = (Ok tt, w')
    /\ console w' = [PStr "Removed backup file: notes.txt.bak";
                     PStr "Error removing old.bak: [Errno 13] Permission denied: 'r/alice/old.bak'"]
    /\ files w' !! "r/alice/notes.txt.bak" = None
    /\ files w' !! "r/alice/result.yml" = Some alice_yaml.
Proof.
  destruct (clean_bak_files_removes_backups immature_env "r/alice" mixed_backup_world eq_refl)
    as (w' & lines & Hrun & _).
  exists w'. split; [exact Hrun|].
  vm_compute in Hrun. injection Hrun as <-. vm_compute. done.
Defined.

(** ** The score and the threshold *)

Lemma yaml_sum_from (scores : list (string * Z)) (acc : Z) :
  fold_left
    (fun acc kv =>
       match acc, snd kv with
       | Ok n, YInt z => Ok (n + z)%Z
       | Ok n, YBool b => Ok (n + (if b then 1 else 0))%Z
       | Ok _, _ => Raise TypeError
       | Raise e, _ => Raise e
       end)
    (category_scores scores) (Ok acc)
  = Ok (fold_left (fun acc kv => (acc + snd kv)%Z) scores acc).
Proof.
  revert acc. induction scores as [|[k z] scores IH]; intros acc; [done|].
  cbn [category_scores map fold_left snd]. apply IH.
Qed.

Lemma yaml_sum_values_ints (scores : list (string * Z)) :
  yaml_sum_values (YMap (category_scores scores)) = Ok (total_of scores).
Proof. apply yaml_sum_from. Qed.

Lemma get_total_score_of_scores (result : list (string * yaml))
    (scores : list (string * Z)) (w : World) :
  assoc "categories" result = Some (YMap (category_scores scores)) ->
  generate_bitcoin_txt_certificate.get_total_score (YMap result) w
  = (Ok (total_of scores), w).
Proof.
  intros Hsome.
  unfold generate_bitcoin_txt_certificate.get_total_score, bind, lift, yaml_contains,
    yaml_item, ret.
  rewrite Hsome. cbn [negb]. by rewrite yaml_sum_values_ints.
Qed.

(** X15. [get_total_score] returns the sum of the scores of the
    categories; for a result without categories it returns 0 and prints
    a message. In both cases the files are left alone. *)
Theorem get_total_score_sums (result : list (string * yaml)) (w : World) :
  (assoc "categories" result = None ->
   exists w', generate_bitcoin_txt_certificate.get_total_score (YMap result) w
              = (Ok 0%Z, w')
              /\ same_disk w w'
              /\ console w' = console w ++ [PStr "No 'categories' found in result data"])
  /\ (forall scores,
      assoc "categories" result = Some (YMap (category_scores scores)) ->
      generate_bitcoin_txt_certificate.get_total_score (YMap result) w
      = (Ok (total_of scores), w)).
Proof.
  unfold generate_bitcoin_txt_certificate.get_total_score. split.
  - intros Hnone. unfold bind, lift, yaml_contains, print, ret. rewrite Hnone.
    cbn [negb]. eexists. split; [reflexivity|]. by repeat split.
  - intros scores Hsome. by apply get_total_score_of_scores.
Qed.

Lemma get_total_score_sums_witness :
  generate_bitcoin_txt_certificate.get_total_score alice_result results_world
  = (Ok 85%Z, results_world).
Proof.
  exact (proj2 (get_total_score_sums
                  [("username", YStr "alice"); ("display_name", YStr "Alice");
                   ("categories", YMap [("keys", YInt 45); ("mining", YInt 40)])]
                  results_world)
               [("keys", 45%Z); ("mining", 40%Z)] eq_refl).
Defined.

(** X16. [process_result] on a result whose scores add up to less than
    80 writes no file and runs no process: it prints the name, the
    message that the user did not pass with the total, and an empty line,
    whether or not a timestamp proof is in the folder. *)
Theorem process_result_below_threshold (env : Env) (edition_data : yaml)
    (result_folder subfolder text : string) (result : list (string * yaml))
    (scores : list (string * Z)) (w : World) :
  let result_yml_path := path_join (path_join result_folder subfolder) "result.yml" in
  files w !! result_yml_path = Some text ->
  yaml_safe_load env text = Ok (YMap result) ->
  assoc "categories" result = Some (YMap (category_scores scores)) ->
  (total_of scores < 80)%Z ->
  exists w',
    generate_bitcoin_txt_certificate.process_result
      env edition_data result_folder subfolder w = (Ok tt, w')
    /\ same_disk w w'
    /\ console w'
       = console w
         ++ [PStr ("Processing result for: "
                   +:+ yaml_str (match assoc "username" result with
                                 | Some v => v
                                 | None => YStr "Unknown"
                                 end));
             PStr ("user did not pass with " +:+ Z_to_str (total_of scores));
             PStr EmptyString].
Proof.
  intros result_yml_path Hfile Hload Hcats Hlow.
  unfold generate_bitcoin_txt_certificate.process_result. fold result_yml_path.
  rewrite bind_apply. unfold path_exists at 1.
  unfold exists_on_disk, is_file. rewrite Hfile.
  rewrite bool_decide_eq_true_2 by done. cbn [orb negb].
  rewrite bind_apply. unfold generate_bitcoin_txt_certificate.load_yaml_file.
  rewrite bind_apply. unfold read_file at 1. rewrite Hfile.
  unfold lift at 1. rewrite Hload.
  rewrite bind_apply. unfold lift at 1, yaml_get at 1.
  rewrite bind_apply. unfold print at 1.
  rewrite bind_apply.
  rewrite (get_total_score_of_scores result scores _ Hcats).
  destruct (Z.leb_spec 80 (total_of scores)) as [|_]; [lia|].
  unfold bind, print. eexists. split; [reflexivity|].
  cbn [console]. rewrite <- !app_assoc. by repeat split.
Qed.

(** ** Witnesses of the property extractor *)

Lemma search_property_same_line_witness :
  generate.search_property "Full name: Alice" "Full name" = Some "Alice".
Proof.
  apply (search_property_same_line "Full name" EmptyString "Full name" " " "Alice"
           EmptyString true "A" "lice").
  - intros k Hk. simpl in Hk. lia.
  - reflexivity.
  - reflexivity.
  - repeat constructor.
  - reflexivity.
  - reflexivity.
  - discriminate.
  - repeat constructor.
  - by left.
Defined.

(** ** Proofs that are not mature *)

(** What [is_ots_done] of the course orchestrator returns and does to
    the world. *)
Lemma is_ots_done_run (env : Env) (ots_file_path : string) (w : World) :
  let upgrade := Shell (bitcoin_node_command generate.credentials "upgrade" ots_file_path) in
  let verify := Shell (bitcoin_node_command generate.credentials "verify" ots_file_path) in
  let upgraded := run_process env upgrade (history w) (files w) in
  let verified := run_process env verify (history w ++ [upgrade]) (snd upgraded) in
  exists (b : bool) (w' : World),
    generate.is_ots_done env ots_file_path w = (Ok b, w')
    /\ (b = true ->
        returncode (fst upgraded) = 0%Z /\ returncode (fst verified) = 0%Z
        /\ names_block (stderr (fst verified)))
    /\ dirs w' = dirs w
    /\ history w'
       = history w ++ upgrade :: (if (returncode (fst upgraded) =? 0)%Z then [verify] else [])
    /\ files w' = (if (returncode (fst upgraded) =? 0)%Z then snd verified else snd upgraded).
Proof.
  intros upgrade verify upgraded verified.
  unfold generate.is_ots_done, try_except, bind, subprocess_run, on_CalledProcessError.
  fold upgrade verify. cbn [history files]. fold upgraded.
  destruct upgraded as [up files1] eqn:Hup. cbn [fst snd] in *.
  destruct (Z.eqb_spec (returncode up) 0) as [Hrc1|Hrc1].
  - cbn [history files]. fold verified.
    destruct verified as [ver files2] eqn:Hver. cbn [fst snd] in *.
    destruct (Z.eqb_spec (returncode ver) 0) as [Hrc2|Hrc2].
    + cbn. pose proof (re_search_block_height_spec (stderr ver)) as Hspec.
      destruct (re_search match_block_height (stderr ver)) as [g|].
      * eexists true, _. split; [reflexivity|]. cbn. rewrite <- app_assoc.
        split_and!; try done. intros _. split_and!; try done. apply Hspec. by eexists.
      * eexists false, _. split; [reflexivity|]. cbn. rewrite <- app_assoc.
        by split_and!.
    + cbn. eexists false, _. split; [reflexivity|]. cbn. rewrite <- app_assoc.
      by split_and!.
  - cbn. eexists false, _. split; [reflexivity|]. cbn. by split_and!.
Qed.

(** X19. The course PDF orchestrator on one file name of the pending
    folder. A name that does not start with [course_] or does not end
    with [.ots] is passed over with no effect at all. For a proof that
    [is_ots_done] does not find mature, the only processes run are
    [ots upgrade] and, when that exits with status 0, [ots verify]; the
    files are as these left them: nothing is rendered, compiled or
    moved, and no error is raised. *)
Theorem process_filename_not_mature (env : Env) (filename : string) (w : World) :
  let pathfile := path_join generate.pending_path filename in
  let upgrade := Shell (bitcoin_node_command generate.credentials "upgrade" pathfile) in
  let verify := Shell (bitcoin_node_command generate.credentials "verify" pathfile) in
  let upgraded := run_process env upgrade (history w) (files w) in
  let verified := run_process env verify (history w ++ [upgrade]) (snd upgraded) in
  (Str.startswith filename "course_" && Str.endswith filename ".ots" = false ->
   generate.process_filename env filename w = (Ok tt, w))
  /\ (Str.startswith filename "course_" && Str.endswith filename ".ots" = true ->
      ~ (returncode (fst upgraded) = 0%Z /\ returncode (fst verified) = 0%Z
         /\ names_block (stderr (fst verified))) ->
      exists w',
        generate.process_filename env filename w = (Ok tt, w')
        /\ dirs w' = dirs w
        /\ history w'
           = history w
             ++ upgrade :: (if (returncode (fst upgraded) =? 0)%Z then [verify] else [])
        /\ files w'
           = (if (returncode (fst upgraded) =? 0)%Z then snd verified else snd upgraded)).
Proof.
  intros pathfile upgrade verify upgraded verified. split.
  - intros Hname. unfold generate.process_filename. by rewrite Hname.
  - intros Hname Hnot. unfold generate.process_filename. rewrite Hname.
    fold pathfile. rewrite bind_apply. unfold print at 1.
    set (w1 := {| files := files w; dirs := dirs w;
                  console := console w ++ [PStr pathfile]; history := history w |}).
    rewrite bind_apply.
    destruct (is_ots_done_run env pathfile w1) as (b & w' & Hrun & Hb & Hd & Hh & Hf).
    rewrite Hrun. destruct b.
    + exfalso. apply Hnot. by apply Hb.
    + exists w'. split; [reflexivity|]. by split_and!.
Qed.

Lemma process_filename_not_mature_witness :
  exists w',
    generate.process_filename immature_env "course_a.txt.ots" pending_world = (Ok tt, w')
    /\ files w' = files pending_world.
Proof.
  destruct (proj2 (process_filename_not_mature immature_env "course_a.txt.ots" pending_world)
              eq_refl) as (w' & Hrun & _ & _ & Hfiles).
  - intros (_ & _ & Hnames). apply re_search_block_height_spec in Hnames.
    vm_compute in Hnames. destruct Hnames as [g Hg]. discriminate Hg.
  - exists w'. split; [exact Hrun|]. exact Hfiles.
Defined.

(** ** A signed text without its date *)

Lemma proof_path (folder : string) :
  path_join folder "bitcoin_certificate-signed.txt.ots"
  = path_join folder "bitcoin_certificate-signed.txt" +:+ ".ots".
Proof.
  rewrite !path_join_relative by done.
  destruct (String.eqb folder EmptyString || Str.endswith folder "/");
    by rewrite !StrFacts.app_assoc.
Qed.

(** The maturity check and the block hash lookup of the PDF orchestrator
    for exams run shell tools only: they leave alone what these leave
    alone, make no directory, and the lookup returns. *)
Lemma pdf_is_ots_done_frame (env : Env) (ots_file_path : string) (w : World) :
  dirs (snd (generate_bitcoin_pdf_certificate.is_ots_done env ots_file_path w)) = dirs w
  /\ forall q, shell_keep env q ->
       files (snd (generate_bitcoin_pdf_certificate.is_ots_done env ots_file_path w)) !! q
       = files w !! q.
Proof.
  unfold generate_bitcoin_pdf_certificate.is_ots_done, try_except, bind, subprocess_run,
    on_CalledProcessError, print, ret.
  cbn [history files].
  set (upgrade := bitcoin_node_command _ "upgrade" ots_file_path).
  set (verify := bitcoin_node_command _ "verify" ots_file_path).
  assert (H1 : forall q, shell_keep env q ->
            snd (run_process env (Shell upgrade) (history w) (files w)) !! q = files w !! q)
    by (intros q Hq; apply Hq).
  destruct (run_process env (Shell upgrade) (history w) (files w)) as [up files1].
  cbn [snd] in H1.
  destruct (returncode up =? 0)%Z; [|by split].
  cbn [history files dirs].
  assert (H2 : forall q, shell_keep env q ->
            snd (run_process env (Shell verify) (history w ++ [Shell upgrade]) files1) !! q
            = files1 !! q)
    by (intros q Hq; apply Hq).
  destruct (run_process env (Shell verify) _ files1) as [ver files2]. cbn [snd] in H2.
  destruct (returncode ver =? 0)%Z; cbn; (split; [done|]);
    intros q Hq; rewrite H2, H1 by done; done.
Qed.

Lemma pdf_get_ots_blockhash_frame (env : Env) (ots_file_path : string) (w : World) :
  exists (text : string) (w' : World),
    generate_bitcoin_pdf_certificate.get_ots_blockhash env ots_file_path w = (Ok text, w')
    /\ dirs w' = dirs w
    /\ forall q, shell_keep env q -> files w' !! q = files w !! q.
Proof.
  unfold generate_bitcoin_pdf_certificate.get_ots_blockhash, try_except, bind,
    subprocess_run, raise, ret.
  cbn [history files].
  set (upgrade := bitcoin_node_command _ "upgrade" ots_file_path).
  set (verify := bitcoin_node_command _ "verify" ots_file_path).
  assert (H1 : forall q, shell_keep env q ->
            snd (run_process env (Shell upgrade) (history w) (files w)) !! q = files w !! q)
    by (intros q Hq; apply Hq).
  destruct (run_process env (Shell upgrade) (history w) (files w)) as [up files1].
  cbn [snd] in H1.
  destruct (returncode up =? 0)%Z;
    [|eexists _, _; split; [reflexivity|]; cbn; by split].
  cbn [history files].
  assert (H2 : forall q, shell_keep env q ->
            snd (run_process env (Shell verify) (history w ++ [Shell upgrade]) files1) !! q
            = files1 !! q)
    by (intros q Hq; apply Hq).
  destruct (run_process env (Shell verify) _ files1) as [ver files2]. cbn [snd] in H2.
  destruct (returncode ver =? 0)%Z;
    [|eexists _, _; split; [reflexivity|]; cbn; split; [done|];
      intros q Hq; rewrite H2, H1 by done; done].
  destruct (re_search match_block_height (stderr ver)) as [g|];
    [|eexists _, _; split; [reflexivity|]; cbn; split; [done|];
      intros q Hq; rewrite H2, H1 by done; done].
  cbn [history files].
  match goal with |- context [run_process env ?c ?h files2] =>
    assert (H3 : forall q, shell_keep env q -> snd (run_process env c h files2) !! q
                                               = files2 !! q)
      by (intros q Hq; apply Hq);
    destruct (run_process env c h files2) as [hdr files3]
  end.
  cbn [snd] in H3.
  destruct (returncode hdr =? 0)%Z; eexists _, _; (split; [reflexivity|]); cbn;
    (split; [done|]); intros q Hq; rewrite H3, H2, H1 by done; done.
Qed.

(** X20. The PDF orchestrator for exams on a result folder whose proof
    is mature and whose signed text has no line Date of completion: the
    missing date reaches [format_date] as [None] and [TypeError] is
    raised. No handler catches it, so the loop over the subfolders stops
    there and the later subfolders are not visited. *)
Theorem process_subfolder_without_date (env : Env) (result_folder subfolder content : string)
    (later : list string) (w : World) :
  let result_folder_path := path_join result_folder subfolder in
  let ots_file := path_join result_folder_path "bitcoin_certificate-signed.txt.ots" in
  let pdf_file := path_join result_folder_path "bitcoin_certificate-signed.pdf" in
  let signed_txt_path := path_join result_folder_path "bitcoin_certificate-signed.txt" in
  let started := snd (print (PStr ("Processing " +:+ subfolder +:+ "..")) w) in
  exists_on_disk w ots_file = true ->
  exists_on_disk w pdf_file = false ->
  fst (generate_bitcoin_pdf_certificate.is_ots_done env ots_file started) = Ok true ->
  tools_keep env signed_txt_path ->
  files w !! signed_txt_path = Some content ->
  absent_from "Date of completion" content ->
  exists w',
    generate_bitcoin_pdf_certificate.process_subfolder env result_folder subfolder w
    = (Raise TypeError, w')
    /\ for_each (subfolder :: later)
         (generate_bitcoin_pdf_certificate.process_subfolder env result_folder) w
       = (Raise TypeError, w')
    /\ files w' !! signed_txt_path = Some content.
Proof.
  intros result_folder_path ots_file pdf_file signed_txt_path started
    Hots Hpdf Hdone Hkeep Hfile Habsent.
  assert (Hstep : exists w',
            generate_bitcoin_pdf_certificate.process_subfolder env result_folder subfolder w
            = (Raise TypeError, w')
            /\ files w' !! signed_txt_path = Some content).
  { unfold generate_bitcoin_pdf_certificate.process_subfolder.
    fold result_folder_path. fold ots_file pdf_file.
    rewrite bind_apply. unfold path_exists at 1. rewrite Hots.
    rewrite bind_apply. unfold path_exists at 1. rewrite Hpdf. cbn [andb negb].
    rewrite bind_apply. fold started.
    replace (print (PStr ("Processing " +:+ subfolder +:+ "..")) w)
      with (Ok tt, started) by reflexivity.
    rewrite bind_apply.
    assert (Hshell : shell_keep env signed_txt_path) by (intros c; apply Hkeep).
    pose proof (proj2 (pdf_is_ots_done_frame env ots_file started) signed_txt_path Hshell)
      as Hk1.
    destruct (generate_bitcoin_pdf_certificate.is_ots_done env ots_file started)
      as [[done|e] w2]; cbn [fst snd] in Hdone, Hk1; [|discriminate Hdone].
    injection Hdone as ->.
    assert (Hsigned : Str.removesuffix ots_file ".ots" = signed_txt_path).
    { subst ots_file signed_txt_path. rewrite proof_path. by apply removesuffix_app. }
    rewrite Hsigned.
    destruct (pdf_get_ots_blockhash_frame env ots_file w2) as (text & w3 & Hhash & _ & Hk2).
    specialize (Hk2 signed_txt_path Hshell).
    assert (Hread : files w3 !! signed_txt_path = Some content).
    { rewrite Hk2, Hk1. exact Hfile. }
    rewrite bind_apply, bind_apply, Hhash.
    destruct (split_and_format_hash text) as [txid_1 txid_2].
    rewrite bind_apply. unfold generate.compute_sha256 at 1.
    rewrite bind_apply. unfold read_file at 1. rewrite Hread. unfold ret at 1.
    destruct (split_and_format_hash _) as [hash_1 hash_2].
    rewrite bind_apply. unfold generate.extract_property at 1.
    rewrite bind_apply. unfold read_file at 1. rewrite Hread. unfold ret at 1.
    rewrite bind_apply. unfold generate.extract_property at 1.
    rewrite bind_apply. unfold read_file at 1. rewrite Hread. unfold ret at 1.
    rewrite (search_property_absent content "Date of completion" Habsent).
    rewrite bind_apply. unfold generate.expect_str at 1, raise at 1.
    exists w3. by split. }
  destruct Hstep as (w' & Hstep & Hkept). exists w'. split_and!; try done.
  cbn [for_each]. rewrite bind_apply. by rewrite Hstep.
Qed.

Lemma process_subfolder_without_date_witness :
  exists w',
    generate_bitcoin_pdf_certificate.process_subfolder offline_env "r" "alice" undated_world
    = (Raise TypeError, w')
    /\ for_each ["alice"; "bob"]
         (generate_bitcoin_pdf_certificate.process_subfolder offline_env "r") undated_world
       = (Raise TypeError, w').
Proof.
  destruct (process_subfolder_without_date offline_env "r" "alice" "Display name: Alice"
              ["bob"] undated_world) as (w' & Hone & Hloop & _).
  - reflexivity.
  - reflexivity.
  - vm_compute. reflexivity.
  - intros cmd h fs. reflexivity.
  - reflexivity.
  - intros k. do 20 (destruct k as [|k]; [reflexivity|]). reflexivity.
  - by exists w'.
Defined.

(** ** A run of the plaintext generator over stamped work *)

Lemma for_each_quiet {A : Type} (Q : A -> World -> Prop) (body : A -> M unit)
    (l : list A) (w : World) :
  (forall x, disk_condition (Q x)) ->
  (forall x, quiet_on (Q x) (body x)) ->
  Forall (fun x => Q x w) l ->
  same_disk w (snd (for_each l body w)).
Proof.
  intros Hcond Hquiet. revert w.
  induction l as [|x l IH]; intros w Hall; [apply same_disk_refl|].
  apply Forall_cons in Hall as [Hx Hall].
  cbn [for_each]. unfold bind.
  pose proof (Hquiet x w Hx) as Hstep.
  destruct (body x w) as [[[]|e] w1]; cbn [snd] in Hstep; [|exact Hstep].
  eapply same_disk_trans; [exact Hstep|]. apply IH.
  eapply Forall_impl; [exact Hall|]. intros y Hy. by eapply Hcond.
Qed.

Lemma dir_entries_same (w w' : World) (d : string) :
  same_disk w w' -> dir_entries w' d = dir_entries w d.
Proof. intros (Hf & Hd & _). unfold dir_entries. by rewrite Hf, Hd. Qed.

Lemma is_dir_same (w w' : World) (p : string) :
  same_disk w w' -> is_dir w' p = is_dir w p.
Proof. intros (_ & Hd & _). unfold is_dir. by rewrite Hd. Qed.

Lemma stamped_results_same (edition_path : string) :
  disk_condition (stamped_results edition_path).
Proof.
  intros w w' Hsame H subfolder.
  rewrite (dir_entries_same _ _ _ Hsame), (is_dir_same _ _ _ Hsame),
    (exists_on_disk_same _ _ _ Hsame).
  apply H.
Qed.

Lemma process_edition_quiet (env : Env) (edition_path : string) :
  quiet_on (stamped_results edition_path)
    (generate_bitcoin_txt_certificate.process_edition env edition_path).
Proof.
  intros w Hstamped.
  unfold generate_bitcoin_txt_certificate.process_edition,
    generate_bitcoin_txt_certificate.load_yaml_file.
  rewrite bind_apply, bind_apply. unfold read_file at 1.
  destruct (files w !! path_join edition_path "bcert.yml") as [text|];
    [|apply same_disk_refl].
  unfold lift at 1.
  destruct (yaml_safe_load env text) as [edition_data|e]; [|apply same_disk_refl].
  rewrite bind_apply. unfold path_exists at 1.
  destruct (exists_on_disk w (path_join edition_path "results")); cbn [negb];
    [|by repeat split].
  rewrite bind_apply. unfold os_listdir at 1.
  destruct (is_dir w (path_join edition_path "results")); [|apply same_disk_refl].
  rewrite bind_apply, filterM_isdir.
  set (subfolders := py_sorted (List.filter _ _)).
  assert (Hloop : same_disk w
            (snd (for_each (py_sorted subfolders)
                    (generate_bitcoin_txt_certificate.process_result env edition_data
                       (path_join edition_path "results")) w))).
  { apply (for_each_quiet
             (fun subfolder w0 =>
                exists_on_disk w0
                  (path_join (path_join (path_join edition_path "results") subfolder)
                     "bitcoin_certificate-signed.txt.ots") = true)).
    - intros subfolder w0 w0' Hsame H. by rewrite (exists_on_disk_same _ _ _ Hsame).
    - intros subfolder. apply process_result_skips.
    - apply List.Forall_forall. intros subfolder Hin.
      apply In_py_sorted, In_py_sorted, filter_In in Hin as [Hin Hdir].
      by apply Hstamped. }
  destruct subfolders; [by repeat split|exact Hloop].
Qed.

(** X21. A run of the plaintext generator for exams over editions in
    which every result folder holds its timestamp proof signs and stamps
    nothing: no file is written, no directory made and no process run,
    whatever the results and the tools are. *)
Theorem process_all_editions_quiet (env : Env) (bcert_path : string) (w : World) :
  (forall edition_folder,
     In edition_folder (dir_entries w bcert_path) ->
     stamped_results (path_join bcert_path edition_folder) w) ->
  same_disk w (snd (generate_bitcoin_txt_certificate.process_all_editions env bcert_path w)).
Proof.
  intros Hstamped. unfold generate_bitcoin_txt_certificate.process_all_editions.
  rewrite bind_apply. unfold os_listdir at 1.
  destruct (is_dir w bcert_path); [|apply same_disk_refl].
  apply (for_each_quiet
           (fun edition_folder => stamped_results (path_join bcert_path edition_folder))).
  - intros edition_folder. apply stamped_results_same.
  - intros edition_folder w0 Hw0. rewrite bind_apply. unfold path_isdir at 1.
    destruct (is_dir w0 (path_join bcert_path edition_folder)); [|apply same_disk_refl].
    rewrite bind_apply. unfold print at 1.
    eapply same_disk_trans; [|apply process_edition_quiet].
    + by repeat split.
    + eapply stamped_results_same; [|exact Hw0]. by repeat split.
  - apply List.Forall_forall. intros edition_folder Hin.
    apply Hstamped. by apply In_py_sorted.
Qed.

(** ** Other ways to write a date *)

Lemma strptime_unpadded (y m d : Z) :
  valid_date y m d = true ->
  strptime (pad4 y +:+ "-" +:+ Z_to_str m +:+ "-" +:+ Z_to_str d)
  = Ok {| year := y; month := m; day := d |}.
Proof.
  intros H. destruct (valid_date_bounds _ _ _ H) as (Hy & Hm & Hd).
  unfold strptime.
  assert (Hp : hd_error (parse_Ymd (pad4 y +:+ "-" +:+ Z_to_str m +:+ "-" +:+ Z_to_str d))
               = Some (y, m, d, EmptyString)).
  { unfold parse_Ymd. rewrite parse_Y_pad4 by lia.
    enumerate m 1%Z 12; enumerate d 1%Z 31; vm_compute; reflexivity. }
  destruct (parse_Ymd _) as [|[[[y' m'] d'] rest] tl]; [done|].
  simpl in Hp. injection Hp as -> -> -> ->. by rewrite H.
Qed.

(** X22. [format_date] reads the month and the day written without a
    leading zero as well: the year in four digits, a dash, the month, a
    dash and the day give the same text as the padded form. *)
Theorem format_date_unpadded (y m d : Z) :
  valid_date y m d = true ->
  format_date (pad4 y +:+ "-" +:+ Z_to_str m +:+ "-" +:+ Z_to_str d)
  = format_date (iso_date y m d).
Proof.
  intros H. unfold format_date. by rewrite strptime_unpadded, strptime_iso.
Qed.

Lemma format_date_unpadded_witness :
  format_date "2024-1-4" = format_date "2024-01-04".
Proof. exact (format_date_unpadded 2024 1 4 eq_refl). Defined.

(** X23. [format_date] refuses a date in the form YYYY-MM-DD that is
    followed by anything, a time or a blank for instance, with
    [ValueError]. *)
Theorem format_date_trailing_text (y m d : Z) (c : ascii) (rest : string) :
  (0 <= y <= 9999)%Z -> (1 <= m <= 12)%Z -> (1 <= d <= 31)%Z ->
  format_date (iso_date y m d +:+ String c rest) = Raise ValueError.
Proof.
  intros Hy Hm Hd. unfold format_date, strptime.
  assert (Hp : hd_error (parse_Ymd (iso_date y m d +:+ String c rest))
               = Some (y, m, d, String c rest)).
  { unfold parse_Ymd, iso_date. rewrite !StrFacts.app_assoc.
    rewrite parse_Y_pad4 by lia.
    enumerate m 1%Z 12; enumerate d 1%Z 31; vm_compute; reflexivity. }
  destruct (parse_Ymd _) as [|[[[y' m'] d'] rest'] tl]; [done|].
  simpl in Hp. by injection Hp as -> -> -> ->.
Qed.

Lemma format_date_trailing_text_witness :
  format_date "2024-01-04T10:00" = Raise ValueError.
Proof.
  apply (format_date_trailing_text 2024 1 4 "T" "10:00"); lia.
Defined.

(** ** A pending folder with nothing to do *)

Lemma for_each_no_effect {A : Type} (l : list A) (body : A -> M unit) (w : World) :
  (forall x, In x l -> body x w = (Ok tt, w)) -> for_each l body w = (Ok tt, w).
Proof.
  induction l as [|x l IH]; intros H; [done|].
  cbn [for_each]. rewrite bind_apply, H by (by left).
  apply IH. intros y Hy. apply H. by right.
Qed.

(** X24. The course PDF orchestrator over a pending folder in which no
    name starts with [course_] and ends with [.ots] does nothing: no
    message, no process, no change. Without the pending folder it raises
    [FileNotFoundError]. *)
Theorem main_nothing_pending (env : Env) (w : World) :
  (is_dir w generate.pending_path = false ->
   generate.main env w = (Raise (FileNotFoundError generate.pending_path), w))
  /\ (is_dir w generate.pending_path = true ->
      (forall filename, In filename (dir_entries w generate.pending_path) ->
         Str.startswith filename "course_" && Str.endswith filename ".ots" = false) ->
      generate.main env w = (Ok tt, w)).
Proof.
  unfold generate.main. split.
  - intros Hdir. rewrite bind_apply. unfold os_listdir. by rewrite Hdir.
  - intros Hdir Hnames. rewrite bind_apply. unfold os_listdir at 1. rewrite Hdir.
    apply for_each_no_effect. intros filename Hin.
    unfold generate.process_filename. rewrite Hnames; [done|]. by apply In_py_sorted.
Qed.

Lemma main_nothing_pending_witness :
  generate.main immature_env backup_world
  = (Raise (FileNotFoundError generate.pending_path), backup_world)
  /\ generate.main immature_env idle_world = (Ok tt, idle_world).
Proof.
  split.
  - apply (proj1 (main_nothing_pending immature_env backup_world)). reflexivity.
  - apply (proj2 (main_nothing_pending immature_env idle_world)); [reflexivity|].
    intros filename Hin. vm_compute in Hin.
    destruct Hin as [<-|[<-|[]]]; reflexivity.
Defined.

(** ** Witnesses *)

Lemma course_certificate_is_picked_up_witness :
  exists earlier,
    history (snd (generate_course_txt_certificate.generate_certificate
                    course_env "alice" "Alice" "btc101" course_world))
    = earlier
      ++ [Shell (sign_command "../pending/course_certificate_alice_btc101-signed.txt"
                   "../pending/course_certificate_alice_btc101.txt");
          Shell (timestamp_command "../pending/course_certificate_alice_btc101-signed.txt")].
Proof.
  refine (proj1 (course_certificate_is_picked_up course_env "alice" "Alice" "btc101"
                   course_world _ _)).
  vm_compute. reflexivity.
Defined.

Lemma compile_tex_to_pdf_cleans_up_witness :
  exists (compiled : bool) (w' : World),
    generate.compile_tex_to_pdf mature_env "../pending/course_alice-signed.tex"
      reissued_world = (Ok compiled, w')
    /\ dirs w' = dirs reissued_world.
Proof.
  destruct (compile_tex_to_pdf_cleans_up mature_env "../pending/course_alice-signed.tex"
              reissued_world) as (compiled & w' & Hrun & Hdirs & _).
  - repeat constructor.
  - by exists compiled, w'.
Defined.

Lemma process_result_below_threshold_witness :
  exists w',
    generate_bitcoin_txt_certificate.process_result bob_env edition "r" "bob" bob_world
    = (Ok tt, w')
    /\ same_disk bob_world w'.
Proof.
  destruct (process_result_below_threshold bob_env edition "r" "bob" bob_yaml
              bob_result bob_scores bob_world)
    as (w' & Hrun & Hsame & _); try reflexivity.
  by exists w'.
Defined.

Lemma process_all_editions_quiet_witness :
  same_disk stamped_world
    (snd (generate_bitcoin_txt_certificate.process_all_editions
            (working_env (bitcoin_unsigned "e/one/results/alice")) "e" stamped_world)).
Proof.
  apply (process_all_editions_quiet (working_env (bitcoin_unsigned "e/one/results/alice"))
           "e" stamped_world).
  intros edition_folder Hin. vm_compute in Hin. destruct Hin as [<-|[]].
  intros subfolder Hsub _. vm_compute in Hsub. destruct Hsub as [<-|[]].
  reflexivity.
Defined.

(** ** A document of a failed compilation *)

Lemma dir_entries_names (w : World) (d name : string) :
  In name (dir_entries w d) ->
  name <> EmptyString /\ existsb (Ascii.eqb slash) (Str.chars name) = false.
Proof.
  unfold dir_entries. intros Hin.
  eapply Permutation_in in Hin; [|apply merge_sort_Permutation].
  apply list_elem_of_In, elem_of_remove_dups, list_elem_of_omap in Hin
    as (p & _ & Hchild).
  unfold child_name in Hchild.
  destruct (Str.prefix _ p); [|discriminate Hchild].
  cbv zeta in Hchild.
  destruct (String.eqb_spec (Str.drop (String.length (if Str.endswith d "/" then d else d +:+ "/")) p)
              EmptyString) as [|Hne]; [discriminate Hchild|].
  cbn [orb] in Hchild.
  destruct (existsb _ _) eqn:Hslash; [discriminate Hchild|].
  injection Hchild as <-. by split.
Qed.

Lemma path_join_entry (w : World) (d name : string) :
  In name (dir_entries w d) ->
  path_join d name
  = (if String.eqb d EmptyString || Str.endswith d "/" then d else d +:+ "/") +:+ name.
Proof.
  intros Hin. destruct (dir_entries_names w d name Hin) as [Hne Hslash].
  destruct name as [|c name]; [done|].
  apply path_join_relative. cbn [Str.chars existsb] in Hslash.
  apply orb_false_iff in Hslash as [Hc _]. intros ->. by rewrite Ascii.eqb_refl in Hc.
Qed.

(** X26. The PDF orchestrator for exams publishes the document of a
    failed compilation. For a result folder whose proof is mature and
    whose signed text carries a valid date: when the first pass of
    [lualatex] writes the document and exits with a non-zero status (so
    that [compile_tex_to_pdf] returns [False]), the orchestrator still
    finds the document in the pending folder and moves it into the result
    folder as the certificate; the later test of the gate then finds the
    folder finished. *)
Theorem process_subfolder_publishes_failed_compile (env : Env)
    (result_folder subfolder content completion date template doc : string) (w : World) :
  let result_folder_path := path_join result_folder subfolder in
  let ots_file := path_join result_folder_path "bitcoin_certificate-signed.txt.ots" in
  let pdf_file := path_join result_folder_path "bitcoin_certificate-signed.pdf" in
  let signed_txt_path := path_join result_folder_path "bitcoin_certificate-signed.txt" in
  let tex_template_path := "../templates/pbn_bitcoin_certificate.tex" in
  let temp_tex_path := "../pending/bitcoin_certificate-signed.tex" in
  let temp_pdf_path := "../pending/bitcoin_certificate-signed.pdf" in
  let started := snd (print (PStr ("Processing " +:+ subfolder +:+ "..")) w) in
  exists_on_disk w ots_file = true ->
  exists_on_disk w pdf_file = false ->
  is_dir w result_folder_path = true ->
  is_dir w temp_tex_path = false ->
  is_dir w temp_pdf_path = false ->
  fst (generate_bitcoin_pdf_certificate.is_ots_done env ots_file started) = Ok true ->
  shell_keep env signed_txt_path ->
  shell_keep env tex_template_path ->
  writes_and_fails env (generate.lualatex temp_tex_path "../pending") temp_pdf_path doc ->
  move_error env temp_pdf_path pdf_file = None ->
  files w !! signed_txt_path = Some content ->
  generate.search_property content "Date of completion" = Some completion ->
  format_date completion = Ok date ->
  files w !! tex_template_path = Some template ->
  exists w',
    generate_bitcoin_pdf_certificate.process_subfolder env result_folder subfolder w
    = (Ok tt, w')
    /\ files w' !! pdf_file = Some doc
    /\ exists_on_disk w' pdf_file = true.
Proof.
  intros result_folder_path ots_file pdf_file signed_txt_path tex_template_path
    temp_tex_path temp_pdf_path started
    Hots Hpdf Hfolder Htexdir Hpdfdir Hdone Hsigned Htemplate Hpass Hmove
    Hfile Hdate Hformat Htpl.
  assert (Htarget : is_dir w pdf_file = false /\ files w !! pdf_file = None).
  { unfold exists_on_disk, is_file in Hpdf. apply orb_false_iff in Hpdf as [Hf Hd].
    split; [exact Hd|]. apply bool_decide_eq_false in Hf.
    destruct (files w !! pdf_file) eqn:E; [|done]. exfalso. apply Hf. by eexists. }
  destruct Htarget as [Htargetdir Htargetfile].
  assert (Hstep : exists w',
            generate_bitcoin_pdf_certificate.process_subfolder env result_folder subfolder w
            = (Ok tt, w')
            /\ files w' !! pdf_file = Some doc /\ dirs w' = dirs w).
  { unfold generate_bitcoin_pdf_certificate.process_subfolder.
    fold result_folder_path. fold ots_file pdf_file.
    rewrite bind_apply. unfold path_exists at 1. rewrite Hots.
    rewrite bind_apply. unfold path_exists at 1. rewrite Hpdf. cbn [andb negb].
    rewrite bind_apply. fold started.
    replace (print (PStr ("Processing " +:+ subfolder +:+ "..")) w)
      with (Ok tt, started) by reflexivity.
    rewrite bind_apply.
    destruct (pdf_is_ots_done_frame env ots_file started) as [Hd1 Hk1].
    destruct (generate_bitcoin_pdf_certificate.is_ots_done env ots_file started)
      as [[done|e] w2]; cbn [fst snd] in Hdone, Hd1, Hk1; [|discriminate Hdone].
    injection Hdone as ->.
    assert (Hpath : Str.removesuffix ots_file ".ots" = signed_txt_path).
    { subst ots_file signed_txt_path. rewrite proof_path. by apply removesuffix_app. }
    rewrite Hpath.
    destruct (pdf_get_ots_blockhash_frame env ots_file w2) as (text & w3 & Hhash & Hd2 & Hk2).
    assert (Hread : files w3 !! signed_txt_path = Some content).
    { rewrite Hk2, Hk1 by done. exact Hfile. }
    assert (Hreadtpl : files w3 !! tex_template_path = Some template).
    { rewrite Hk2, Hk1 by done. exact Htpl. }
    assert (Hdirs3 : dirs w3 = dirs w) by (by rewrite Hd2, Hd1).
    rewrite bind_apply, bind_apply, Hhash.
    destruct (split_and_format_hash text) as [txid_1 txid_2].
    rewrite bind_apply. unfold generate.compute_sha256 at 1.
    rewrite bind_apply. unfold read_file at 1. rewrite Hread. unfold ret at 1.
    destruct (split_and_format_hash _) as [hash_1 hash_2].
    rewrite bind_apply. unfold generate.extract_property at 1.
    rewrite bind_apply. unfold read_file at 1. rewrite Hread. unfold ret at 1.
    rewrite bind_apply. unfold generate.extract_property at 1.
    rewrite bind_apply. unfold read_file at 1. rewrite Hread. unfold ret at 1.
    rewrite Hdate.
    rewrite bind_apply. unfold generate.expect_str at 1, ret at 1.
    rewrite bind_apply. unfold lift at 1. rewrite Hformat.
    change (path_join "../pending" "bitcoin_certificate-signed.tex") with temp_tex_path.
    change (path_join "../pending" "bitcoin_certificate-signed.pdf") with temp_pdf_path.
    rewrite bind_apply. unfold generate.modify_and_save_tex at 1.
    rewrite bind_apply. unfold read_file at 1. fold tex_template_path. rewrite Hreadtpl.
    unfold write_file at 1.
    assert (is_dir w3 temp_tex_path = false) as -> by (unfold is_dir in *; by rewrite Hdirs3).
    set (rendered := generate.replace_placeholders template _).
    set (w4 := set_files (insert temp_tex_path rendered) w3).
    rewrite bind_apply.
    unfold generate_bitcoin_pdf_certificate.compile_tex_to_pdf at 1, try_except.
    change (dirname temp_tex_path) with "../pending".
    rewrite bind_apply, two_passes. cbv zeta.
    destruct (Hpass (history w4) (files w4)) as [Hrc Hwritten].
    destruct (Z.eqb_spec
                (returncode (fst (run_process env
                   (generate.lualatex temp_tex_path "../pending") (history w4) (files w4)))) 0)
      as [Hzero|_]; [done|].
    lazy beta iota. cbn [on_CalledProcessError].
    rewrite bind_apply. unfold print at 1. unfold ret at 1.
    rewrite Hwritten.
    rewrite bind_apply. unfold path_exists at 1.
    unfold exists_on_disk at 1, is_file at 1. cbn [files after_process].
    rewrite lookup_insert_eq. rewrite bool_decide_eq_true_2 by done. cbn [orb].
    fold pdf_file.
    rewrite bind_apply. unfold shutil_move at 1. rewrite Hmove.
    match goal with |- context [is_dir ?w0 pdf_file] =>
      assert (is_dir w0 pdf_file = false) as ->
        by (unfold is_dir in *; unfold w4; cbn [dirs after_process set_files];
            by rewrite Hdirs3)
    end.
    cbn [andb files]. rewrite lookup_insert_eq.
    rewrite bind_apply. unfold print at 1.
    set (w7 := {| files := _; dirs := _; console := _; history := _ |}).
    assert (Hdirs7 : dirs w7 = dirs w) by (subst w7 w4; cbn; exact Hdirs3).
    assert (Hfiles7 : files w7 !! pdf_file = Some doc).
    { subst w7. cbn [files set_files]. apply lookup_insert_eq. }
    unfold generate_bitcoin_pdf_certificate.clean_bak_files.
    rewrite bind_apply. unfold os_listdir at 1.
    assert (is_dir w7 result_folder_path = true) as ->
      by (unfold is_dir in *; by rewrite Hdirs7).
    destruct (clean_loop env result_folder_path (dir_entries w7 result_folder_path) w7)
      as (w8 & Hloop & Hf8 & Hd8 & Hh8).
    lazy beta iota. cbv zeta in Hloop. rewrite Hloop. unfold print.
    eexists. split; [reflexivity|]. cbn [files dirs]. split; [|by rewrite Hd8].
    rewrite Hf8. rewrite (proj2 (lookup_foldr_delete _ _ _)); [exact Hfiles7|].
    intros Hin. apply in_rev in Hin. apply in_map_iff in Hin as (file & Heq & Hin).
    apply filter_In in Hin as [Hin Hbak].
    subst pdf_file. rewrite (path_join_entry _ _ _ Hin) in Heq.
    rewrite path_join_relative in Heq by done.
    apply String.app_inj in Heq. subst file. discriminate Hbak. }
  destruct Hstep as (w' & Hrun & Hdoc & Hdirs). exists w'. split_and!; try done.
  unfold exists_on_disk, is_file. rewrite Hdoc.
  by rewrite bool_decide_eq_true_2.
Qed.

Lemma process_subfolder_publishes_failed_compile_witness :
  exists w',
    generate_bitcoin_pdf_certificate.process_subfolder faulty_latex_env "r" "alice"
      dated_world = (Ok tt, w')
    /\ files w' !! "r/alice/bitcoin_certificate-signed.pdf" = Some "%PDF with errors".
Proof.
  destruct (process_subfolder_publishes_failed_compile faulty_latex_env "r" "alice"
              ("Display name: Alice" +:+ newline +:+ "Date of completion: 2024-01-04")
              "2024-01-04" "4th January, 2024" "\name{{fullname}}" "%PDF with errors"
              dated_world) as (w' & Hrun & Hdoc & _).
  - reflexivity.
  - reflexivity.
  - reflexivity.
  - reflexivity.
  - reflexivity.
  - vm_compute. reflexivity.
  - intros c hist fs. reflexivity.
  - intros c hist fs. reflexivity.
  - intros hist fs. split; [vm_compute; discriminate|reflexivity].
  - reflexivity.
  - reflexivity.
  - vm_compute. reflexivity.
  - vm_compute. reflexivity.
  - reflexivity.
  - exists w'. split; [exact Hrun|exact Hdoc].
Defined.

(** ** A course certificate that does not compile *)

Lemma get_ots_blockhash_frame (env : Env) (ots_file_path : string) (w : World) :
  exists (text : string) (w' : World),
    generate.get_ots_blockhash env ots_file_path w = (Ok text, w')
    /\ dirs w' = dirs w
    /\ forall q, shell_keep env q -> files w' !! q = files w !! q.
Proof.
  unfold generate.get_ots_blockhash, try_except, bind, subprocess_run, print, raise, ret.
  cbn [history files].
  set (upgrade := bitcoin_node_command _ "upgrade" ots_file_path).
  set (verify := bitcoin_node_command _ "verify" ots_file_path).
  assert (H1 : forall q, shell_keep env q ->
            snd (run_process env (Shell upgrade) (history w) (files w)) !! q = files w !! q)
    by (intros q Hq; apply Hq).
  destruct (run_process env (Shell upgrade) (history w) (files w)) as [up files1].
  cbn [snd] in H1.
  destruct (returncode up =? 0)%Z;
    [|eexists _, _; split; [reflexivity|]; cbn; by split].
  cbn [history files].
  assert (H2 : forall q, shell_keep env q ->
            snd (run_process env (Shell verify) (history w ++ [Shell upgrade]) files1) !! q
            = files1 !! q)
    by (intros q Hq; apply Hq).
  destruct (run_process env (Shell verify) _ files1) as [ver files2]. cbn [snd] in H2.
  destruct (returncode ver =? 0)%Z;
    [|eexists _, _; split; [reflexivity|]; cbn; split; [done|];
      intros q Hq; rewrite H2, H1 by done; done].
  cbn [history files].
  destruct (re_search match_block_height (stderr ver)) as [g|];
    [|eexists _, _; split; [reflexivity|]; cbn; split; [done|];
      intros q Hq; rewrite H2, H1 by done; done].
  cbn [history files].
  match goal with |- context [run_process env ?c ?h files2] =>
    assert (H3 : forall q, shell_keep env q -> snd (run_process env c h files2) !! q
                                               = files2 !! q)
      by (intros q Hq; apply Hq);
    destruct (run_process env c h files2) as [hdr files3]
  end.
  cbn [snd] in H3.
  destruct (returncode hdr =? 0)%Z; eexists _, _; (split; [reflexivity|]); cbn;
    (split; [done|]); intros q Hq; rewrite H3, H2, H1 by done; done.
Qed.

Lemma tools_idle_keep (env : Env) (q : string) : tools_idle env -> shell_keep env q.
Proof. intros H c hist fs. by rewrite H. Qed.

(** [move_files_to_final] on three separate files. *)
Lemma move_files_to_final_run (env : Env)
    (pathfile signed_txt_path pdf_path : string) (w : World) :
  separate_files w pathfile signed_txt_path pdf_path ->
  exists (r : bool) (w' : World),
    generate.move_files_to_final env pathfile signed_txt_path pdf_path w = (Ok r, w')
    /\ (~ move_fails env w pathfile pathfile -> moved_or_warned pathfile pathfile w w')
    /\ (~ move_fails env w pathfile pathfile ->
        ~ move_fails env w pathfile signed_txt_path ->
        moved_or_warned pathfile signed_txt_path w w')
    /\ (~ move_fails env w pathfile pathfile ->
        ~ move_fails env w pathfile signed_txt_path ->
        ~ move_fails env w pathfile pdf_path ->
        moved_or_warned pathfile pdf_path w w').
Proof.
  intros [Hfinal Hsrc Hdst Hdd Hsd].
  apply Forall_cons in Hsrc as [Ha Hsrc]. apply Forall_cons in Hsrc as [Hb Hsrc].
  apply Forall_cons in Hsrc as [Hc _].
  apply Forall_cons in Hdst as [Hda Hdst]. apply Forall_cons in Hdst as [Hdb Hdst].
  apply Forall_cons in Hdst as [Hdc _].
  destruct Hdd as (Hab & Hac & Hbc). destruct Hsd as (H1 & H2 & H3 & H4 & H5 & H6).
  assert (Hsab : pathfile <> signed_txt_path) by (intros ->; done).
  assert (Hsac : pathfile <> pdf_path) by (intros ->; done).
  assert (Hsbc : signed_txt_path <> pdf_path) by (intros ->; done).
  unfold generate.move_files_to_final.
  unfold bind at 1. unfold makedirs.
  fold (final_dir_of pathfile). rewrite Hfinal.
  fold (with_final_dir pathfile w).
  destruct (move_loop env (with_final_dir pathfile w) pathfile signed_txt_path pdf_path
              (destination pathfile pathfile) (destination pathfile signed_txt_path)
              (destination pathfile pdf_path) (files w) eq_refl
              Ha Hb Hc Hda Hdb Hdc Hsab Hsac Hsbc Hab Hac Hbc H1 H2 H3 H4 H5 H6)
    as (r & w' & Hrun & _ & Hfirst & Hsecond & Hthird & _).
  exists r, w'. by split_and!.
Qed.

Lemma separate_files_later (w w' : World) (pathfile signed_txt_path pdf_path : string) :
  dirs w' = dirs w ->
  files w' !! final_dir_of pathfile = None ->
  separate_files w pathfile signed_txt_path pdf_path ->
  separate_files w' pathfile signed_txt_path pdf_path.
Proof.
  intros Hdirs Hfinal [_ Hsrc Hdst Hdd Hsd]. split; try done.
  - rewrite is_file_lookup. by rewrite Hfinal.
  - eapply Forall_impl; [exact Hsrc|]. intros p Hp. unfold is_dir, with_final_dir in *.
    cbn [dirs] in *. by rewrite Hdirs.
  - eapply Forall_impl; [exact Hdst|]. intros p Hp. unfold is_dir, with_final_dir in *.
    cbn [dirs] in *. by rewrite Hdirs.
Qed.

(** X27. The course PDF orchestrator archives a certificate whose
    document was not produced. For a pending proof that is mature, with a
    signed text that carries a course name and a valid date: when
    [lualatex] exits with a non-zero status and writes nothing,
    [compile_tex_to_pdf] returns [False], the result is not looked at,
    and the proof and the signed text are moved to the archive all the
    same; for the document there is only the warning that it was not
    found. *)
Theorem process_filename_archives_without_document (env : Env)
    (filename proof content course_name completion date template : string) (w : World) :
  let pathfile := path_join generate.pending_path filename in
  let signed_txt_path := Str.removesuffix pathfile ".ots" in
  let tex_filepath := Str.replace signed_txt_path ".txt" ".tex" in
  let pdf_filepath := Str.replace signed_txt_path ".txt" ".pdf" in
  let tex_template_path := "../templates/pbn_course_certificate.tex" in
  let started := snd (print (PStr pathfile) w) in
  Str.startswith filename "course_" && Str.endswith filename ".ots" = true ->
  fst (generate.is_ots_done env pathfile started) = Ok true ->
  tools_idle env ->
  (forall hist fs,
     returncode (fst (run_process env
                        (generate.lualatex tex_filepath (dirname tex_filepath)) hist fs))
     <> 0%Z) ->
  (forall src dst, move_error env src dst = None) ->
  files w !! pathfile = Some proof ->
  files w !! signed_txt_path = Some content ->
  files w !! pdf_filepath = None ->
  files w !! tex_template_path = Some template ->
  generate.search_property content "Course name" = Some course_name ->
  generate.search_property content "Date of completion" = Some completion ->
  format_date completion = Ok date ->
  is_dir w tex_filepath = false ->
  separate_files w pathfile signed_txt_path pdf_filepath ->
  tex_filepath <> pathfile -> tex_filepath <> signed_txt_path ->
  tex_filepath <> pdf_filepath -> tex_filepath <> final_dir_of pathfile ->
  exists w',
    generate.process_filename env filename w = (Ok tt, w')
    /\ files w' !! destination pathfile pathfile = Some proof
    /\ files w' !! destination pathfile signed_txt_path = Some content
    /\ (pathfile <> destination pathfile pathfile -> files w' !! pathfile = None)
    /\ In (PStr ("Warning: File not found: " +:+ pdf_filepath)) (console w').
Proof.
  intros pathfile signed_txt_path tex_filepath pdf_filepath tex_template_path started
    Hname Hdone Hidle Hfail Hmove Hproof Hfile Hnopdf Htpl Hcourse Hdate Hformat
    Htexdir Hsep Ht1 Ht2 Ht3 Ht4.
  unfold generate.process_filename. rewrite Hname.
  fold pathfile. rewrite bind_apply. fold started.
  replace (print (PStr pathfile) w) with (Ok tt, started) by reflexivity.
  rewrite bind_apply.
  destruct (is_ots_done_run env pathfile started) as (b & w2 & Hrun & _ & Hd2 & _ & Hf2).
  rewrite Hrun in Hdone |- *. cbn [fst] in Hdone. injection Hdone as ->.
  rewrite !Hidle in Hf2.
  assert (Hfiles2 : files w2 = files w) by (by destruct (_ =? _)%Z).
  assert (Hdirs2 : dirs w2 = dirs w) by exact Hd2.
  clear Hf2 Hd2 Hrun.
  fold signed_txt_path.
  destruct (get_ots_blockhash_frame env pathfile w2) as (text & w3 & Hhash & Hd3 & Hk3).
  assert (Hlook : forall q, files w3 !! q = files w !! q).
  { intros q. rewrite Hk3 by (by apply tools_idle_keep). by rewrite Hfiles2. }
  assert (Hdirs3 : dirs w3 = dirs w) by (by rewrite Hd3).
  rewrite bind_apply, Hhash.
  destruct (split_and_format_hash text) as [txid_1 txid_2].
  rewrite bind_apply. unfold generate.compute_sha256 at 1.
  rewrite bind_apply. unfold read_file at 1. rewrite Hlook, Hfile. unfold ret at 1.
  destruct (split_and_format_hash _) as [hash_1 hash_2].
  rewrite bind_apply; unfold generate.extract_property at 1;
    rewrite bind_apply; unfold read_file at 1; rewrite Hlook, Hfile; unfold ret at 1.
  rewrite Hcourse.
  rewrite bind_apply. unfold generate.expect_str at 1, ret at 1.
  destruct (split_and_format_coursename course_name) as [course_name_1 course_name_2].
  do 2 (rewrite bind_apply; unfold generate.extract_property at 1;
        rewrite bind_apply; unfold read_file at 1; rewrite Hlook, Hfile; unfold ret at 1).
  rewrite Hdate.
  rewrite bind_apply. unfold generate.expect_str at 1, ret at 1.
  rewrite bind_apply. unfold lift at 1. rewrite Hformat.
  do 2 (rewrite bind_apply; unfold generate.extract_property at 1;
        rewrite bind_apply; unfold read_file at 1; rewrite Hlook, Hfile; unfold ret at 1).
  rewrite bind_apply. unfold print at 1.
  fold tex_filepath pdf_filepath.
  rewrite bind_apply. unfold generate.modify_and_save_tex at 1.
  rewrite bind_apply. unfold read_file at 1. cbn [files]. fold tex_template_path.
  rewrite Hlook, Htpl. unfold write_file at 1.
  match goal with |- context [is_dir ?w0 tex_filepath] =>
    assert (is_dir w0 tex_filepath = false) as ->
      by (rewrite (is_dir_same_dirs w w0) by exact Hdirs3; exact Htexdir)
  end.
  set (rendered := generate.replace_placeholders template _).
  rewrite bind_apply. unfold print at 1.
  rewrite bind_apply.
  unfold generate.compile_tex_to_pdf at 1, try_except.
  rewrite bind_apply, two_passes. cbv zeta.
  match goal with |- context [run_process env ?c ?h ?fs] =>
    pose proof (Hfail h fs) as Hrc; pose proof (Hidle c h fs) as Hsame;
    destruct (run_process env c h fs) as [r1 files1] eqn:Hfirst
  end.
  cbn [fst snd] in Hrc, Hsame |- *.
  destruct (Z.eqb_spec (returncode r1) 0) as [Hzero|_]; [done|].
  lazy beta iota. cbn [on_CalledProcessError].
  rewrite bind_apply. unfold print at 1. unfold ret at 1.
  rewrite bind_apply. unfold print at 1.
  set (w6 := {| files := _; dirs := _; console := _; history := _ |}).
  assert (Hdirs6 : dirs w6 = dirs w) by (subst w6; cbn; exact Hdirs3).
  assert (Hlook6 : forall q, q <> tex_filepath -> files w6 !! q = files w !! q).
  { intros q Hq. subst w6. cbn [files after_process set_files]. rewrite Hsame.
    cbn [files set_files]. rewrite lookup_insert_ne by congruence. apply Hlook. }
  assert (Hsep6 : separate_files w6 pathfile signed_txt_path pdf_filepath).
  { apply (separate_files_later w); [exact Hdirs6| |exact Hsep].
    rewrite Hlook6 by congruence. destruct Hsep as [Hfinal _ _ _ _].
    rewrite is_file_lookup in Hfinal. by destruct (files w !! final_dir_of pathfile). }
  destruct (move_files_to_final_run env pathfile signed_txt_path pdf_filepath w6 Hsep6)
    as (moved & w7 & Hmoved & Hfirstfile & Hsecondfile & Hthirdfile).
  assert (Hnofail : forall p, ~ move_fails env w6 pathfile p).
  { intros p [_ [e He]]. by rewrite Hmove in He. }
  specialize (Hfirstfile (Hnofail _)).
  specialize (Hsecondfile (Hnofail _) (Hnofail _)).
  specialize (Hthirdfile (Hnofail _) (Hnofail _) (Hnofail _)).
  unfold moved_or_warned in Hfirstfile, Hsecondfile, Hthirdfile.
  rewrite Hlook6, Hproof in Hfirstfile by congruence.
  rewrite Hlook6, Hfile in Hsecondfile by congruence.
  rewrite Hlook6, Hnopdf in Hthirdfile by congruence.
  rewrite bind_apply, Hmoved. unfold print.
  eexists. split; [reflexivity|]. cbn [files console].
  destruct Hfirstfile as [Hthere Hgone]. destruct Hsecondfile as [Hthere2 _].
  split_and!; try done. apply in_or_app. by left.
Qed.

Lemma process_filename_archives_without_document_witness :
  exists w',
    generate.process_filename no_latex_env "course_alice-signed.txt.ots" uncompiled_world
    = (Ok tt, w')
    /\ files w' !! "../final/course_alice-signed.txt.ots" = Some "proof"
    /\ files w' !! "../final/course_alice-signed.txt" = Some course_text
    /\ files w' !! "../pending/course_alice-signed.txt.ots" = None.
Proof.
  destruct (process_filename_archives_without_document no_latex_env
              "course_alice-signed.txt.ots" "proof" course_text "Bitcoin Basics"
              "2024-01-04" "4th January, 2024" "\name{{fullname}} \date{{date}}"
              uncompiled_world) as (w' & Hrun & Hproof & Hsigned & Hgone & _).
  - reflexivity.
  - vm_compute. reflexivity.
  - intros cmd hist fs. reflexivity.
  - intros hist fs. vm_compute. discriminate.
  - intros src dst. reflexivity.
  - vm_compute. reflexivity.
  - vm_compute. reflexivity.
  - vm_compute. reflexivity.
  - vm_compute. reflexivity.
  - vm_compute. reflexivity.
  - vm_compute. reflexivity.
  - vm_compute. reflexivity.
  - vm_compute. reflexivity.
  - split.
    + vm_compute. reflexivity.
    + repeat constructor.
    + repeat constructor.
    + repeat split; by_computation.
    + repeat split; by_computation.
  - by_computation.
  - by_computation.
  - by_computation.
  - by_computation.
  - exists w'. split_and!; [exact Hrun|exact Hproof|exact Hsigned|].
    apply Hgone. by_computation.
Defined.

(** ** A signature that fails *)

Lemma yaml_get_not_called (d : yaml) (key : string) (default : yaml) (e : exn) :
  yaml_get d key default = Raise e -> is_called e = false.
Proof. destruct d; simpl; intros H; by inversion H. Qed.

Lemma yaml_item_not_called (d : yaml) (key : string) (e : exn) :
  yaml_item d key = Raise e -> is_called e = false.
Proof.
  destruct d as [| | | | |l]; simpl; intros H; try (by inversion H).
  destruct (assoc key l); by inversion H.
Qed.

Lemma yaml_contains_not_called (d : yaml) (key : string) (e : exn) :
  yaml_contains d key = Raise e -> is_called e = false.
Proof. destruct d; simpl; intros H; by inversion H. Qed.

Lemma yaml_sum_values_not_called (d : yaml) (e : exn) :
  yaml_sum_values d = Raise e -> is_called e = false.
Proof.
  destruct d as [| | | | |l]; simpl; try (intros H; by inversion H).
  assert (Hfold : forall (acc : res Z),
            (forall e0, acc = Raise e0 -> is_called e0 = false) ->
            fold_left
              (fun acc kv =>
                 match acc, snd kv with
                 | Ok n, YInt z => Ok (n + z)%Z
                 | Ok n, YBool b => Ok (n + (if b then 1 else 0))%Z
                 | Ok _, _ => Raise TypeError
                 | Raise e, _ => Raise e
                 end) l acc = Raise e -> is_called e = false).
  { induction l as [|[k v] l IH]; intros acc Hacc; cbn [fold_left snd].
    - apply Hacc.
    - apply IH. intros e0. destruct acc as [n|e1]; [|apply Hacc].
      destruct v; intros H; by inversion H. }
  apply Hfold. intros e0 H. discriminate H.
Qed.

Lemma get_total_score_not_called (result_data : yaml) (w w' : World) (e : exn) :
  generate_bitcoin_txt_certificate.get_total_score result_data w = (Raise e, w') ->
  is_called e = false.
Proof.
  unfold generate_bitcoin_txt_certificate.get_total_score, bind, lift, print, ret.
  destruct (yaml_contains result_data "categories") as [[|]|e0] eqn:Hc; cbn [negb].
  - destruct (yaml_item result_data "categories") as [categories|e1] eqn:Hi.
    + destruct (yaml_sum_values categories) as [total|e2] eqn:Hs; intros H; inversion H.
      subst. by eapply yaml_sum_values_not_called.
    + intros H; inversion H. subst. by eapply yaml_item_not_called.
  - intros H; inversion H.
  - intros H; inversion H. subst. by eapply yaml_contains_not_called.
Qed.

Lemma get_latest_block_header_returns (env : Env) (label : bool) (w : World) :
  exists (text : string) (w' : World),
    get_latest_block_header env label w = (Ok text, w').
Proof.
  unfold get_latest_block_header, try_except, bind, subprocess_run, print, ret.
  cbn [history files].
  destruct (run_process env _ (history w) (files w)) as [first files1].
  destruct (returncode first =? 0)%Z; [|by eexists _, _].
  cbn [history files].
  destruct (run_process env _ _ files1) as [second files2].
  destruct (returncode second =? 0)%Z; by eexists _, _.
Qed.

Lemma bind_Raise_inv {A B : Type} (m : M A) (k : A -> M B) (w w' : World) (e : exn) :
  bind m k w = (Raise e, w') ->
  m w = (Raise e, w') \/ exists a w1, m w = (Ok a, w1) /\ k a w1 = (Raise e, w').
Proof.
  unfold bind. destruct (m w) as [[a|e0] w1]; intros H.
  - right. by exists a, w1.
  - left. by inversion H.
Qed.

Lemma lift_Raise {A : Type} (r : res A) (w w' : World) (e : exn) :
  lift r w = (Raise e, w') -> r = Raise e.
Proof. unfold lift. intros H. by inversion H. Qed.

(** Takes the first step off a computation that is known to raise; the
    case that the step itself raises is left to [tac]. *)
Tactic Notation "advance" hyp(H) "as" ident(a) ident(w1) ident(Hm) "by" tactic(tac) :=
  apply bind_Raise_inv in H as [H|(a & w1 & Hm & H)]; [exfalso; tac|].

(** X28. When [generate_certificate] of the plaintext generator for
    exams fails with the [CalledProcessError] of its [gpg] command, the
    unsigned certificate text it wrote is left on disk (as far as [gpg]
    leaves it alone): nothing removes it, and [ots stamp] is not run,
    [gpg] being the last process started. *)
Theorem generate_certificate_signing_fails (env : Env) (edition_data result_data : yaml)
    (result_folder_path : string) (rc : Z) (w w' : World) :
  let unsigned := path_join result_folder_path "bitcoin_certificate.txt" in
  let gpg := Shell (sign_command (signed_name unsigned) unsigned) in
  (forall template kwargs e, str_format env template kwargs = Raise e -> is_called e = false) ->
  shell_keep env unsigned ->
  generate_bitcoin_txt_certificate.generate_certificate
    env edition_data result_data result_folder_path w
  = (Raise (CalledProcessError gpg rc), w') ->
  is_Some (files w' !! unsigned)
  /\ (exists earlier, history w' = earlier ++ [gpg])
  /\ rc <> 0%Z.
Proof.
  intros unsigned gpg Hformat Hkeep H.
  unfold generate_bitcoin_txt_certificate.generate_certificate in H.
  advance H as u0 w0 H0 by (discriminate H).
  advance H as username w1 H1
    by (apply lift_Raise, yaml_get_not_called in H; discriminate H).
  advance H as fullname w2 H2
    by (apply lift_Raise, yaml_get_not_called in H; discriminate H).
  advance H as total_score w3 H3
    by (apply get_total_score_not_called in H; discriminate H).
  advance H as exam_id w4 H4
    by (apply lift_Raise, yaml_get_not_called in H; discriminate H).
  advance H as location w5 H5
    by (apply lift_Raise, yaml_get_not_called in H; discriminate H).
  advance H as date w6 H6
    by (apply lift_Raise, yaml_get_not_called in H; discriminate H).
  advance H as last_block_header w7 H7
    by (destruct (get_latest_block_header_returns env true w6) as (t & w6' & Ht);
        rewrite Ht in H; discriminate H).
  cbv zeta in H.
  advance H as template_content w8 H8
    by (unfold read_file in H; destruct (files w7 !! _); inversion H).
  advance H as certificate_content w9 H9
    by (apply lift_Raise, Hformat in H; discriminate H).
  fold unsigned in H.
  advance H as u10 w10 H10
    by (unfold write_file in H; destruct (is_dir w9 unsigned); inversion H).
  assert (Hwritten : files w10 !! unsigned = Some certificate_content).
  { unfold write_file in H10. destruct (is_dir w9 unsigned); [discriminate H10|].
    injection H10 as _ <-. cbn [files set_files]. apply lookup_insert_eq. }
  advance H as u11 w11 H11 by (discriminate H).
  assert (Hstill : files w11 !! unsigned = Some certificate_content).
  { injection H11 as _ <-. exact Hwritten. }
  apply bind_Raise_inv in H as [H|(signed_file & w12 & H12 & H)].
  - unfold sign_certificate in H. fold (signed_name unsigned) in H. fold gpg in H.
    apply bind_Raise_inv in H as [H|(r & w12 & _ & H)]; [|discriminate H].
    unfold subprocess_run in H.
    pose proof (Hkeep (sign_command (signed_name unsigned) unsigned)
                  (history w11) (files w11)) as Hkept.
    fold gpg in Hkept.
    destruct (run_process env gpg (history w11) (files w11)) as [result files'].
    cbn [snd] in Hkept.
    destruct (Z.eqb_spec (returncode result) 0) as [|Hrc]; [discriminate H|].
    injection H as Hcode <-. cbn [files history]. split_and!.
    + rewrite Hkept, Hstill. by eexists.
    + by eexists.
    + by rewrite <- Hcode.
  - exfalso.
    advance H as u13 w13 H13 by (discriminate H).
    advance H as u14 w14 H14
      by (unfold os_remove in H; destruct (files w13 !! unsigned);
          [|destruct (is_dir w13 unsigned)]; inversion H).
    apply bind_Raise_inv in H as [H|(u15 & w15 & _ & H)]; [|discriminate H].
    unfold timestamp_file in H.
    apply bind_Raise_inv in H as [H|(r & w15 & _ & H)]; [|discriminate H].
    unfold subprocess_run in H.
    destruct (run_process env _ (history w14) (files w14)) as [result files'].
    destruct (returncode result =? 0)%Z; [discriminate H|].
    unfold gpg in H. injection H as Hcmd _ _. discriminate Hcmd.
Qed.

Lemma generate_certificate_signing_fails_witness :
  is_Some (files (snd (generate_bitcoin_txt_certificate.generate_certificate
                         no_key_env edition alice_result "r/alice" results_world))
             !! "r/alice/bitcoin_certificate.txt").
Proof.
  refine (proj1 (generate_certificate_signing_fails no_key_env edition alice_result
                   "r/alice" 2 results_world _ _ _ _)).
  - intros template kwargs e He. cbn [str_format no_key_env] in He.
    unfold format_plain in He. destruct (existsb _ _); by inversion He.
  - intros c hist fs. unfold no_key_env. cbn [run_process].
    destruct (Str.prefix "gpg" c); reflexivity.
  - vm_compute. reflexivity.
Defined.
